(** * The Directory Service node core of Zilliqa: state gate, PoW intake,
      difficulty controller and message dispatcher.

    Shallow embedding of
    - [libDirectoryService/DirectoryService.cpp]
      (the constructor, CheckState, CheckWhetherDSBlockIsFresh, SetState,
       CleanVariables, ToBlockMessage, Execute, GetStateString,
       GetActionString, CalculateNewDifficulty, and the loop of
       ProcessSetPrimary and FinishRejoinAsDS that sets m_consensusMyID), and
    - [libDirectoryService/PoWProcessing.cpp]
      (VerifyPoWSubmission, ParseMessageAndVerifyPOW,
       CheckPoWSubmissionExceedsLimitsForNode,
       UpdatePoWSubmissionCounterforNode, ResetPoWSubmissionCounter,
       ProcessPoWSubmission, AddDSPoWs, GetAllDSPoWs, clearDSPoWSolns,
       GetDSPoWSoln, IsNodeSubmittedDSPoWSoln, GetNumberOfDSPoWSolns).

    Member functions become functions in a state-and-log monad over the
    record [DirectoryService]; the constants of [common/Constants.h] and the
    collaborators that live in other libraries (serialization, Schnorr,
    PoW, whitelist) are taken as records of parameters. The other threads
    of the node, the epoch driver, the clock and the other runs of the
    handler, enter a run at the points where it yields to them. *)

From Stdlib Require Import ZArith Lia List Bool String.
From stdpp Require Import gmap strings list.

Local Open Scope Z_scope.

(** ** Primitive data *)

(** [unsigned char] is a [Z] in [0, 256); a message is a
    [vector<unsigned char>]. *)
Abbreviation byte := Z (only parsing).
Abbreviation Message := (list Z) (only parsing).

(** A [PubKey] is kept as its 33 serialized bytes, a 32-byte array as the
    list of its bytes. Both are ordered map keys / values in the source. *)
Abbreviation PubKey := (list Z) (only parsing).
Abbreviation Hash32 := (list Z) (only parsing).

(** Objects whose structure the Directory Service core never inspects
    (blocks, the consensus object) are kept as their serialized bytes. *)
Abbreviation Blob := (list Z) (only parsing).

Definition wrap (bits : Z) (x : Z) : Z := x mod 2 ^ bits.
Definition uint8 (x : Z) : Z := wrap 8 x.
Definition uint32 (x : Z) : Z := wrap 32 x.
Definition uint64 (x : Z) : Z := wrap 64 x.

Definition INT64_MIN : Z := - 2 ^ 63.
Definition INT64_MAX : Z := 2 ^ 63 - 1.
Definition in_int64 (x : Z) : bool := (INT64_MIN <=? x) && (x <=? INT64_MAX).

(** [Peer]: a 128-bit IP address and a 32-bit listening port. *)
Record Peer : Type := mkPeer {
  m_ipAddress : Z;
  m_listenPortHost : Z
}.

(** ** Enumerations *)

(** [DirectoryService::DirState], in the order of [DirStateStrings]. *)
Inductive DirState : Type :=
| POW_SUBMISSION
| DSBLOCK_CONSENSUS_PREP
| DSBLOCK_CONSENSUS
| MICROBLOCK_SUBMISSION
| FINALBLOCK_CONSENSUS_PREP
| FINALBLOCK_CONSENSUS
| VIEWCHANGE_CONSENSUS_PREP
| VIEWCHANGE_CONSENSUS
| ERROR.

(** [DirectoryService::Action], in the order of [ActionStrings]. *)
Inductive Action : Type :=
| PROCESS_POWSUBMISSION
| VERIFYPOW
| PROCESS_DSBLOCKCONSENSUS
| PROCESS_MICROBLOCKSUBMISSION
| PROCESS_FINALBLOCKCONSENSUS
| PROCESS_VIEWCHANGECONSENSUS.

(** [DirectoryService::Mode]. *)
Inductive Mode : Type := IDLE | PRIMARY_DS | BACKUP_DS.

(** [SyncType]: the sources name [NO_SYNC] and [DS_SYNC]; the remaining
    members of the enumeration are only ever compared against [NO_SYNC]. *)
Inductive SyncType : Type := NO_SYNC | DS_SYNC | OTHER_SYNC.

#[global] Instance DirState_eq_dec : EqDecision DirState.
Proof. solve_decision. Defined.
#[global] Instance Action_eq_dec : EqDecision Action.
Proof. solve_decision. Defined.
#[global] Instance Mode_eq_dec : EqDecision Mode.
Proof. solve_decision. Defined.
#[global] Instance SyncType_eq_dec : EqDecision SyncType.
Proof. solve_decision. Defined.
#[global] Instance Peer_eq_dec : EqDecision Peer.
Proof. solve_decision. Defined.

(** The underlying value of a [DirState], which orders the keys of
    [ACTIONS_FOR_STATE]. *)
Definition DirState_ord (s : DirState) : Z :=
  match s with
  | POW_SUBMISSION => 0
  | DSBLOCK_CONSENSUS_PREP => 1
  | DSBLOCK_CONSENSUS => 2
  | MICROBLOCK_SUBMISSION => 3
  | FINALBLOCK_CONSENSUS_PREP => 4
  | FINALBLOCK_CONSENSUS => 5
  | VIEWCHANGE_CONSENSUS_PREP => 6
  | VIEWCHANGE_CONSENSUS => 7
  | ERROR => 8
  end.

(** [DirStateStrings] / [GetStateString]: MAKE_LITERAL_PAIR(s) is [{s, #s}];
    every enumerator has an entry, so "Unknown" is never produced. *)
Definition GetStateString (s : DirState) : string :=
  match s with
  | POW_SUBMISSION => "POW_SUBMISSION"
  | DSBLOCK_CONSENSUS_PREP => "DSBLOCK_CONSENSUS_PREP"
  | DSBLOCK_CONSENSUS => "DSBLOCK_CONSENSUS"
  | MICROBLOCK_SUBMISSION => "MICROBLOCK_SUBMISSION"
  | FINALBLOCK_CONSENSUS_PREP => "FINALBLOCK_CONSENSUS_PREP"
  | FINALBLOCK_CONSENSUS => "FINALBLOCK_CONSENSUS"
  | VIEWCHANGE_CONSENSUS_PREP => "VIEWCHANGE_CONSENSUS_PREP"
  | VIEWCHANGE_CONSENSUS => "VIEWCHANGE_CONSENSUS"
  | ERROR => "ERROR"
  end%string.

(** [ActionStrings] / [GetActionString]. *)
Definition GetActionString (a : Action) : string :=
  match a with
  | PROCESS_POWSUBMISSION => "PROCESS_POWSUBMISSION"
  | VERIFYPOW => "VERIFYPOW"
  | PROCESS_DSBLOCKCONSENSUS => "PROCESS_DSBLOCKCONSENSUS"
  | PROCESS_MICROBLOCKSUBMISSION => "PROCESS_MICROBLOCKSUBMISSION"
  | PROCESS_FINALBLOCKCONSENSUS => "PROCESS_FINALBLOCKCONSENSUS"
  | PROCESS_VIEWCHANGECONSENSUS => "PROCESS_VIEWCHANGECONSENSUS"
  end%string.

(** ** Configuration constants *)

(** The constants of [common/Constants.h] that the two translation units
    read. Their values come from the node's configuration, so they are
    parameters of the development. The numeric ones are [unsigned int]. *)
Record Constants : Type := mkConstants {
  LOOKUP_NODE_MODE : bool;
  TEST_NET_MODE : bool;
  POW_SUBMISSION_LIMIT : Z;
  POW_SUBMISSION_TIMEOUT : Z;
  POW_DIFFICULTY : Z;
  DS_POW_DIFFICULTY : Z;
  NUM_NETWORK_NODE : Z;
  POW_CHANGE_PERCENT_TO_ADJ_DIFF : Z;
  POW_WINDOW_IN_SECONDS : Z;
  NUM_FINAL_BLOCK_PER_POW : Z;
  TX_DISTRIBUTE_TIME_IN_MS : Z
}.

(** Modelled from the spec: the field widths of [common/Constants.h], which
    is not among the sources (section 6: BLOCK_HASH_SIZE = 32,
    PUB_KEY_SIZE = 33, SIGNATURE_CHALLENGE_SIZE = 32,
    SIGNATURE_RESPONSE_SIZE = 32). *)
Definition BLOCK_HASH_SIZE : nat := 32.
Definition PUB_KEY_SIZE : nat := 33.
Definition SIGNATURE_CHALLENGE_SIZE : nat := 32.
Definition SIGNATURE_RESPONSE_SIZE : nat := 32.

Definition sizeof_uint8_t : nat := 1.
Definition sizeof_uint32_t : nat := 4.
Definition sizeof_uint64_t : nat := 8.

(** ** Log *)

Inductive Level : Type := INFO | WARNING.

(** One constructor per logging statement of the two files; streamed values
    are kept as arguments. *)
Inductive LogMsg : Type :=
| NotExpectedFromLookUp (fn : string)
| NonDSNodeNow
| ActionNotAllowed (action state : string)
| DSStateIsNow (state : string)
| ProcessingDuplicatedBlocks
| MissingDSBlocks (cur new : Z)
| FailedToDeserializePubKey
| NotInDSWhitelist
| TooLateAssumeTrue (state : DirState)
| PrivateOrBroadcastIP
| ExceededMaxPowSubmission (peer : Peer)
| PoWSignatureWrong
| WinnerPublicKey (key : PubKey)
| WinnerPeer (ip port : Z)
| DsblockNum (n : Z)
| DifficultyInvalid (level expectedDS expected : Z)
| PowVerifyTime
| TooLate (state : DirState)
| PoWVerificationPassed
| InvalidPoWSubmission (blockNum difficulty nonce : Z) (peer : Peer)
| TimeOutWaitingForStateTransition
| StateTransitionCompleted
| NotAtPowSubmission (state : DirState)
| PowMessageSizeInappropriate
| NoSuchElementInAllDSPoWs
| IgnoreDSMessage
| UnknownInstructionByte (ins : Z)
| NodesAndSubmissions (currentNodes powSubmissions : Z)
| SubmissionDifferenceWrong
| DifficultyAdjustmentWrong
| OneYearEpoch (epoch : Z).

Definition LogEntry : Type := Level * LogMsg.

(** ** The node *)

(** What the core reads through [m_mediator]. *)
Record Mediator : Type := mkMediator {
  m_currentEpochNum : Z;
  lastDSBlockNum : Z;          (* m_dsBlockChain.GetLastBlock().GetHeader().GetBlockNum() *)
  lastDSBlockDifficulty : Z;   (* ....GetHeader().GetDifficulty() *)
  lastDSBlockDSDifficulty : Z; (* ....GetHeader().GetDSDifficulty() *)
  m_dsBlockRand : Hash32;
  m_txBlockRand : Hash32;
  m_syncType : SyncType        (* m_lookup->m_syncType *)
}.

(** [struct timespec], as one reading of the clock. *)
Definition Timespec : Type := Z.

Record DirectoryService : Type := mkDS {
  m_mediator : Mediator;
  m_state : DirState;
  m_mode : Mode;
  m_consensusLeaderID : Z;
  m_consensusID : Z;
  m_viewChangeCounter : Z;
  m_shards : list (gmap PubKey Peer);
  m_publicKeyToShardIdMap : gmap PubKey Z;
  m_allPoWConns : gmap PubKey Peer;
  m_allPoWs : gmap PubKey Hash32;
  m_allDSPoWs : gmap PubKey Hash32;
  m_AllPoWCounter : gmap PubKey Z;
  m_consensusObject : option Blob;
  m_consensusBlockHash : list Z;
  m_pendingDSBlock : option Blob;
  m_microBlocks : list Blob;
  m_finalBlock : option Blob;
  m_finalBlockMessage : list Z;
  m_sharingAssignment : list Peer;
  m_timespec : Timespec          (* written by r_timer_start() *)
}.

Definition set_m_state (v : DirState) (d : DirectoryService) : DirectoryService :=
  mkDS (m_mediator d) v (m_mode d) (m_consensusLeaderID d) (m_consensusID d)
       (m_viewChangeCounter d) (m_shards d) (m_publicKeyToShardIdMap d)
       (m_allPoWConns d) (m_allPoWs d) (m_allDSPoWs d) (m_AllPoWCounter d)
       (m_consensusObject d) (m_consensusBlockHash d) (m_pendingDSBlock d)
       (m_microBlocks d) (m_finalBlock d) (m_finalBlockMessage d)
       (m_sharingAssignment d) (m_timespec d).

Definition set_m_allPoWConns (v : gmap PubKey Peer) (d : DirectoryService) : DirectoryService :=
  mkDS (m_mediator d) (m_state d) (m_mode d) (m_consensusLeaderID d) (m_consensusID d)
       (m_viewChangeCounter d) (m_shards d) (m_publicKeyToShardIdMap d)
       v (m_allPoWs d) (m_allDSPoWs d) (m_AllPoWCounter d)
       (m_consensusObject d) (m_consensusBlockHash d) (m_pendingDSBlock d)
       (m_microBlocks d) (m_finalBlock d) (m_finalBlockMessage d)
       (m_sharingAssignment d) (m_timespec d).

Definition set_m_allPoWs (v : gmap PubKey Hash32) (d : DirectoryService) : DirectoryService :=
  mkDS (m_mediator d) (m_state d) (m_mode d) (m_consensusLeaderID d) (m_consensusID d)
       (m_viewChangeCounter d) (m_shards d) (m_publicKeyToShardIdMap d)
       (m_allPoWConns d) v (m_allDSPoWs d) (m_AllPoWCounter d)
       (m_consensusObject d) (m_consensusBlockHash d) (m_pendingDSBlock d)
       (m_microBlocks d) (m_finalBlock d) (m_finalBlockMessage d)
       (m_sharingAssignment d) (m_timespec d).

Definition set_m_allDSPoWs (v : gmap PubKey Hash32) (d : DirectoryService) : DirectoryService :=
  mkDS (m_mediator d) (m_state d) (m_mode d) (m_consensusLeaderID d) (m_consensusID d)
       (m_viewChangeCounter d) (m_shards d) (m_publicKeyToShardIdMap d)
       (m_allPoWConns d) (m_allPoWs d) v (m_AllPoWCounter d)
       (m_consensusObject d) (m_consensusBlockHash d) (m_pendingDSBlock d)
       (m_microBlocks d) (m_finalBlock d) (m_finalBlockMessage d)
       (m_sharingAssignment d) (m_timespec d).

Definition set_m_AllPoWCounter (v : gmap PubKey Z) (d : DirectoryService) : DirectoryService :=
  mkDS (m_mediator d) (m_state d) (m_mode d) (m_consensusLeaderID d) (m_consensusID d)
       (m_viewChangeCounter d) (m_shards d) (m_publicKeyToShardIdMap d)
       (m_allPoWConns d) (m_allPoWs d) (m_allDSPoWs d) v
       (m_consensusObject d) (m_consensusBlockHash d) (m_pendingDSBlock d)
       (m_microBlocks d) (m_finalBlock d) (m_finalBlockMessage d)
       (m_sharingAssignment d) (m_timespec d).

Definition set_m_timespec (v : Timespec) (d : DirectoryService) : DirectoryService :=
  mkDS (m_mediator d) (m_state d) (m_mode d) (m_consensusLeaderID d) (m_consensusID d)
       (m_viewChangeCounter d) (m_shards d) (m_publicKeyToShardIdMap d)
       (m_allPoWConns d) (m_allPoWs d) (m_allDSPoWs d) (m_AllPoWCounter d)
       (m_consensusObject d) (m_consensusBlockHash d) (m_pendingDSBlock d)
       (m_microBlocks d) (m_finalBlock d) (m_finalBlockMessage d)
       (m_sharingAssignment d) v.

(** [std::map::emplace]: inserts unless the key is already there. *)
Definition emplace {V} (key : PubKey) (v : V) (m : gmap PubKey V) : gmap PubKey V :=
  match m !! key with
  | Some _ => m
  | None => <[key := v]> m
  end.

(** ** The state-and-log monad of member functions *)

Definition M (A : Type) : Type :=
  DirectoryService -> A * DirectoryService * list LogEntry.

#[global] Instance M_ret : MRet M := fun A a d => (a, d, []).

#[global] Instance M_bind : MBind M := fun A B k m d =>
  let '(a, d1, l1) := m d in
  let '(b, d2, l2) := k a d1 in
  (b, d2, l1 ++ l2).

Definition get : M DirectoryService := fun d => (d, d, []).
Definition modify (f : DirectoryService -> DirectoryService) : M unit :=
  fun d => (tt, f d, []).
Definition LOG (lvl : Level) (msg : LogMsg) : M unit :=
  fun d => (tt, d, [(lvl, msg)]).

Definition value {A} (r : A * DirectoryService * list LogEntry) : A := r.1.1.
Definition final {A} (r : A * DirectoryService * list LogEntry) : DirectoryService := r.1.2.
Definition logged {A} (r : A * DirectoryService * list LogEntry) : list LogEntry := r.2.

(** ** The permitted-action table *)

(** The [static const std::multimap<DirState, Action>] of [CheckState]; a
    multimap keeps its entries sorted by key, equal keys in insertion
    order, which is the order of the initializer list. *)
Definition ACTIONS_FOR_STATE : list (DirState * Action) :=
  [ (POW_SUBMISSION, PROCESS_POWSUBMISSION);
    (POW_SUBMISSION, VERIFYPOW);
    (DSBLOCK_CONSENSUS, PROCESS_DSBLOCKCONSENSUS);
    (MICROBLOCK_SUBMISSION, PROCESS_MICROBLOCKSUBMISSION);
    (FINALBLOCK_CONSENSUS, PROCESS_FINALBLOCKCONSENSUS);
    (VIEWCHANGE_CONSENSUS, PROCESS_VIEWCHANGECONSENSUS) ].

(** Iterators into the multimap are the suffixes that start at them. *)
Fixpoint lower_bound (k : DirState) (l : list (DirState * Action)) : list (DirState * Action) :=
  match l with
  | [] => []
  | e :: rest => if DirState_ord e.1 <? DirState_ord k then lower_bound k rest else l
  end.

Fixpoint upper_bound (k : DirState) (l : list (DirState * Action)) : list (DirState * Action) :=
  match l with
  | [] => []
  | e :: rest => if DirState_ord e.1 <=? DirState_ord k then upper_bound k rest else l
  end.

(** The [for] loop of [CheckState]: walk from [pos] until the iterator
    [stop] is reached, leaving with [found = true] at the first entry whose
    action is the one asked for. *)
Fixpoint scan_actions (action : Action) (stop : list (DirState * Action))
         (pos : list (DirState * Action)) : bool :=
  match pos with
  | [] => false
  | e :: rest =>
      if (length pos =? length stop)%nat then false
      else if bool_decide (e.2 = action) then true
      else scan_actions action stop rest
  end.

(** ** Collaborators *)

(** Code of other libraries that the two files call: [Serializable],
    [PubKey], [Signature], [Schnorr], [POW], [Whitelist], [DataConversion]
    and [SafeMath]. The development is parametric in them. *)
Record Collaborators : Type := mkCollaborators {
  (* Serializable::GetNumber<T>(message, offset, len) *)
  GetNumber : Message -> nat -> nat -> Z;
  (* PubKey::Deserialize(message, offset): the key when it returns 0 *)
  PubKey_Deserialize : Message -> nat -> option PubKey;
  (* Whitelist::GetInstance().IsNodeInDSWhiteList(peer, key) *)
  IsNodeInDSWhiteList : Peer -> PubKey -> bool;
  (* Whitelist::GetInstance().IsValidIP(ip) *)
  IsValidIP : Z -> bool;
  (* DataConversion::Uint8VecToHexStr(message, offset, len) *)
  Uint8VecToHexStr : Message -> nat -> nat -> string;
  (* DataConversion::HexStrToStdArray(hex) *)
  HexStrToStdArray : string -> Hash32;
  (* Signature(message, offset) *)
  Signature_at : Message -> nat -> Blob;
  (* Schnorr::GetInstance().Verify(message, offset, size, signature, key) *)
  Schnorr_Verify : Message -> nat -> nat -> Blob -> PubKey -> bool;
  (* POW::GetInstance().PoWVerify(block_num, difficulty, rand1, rand2,
       ip, key, fullDataset, nonce, result_hash, mix_hash) *)
  PoWVerify : Z -> Z -> Hash32 -> Hash32 -> Z -> PubKey -> bool -> Z ->
              string -> string -> bool;
  (* SafeMath<int64_t>::sub(a, b, result) and ::div(a, b, result):
     the result when they return true *)
  SafeMath_sub : Z -> Z -> option Z;
  SafeMath_div : Z -> Z -> option Z
}.

(** Modelled from the spec: [IsMessageSizeInappropriate] of
    [libUtils/SanityChecks.h], which is not among the sources. Section 4.2
    has "Total fixed size; shorter messages are rejected as malformed":
    a message is inappropriate when fewer than [minLengthNeeded] bytes
    follow [offset]. *)
Definition IsMessageSizeInappropriate (messageSize offset minLengthNeeded : nat) : bool :=
  Z.of_nat messageSize - Z.of_nat offset <? Z.of_nat minLengthNeeded.

(** ** Concurrent threads *)

(** A handler runs on a network thread while the epoch driver, on its own
    thread, advances [m_state] with [SetState]. A schedule tells which of
    the driver's transitions land inside one run of the PoW handler:
    while it waits on [cv_POWSubmission], between the state gate and the
    first VERIFYPOW check, and while the PoW is being verified. It also
    tells whether the wait ended by timeout, and what [r_timer_start()]
    reads from the clock when the run starts its timer.

    Other network threads run the same handler. What they do to the node
    while this thread verifies a solution, between its check of the
    submission count and its record of the submission, is an argument of
    [ParseMessageAndVerifyPOW_while] and [ProcessPoWSubmission_while]
    below. *)
Record Schedule : Type := mkSchedule {
  wait_timed_out : bool;
  set_during_wait : option DirState;
  set_before_parse : option DirState;
  set_during_verify : option DirState;
  r_timer_start : Timespec
}.

Definition quiet : Schedule := mkSchedule false None None None 0.

(** The reference parameters that [VerifyPoWSubmission] assigns; [None] is
    a variable that was declared but not yet written. The caller reads
    [block_num] and [nonce] with [default 0] where C++ reads whatever the
    variable holds: in the branch that records a submission both have been
    assigned, elsewhere they only reach the log. An unwritten
    [winning_hash] is the empty [std::string]. *)
Record PoWRefs : Type := mkPoWRefs {
  ref_nonce : option Z;
  ref_rand1 : option Hash32;
  ref_rand2 : option Hash32;
  ref_block_num : option Z;
  ref_winning_hash : option string
}.

(** What a call leaves the caller with: a returned value, or an exception
    that propagates. *)
Inductive Outcome (A : Type) : Type :=
| Returned (a : A)
| Thrown (what : string).
Arguments Returned {A} a.
Arguments Thrown {A} what.

Definition Handler : Type := Message -> nat -> Peer -> M bool.

(** The other entries of the dispatch table: the handlers defined in other
    translation units, and [ProcessSetPrimary], whose body runs the peer
    store, the lookup and [RunConsensusOnDSBlock] of those units. *)
Record Handlers : Type := mkHandlers {
  ProcessSetPrimary : Handler;
  ProcessDSBlockConsensus : Handler;
  ProcessMicroblockSubmission : Handler;
  ProcessFinalBlockConsensus : Handler;
  ProcessViewChangeConsensus : Handler
}.

Section Node.

Context (K : Constants) (X : Collaborators).

Definition CheckState (action : Action) : M bool :=
  if LOOKUP_NODE_MODE K then
    LOG WARNING (NotExpectedFromLookUp "CheckState") ;;
    mret true
  else
    d ← get;
    if bool_decide (m_mode d = IDLE) then
      LOG WARNING NonDSNodeNow ;;
      mret false
    else
      let found :=
        scan_actions action (upper_bound (m_state d) ACTIONS_FOR_STATE)
                     (lower_bound (m_state d) ACTIONS_FOR_STATE) in
      if negb found then
        LOG WARNING (ActionNotAllowed (GetActionString action)
                                      (GetStateString (m_state d))) ;;
        mret false
      else mret true.

Definition CheckWhetherDSBlockIsFresh (dsblock_num : Z) : M bool :=
  if LOOKUP_NODE_MODE K then
    LOG WARNING (NotExpectedFromLookUp "CheckWhetherDSBlockIsFresh") ;;
    mret true
  else
    d ← get;
    let latest_block_num_in_blockchain := lastDSBlockNum (m_mediator d) in
    if dsblock_num <? uint64 (latest_block_num_in_blockchain + 1) then
      LOG WARNING ProcessingDuplicatedBlocks ;;
      mret false
    else if uint64 (latest_block_num_in_blockchain + 1) <? dsblock_num then
      LOG INFO (MissingDSBlocks dsblock_num latest_block_num_in_blockchain) ;;
      mret false
    else mret true.

Definition SetState (state : DirState) : M unit :=
  if LOOKUP_NODE_MODE K then
    LOG WARNING (NotExpectedFromLookUp "SetState")
  else
    modify (set_m_state state) ;;
    LOG INFO (DSStateIsNow (GetStateString state)).

(** A transition of the epoch driver that the schedule places here. *)
Definition interleave (t : option DirState) : M unit :=
  match t with
  | Some s => SetState s
  | None => mret tt
  end.

Definition AddDSPoWs (Pubk : PubKey) (DSPOWSoln : Hash32) : M unit :=
  modify (fun d => set_m_allDSPoWs (<[Pubk := DSPOWSoln]> (m_allDSPoWs d)) d).

Definition GetAllDSPoWs : M (gmap PubKey Hash32) :=
  d ← get; mret (m_allDSPoWs d).

Definition clearDSPoWSolns : M unit :=
  modify (set_m_allDSPoWs ∅).

Definition IsNodeSubmittedDSPoWSoln (Pubk : PubKey) : M bool :=
  d ← get; mret (bool_decide (is_Some (m_allDSPoWs d !! Pubk))).

Definition GetNumberOfDSPoWSolns : M Z :=
  d ← get; mret (uint32 (Z.of_nat (size (m_allDSPoWs d)))).

Definition CheckPoWSubmissionExceedsLimitsForNode (key : PubKey) : M bool :=
  d ← get;
  match m_AllPoWCounter d !! key with
  | None => mret false
  | Some n => if n <? POW_SUBMISSION_LIMIT K then mret false else mret true
  end.

Definition UpdatePoWSubmissionCounterforNode (key : PubKey) : M unit :=
  modify (fun d =>
    match m_AllPoWCounter d !! key with
    | None => set_m_AllPoWCounter (<[key := 1]> (m_AllPoWCounter d)) d
    | Some n => set_m_AllPoWCounter (<[key := uint32 (n + 1)]> (m_AllPoWCounter d)) d
    end).

Definition ResetPoWSubmissionCounter : M unit :=
  modify (set_m_AllPoWCounter ∅).

Definition CleanVariables : M bool :=
  if LOOKUP_NODE_MODE K then
    LOG WARNING (NotExpectedFromLookUp "CleanVariables") ;;
    mret true
  else
    modify (fun d =>
      {| m_mediator := m_mediator d; m_state := m_state d; m_mode := m_mode d;
         m_consensusLeaderID := m_consensusLeaderID d;
         m_consensusID := m_consensusID d;
         m_viewChangeCounter := m_viewChangeCounter d;
         m_shards := [];
         m_publicKeyToShardIdMap := ∅;
         m_allPoWConns := ∅;
         m_allPoWs := ∅;
         m_allDSPoWs := m_allDSPoWs d; m_AllPoWCounter := m_AllPoWCounter d;
         m_consensusObject := None;
         m_consensusBlockHash := [];
         m_pendingDSBlock := None;
         m_microBlocks := m_microBlocks d; m_finalBlock := m_finalBlock d;
         m_finalBlockMessage := m_finalBlockMessage d;
         m_sharingAssignment := m_sharingAssignment d;
         m_timespec := m_timespec d |}) ;;
    clearDSPoWSolns ;;
    ResetPoWSubmissionCounter ;;
    modify (fun d =>
      {| m_mediator := m_mediator d; m_state := m_state d;
         m_shards := m_shards d;
         m_publicKeyToShardIdMap := m_publicKeyToShardIdMap d;
         m_allPoWConns := m_allPoWConns d; m_allPoWs := m_allPoWs d;
         m_allDSPoWs := m_allDSPoWs d; m_AllPoWCounter := m_AllPoWCounter d;
         m_consensusObject := m_consensusObject d;
         m_consensusBlockHash := m_consensusBlockHash d;
         m_pendingDSBlock := m_pendingDSBlock d;
         m_microBlocks := [];
         m_finalBlock := None;
         m_finalBlockMessage := [];
         m_sharingAssignment := [];
         m_timespec := m_timespec d;
         m_viewChangeCounter := 0;
         m_mode := IDLE;
         m_consensusLeaderID := 0;
         m_consensusID := 0 |}) ;;
    mret true.

Definition unset : PoWRefs := mkPoWRefs None None None None None.

Definition VerifyPoWSubmission (sch : Schedule) (message : Message) (from : Peer)
    (key : PubKey) (curr_offset : nat) (portNo : Z) (difficultyLevel : Z)
  : M (bool * PoWRefs) :=
  if LOOKUP_NODE_MODE K then
    LOG WARNING (NotExpectedFromLookUp "VerifyPoWSubmission") ;;
    mret (true, unset)
  else
    (* 8-byte nonce *)
    let nonce := uint64 (GetNumber X message curr_offset sizeof_uint64_t) in
    let curr_offset := (curr_offset + sizeof_uint64_t)%nat in
    (* 32-byte resulting hash *)
    let winning_hash := Uint8VecToHexStr X message curr_offset BLOCK_HASH_SIZE in
    let curr_offset := (curr_offset + BLOCK_HASH_SIZE)%nat in
    (* 32-byte mixhash *)
    let winning_mixhash := Uint8VecToHexStr X message curr_offset BLOCK_HASH_SIZE in
    let curr_offset := (curr_offset + BLOCK_HASH_SIZE)%nat in
    (* 64-byte signature *)
    let sign := Signature_at X message curr_offset in
    if negb (Schnorr_Verify X message 0 curr_offset sign key) then
      LOG WARNING PoWSignatureWrong ;;
      mret (false, mkPoWRefs (Some nonce) None None None (Some winning_hash))
    else
      LOG INFO (WinnerPublicKey key) ;;
      LOG INFO (WinnerPeer (m_ipAddress from) portNo) ;;
      d ← get;
      (* Define the PoW parameters *)
      let rand1 := m_dsBlockRand (m_mediator d) in
      let rand2 := m_txBlockRand (m_mediator d) in
      (* Verify nonce *)
      let block_num := uint64 (lastDSBlockNum (m_mediator d) + 1) in
      let refs := mkPoWRefs (Some nonce) (Some rand1) (Some rand2)
                            (Some block_num) (Some winning_hash) in
      LOG INFO (DsblockNum block_num) ;;
      let expectedDSDiff :=
        if 1 <? block_num then lastDSBlockDSDifficulty (m_mediator d)
        else uint8 (DS_POW_DIFFICULTY K) in
      let expectedDiff :=
        if 1 <? block_num then lastDSBlockDifficulty (m_mediator d)
        else uint8 (POW_DIFFICULTY K) in
      if negb (difficultyLevel =? expectedDSDiff)
         && negb (difficultyLevel =? expectedDiff) then
        LOG WARNING (DifficultyInvalid difficultyLevel expectedDSDiff expectedDiff) ;;
        mret (false, refs)
      else
        modify (set_m_timespec (r_timer_start sch)) ;;
        let result :=
          PoWVerify X block_num difficultyLevel rand1 rand2 (m_ipAddress from)
                    key false nonce winning_hash winning_mixhash in
        LOG INFO PowVerifyTime ;;
        mret (result, refs).

(** [ParseMessageAndVerifyPOW]. The check of the submission count and the
    record of the submission are separate critical sections with the
    verification of the solution between them: [during_verify] is what
    the other threads do to the node in between. *)
Definition ParseMessageAndVerifyPOW_while (during_verify : M unit) (sch : Schedule)
    (message : Message) (offset : nat) (from : Peer) : M bool :=
  if LOOKUP_NODE_MODE K then
    LOG WARNING (NotExpectedFromLookUp "ParseMessageAndVerifyPOW") ;;
    mret true
  else
    let curr_offset := offset in
    (* 8-bytes block number *)
    let DSBlockNum := uint64 (GetNumber X message curr_offset sizeof_uint64_t) in
    let curr_offset := (curr_offset + sizeof_uint64_t)%nat in
    (* 1-byte difficultyLevel *)
    let difficultyLevel := uint8 (GetNumber X message curr_offset sizeof_uint8_t) in
    let curr_offset := (curr_offset + sizeof_uint8_t)%nat in
    (* Check block number *)
    fresh ← CheckWhetherDSBlockIsFresh DSBlockNum;
    if negb fresh then mret false
    else
      (* 4-byte listening port *)
      let portNo := uint32 (GetNumber X message curr_offset sizeof_uint32_t) in
      let curr_offset := (curr_offset + sizeof_uint32_t)%nat in
      let ipAddr := m_ipAddress from in
      let peer := mkPeer ipAddr portNo in
      (* 33-byte public key *)
      match PubKey_Deserialize X message curr_offset with
      | None =>
          LOG WARNING FailedToDeserializePubKey ;;
          mret false
      | Some key =>
          let curr_offset := (curr_offset + PUB_KEY_SIZE)%nat in
          (if TEST_NET_MODE K && negb (IsNodeInDSWhiteList X peer key)
           then LOG WARNING NotInDSWhitelist
           else mret tt) ;;
          interleave (set_before_parse sch) ;;
          allowed ← CheckState VERIFYPOW;
          if negb allowed then
            d ← get;
            LOG INFO (TooLateAssumeTrue (m_state d)) ;;
            mret true
          else if negb (IsValidIP X (m_ipAddress peer)) then
            LOG WARNING PrivateOrBroadcastIP ;;
            mret false
          else
            exceeds ← CheckPoWSubmissionExceedsLimitsForNode key;
            if exceeds : bool then
              LOG WARNING (ExceededMaxPowSubmission peer) ;;
              mret false
            else
              vr ← VerifyPoWSubmission sch message from key curr_offset
                                       portNo difficultyLevel;
              let result : bool := vr.1 in
              let refs : PoWRefs := vr.2 in
              during_verify ;;
              (if result then
                 (* Do another check on the state before accessing m_allPoWs *)
                 allowed ← CheckState VERIFYPOW;
                 if negb allowed then
                   d ← get;
                   LOG INFO (TooLate (m_state d))
                 else
                   LOG INFO PoWVerificationPassed ;;
                   let winningHashArr :=
                     HexStrToStdArray X (default EmptyString (ref_winning_hash refs)) in
                   modify (fun d =>
                     set_m_allPoWConns (emplace key peer (m_allPoWConns d)) d) ;;
                   modify (fun d =>
                     set_m_allPoWs (<[key := winningHashArr]> (m_allPoWs d)) d) ;;
                   d ← get;
                   let expectedDSDiff :=
                     if 1 <? default 0 (ref_block_num refs)
                     then lastDSBlockDSDifficulty (m_mediator d)
                     else uint8 (DS_POW_DIFFICULTY K) in
                   (if difficultyLevel =? expectedDSDiff
                    then AddDSPoWs key winningHashArr
                    else mret tt) ;;
                   UpdatePoWSubmissionCounterforNode key
               else
                 LOG INFO (InvalidPoWSubmission
                             (default 0 (ref_block_num refs)) difficultyLevel
                             (default 0 (ref_nonce refs)) peer)) ;;
              mret result
      end.

(** The run in which the epoch driver is the only other thread. *)
Definition ParseMessageAndVerifyPOW (sch : Schedule) (message : Message)
    (offset : nat) (from : Peer) : M bool :=
  ParseMessageAndVerifyPOW_while (interleave (set_during_verify sch))
                                 sch message offset from.

Definition ProcessPoWSubmission_while (during_verify : M unit) (sch : Schedule)
    (message : Message) (offset : nat) (from : Peer) : M bool :=
  if LOOKUP_NODE_MODE K then
    LOG WARNING (NotExpectedFromLookUp "ProcessPoWSubmission") ;;
    mret true
  else
    d ← get;
    (if bool_decide (m_state d = FINALBLOCK_CONSENSUS) then
       interleave (set_during_wait sch) ;;
       (if wait_timed_out sch
        then LOG WARNING TimeOutWaitingForStateTransition
        else mret tt) ;;
       LOG INFO StateTransitionCompleted
     else mret tt) ;;
    allowed ← CheckState PROCESS_POWSUBMISSION;
    if negb allowed then
      d ← get;
      LOG INFO (NotAtPowSubmission (m_state d)) ;;
      mret false
    else if IsMessageSizeInappropriate (length message) offset
              (sizeof_uint64_t + sizeof_uint32_t + PUB_KEY_SIZE
               + sizeof_uint64_t + BLOCK_HASH_SIZE + BLOCK_HASH_SIZE
               + SIGNATURE_CHALLENGE_SIZE + SIGNATURE_RESPONSE_SIZE) then
      LOG WARNING PowMessageSizeInappropriate ;;
      mret false
    else
      result ← ParseMessageAndVerifyPOW_while during_verify sch message offset from;
      mret result.

Definition ProcessPoWSubmission (sch : Schedule) (message : Message)
    (offset : nat) (from : Peer) : M bool :=
  ProcessPoWSubmission_while (interleave (set_during_verify sch))
                             sch message offset from.

Definition ToBlockMessage (ins_byte : byte) : M bool :=
  d ← get;
  if negb (bool_decide (m_syncType (m_mediator d) = NO_SYNC)) then mret true
  else mret false.

Context (H : Handlers).

Definition Execute (sch : Schedule) (message : Message) (offset : nat)
    (from : Peer) : M (Outcome bool) :=
  let result := false in
  let ins_handlers : list Handler :=
    if negb (LOOKUP_NODE_MODE K) then
      [ ProcessSetPrimary H; ProcessPoWSubmission sch;
        ProcessDSBlockConsensus H; ProcessMicroblockSubmission H;
        ProcessFinalBlockConsensus H; ProcessViewChangeConsensus H ]
    else
      [ ProcessSetPrimary H; ProcessPoWSubmission sch;
        ProcessDSBlockConsensus H; ProcessMicroblockSubmission H;
        ProcessFinalBlockConsensus H ] in
  (* message.at(offset) throws std::out_of_range past the end *)
  match message !! offset with
  | None => mret (Thrown "out_of_range")
  | Some ins_byte =>
      let ins_handlers_count := length ins_handlers in
      blocked ← ToBlockMessage ins_byte;
      if blocked : bool then
        LOG WARNING IgnoreDSMessage ;;
        mret (Returned false)
      else if ins_byte <? Z.of_nat ins_handlers_count then
        match ins_handlers !! Z.to_nat ins_byte with
        | Some handler =>
            result ← handler message (offset + 1)%nat from;
            mret (Returned result)
        | None => mret (Returned result)
        end
      else
        LOG INFO (UnknownInstructionByte ins_byte) ;;
        mret (Returned result)
  end.

(** [estimatedBlocksOneYear] of [CalculateNewDifficulty], rounded to an
    integral multiple of NUM_FINAL_BLOCK_PER_POW. The operands are
    [unsigned int]; a zero divisor is undefined behaviour, [None]. *)
Definition estimatedBlocksOneYear : option Z :=
  if NUM_FINAL_BLOCK_PER_POW K =? 0 then None
  else
    let secondsPerBlock :=
      uint32 (POW_WINDOW_IN_SECONDS K / NUM_FINAL_BLOCK_PER_POW K
              + TX_DISTRIBUTE_TIME_IN_MS K / 1000) in
    if secondsPerBlock =? 0 then None
    else
      let estimate := (365 * 24 * 3600) / secondsPerBlock in
      Some ((estimate / NUM_FINAL_BLOCK_PER_POW K) * NUM_FINAL_BLOCK_PER_POW K).

(** [CalculateNewDifficulty]; [None] is undefined behaviour: a division
    by zero, or the [int64_t] product [currentNodes *
    POW_CHANGE_PERCENT_TO_ADJ_DIFF] out of range. *)
Definition CalculateNewDifficulty (currentDifficulty : Z) : M (option Z) :=
  let MAX_ADJUST_STEP := 2 in
  let ONE_HUNDRED_PERCENT := 100 in
  let MAX_ADJUST_THRESHOLD := 99 in
  let MAX_INCREASE_DIFFICULTY_YEARS := 10 in
  d ← get;
  let powSubmissions := Z.of_nat (size (m_allPoWs d)) in
  let currentNodes :=
    foldl (fun acc (shard : gmap PubKey Peer) => acc + Z.of_nat (size shard))
          0 (m_shards d) in
  LOG INFO (NodesAndSubmissions currentNodes powSubmissions) ;;
  adjusted ←
    (if (0 <? currentNodes) && negb (currentNodes =? powSubmissions) then
       submissionsDiff ←
         match SafeMath_sub X powSubmissions currentNodes with
         | Some r => mret r
         | None => LOG WARNING SubmissionDifferenceWrong ;; mret 0
         end;
       (* To make the adjustment work on small network. *)
       let product := currentNodes * POW_CHANGE_PERCENT_TO_ADJ_DIFF K in
       if negb (in_int64 product) then mret None
       else
         let adjustThreshold := Z.quot product ONE_HUNDRED_PERCENT in
         let adjustThreshold :=
           if MAX_ADJUST_THRESHOLD <? adjustThreshold
           then MAX_ADJUST_THRESHOLD else adjustThreshold in
         if Z.abs submissionsDiff <? adjustThreshold then
           if (0 <? submissionsDiff) && (NUM_NETWORK_NODE K <? powSubmissions)
           then mret (Some 1)
           else if (submissionsDiff <? 0) && (powSubmissions <? NUM_NETWORK_NODE K)
           then mret (Some (-1))
           else mret (Some 0)
         else
           match SafeMath_div X submissionsDiff adjustThreshold with
           | Some r => mret (Some r)
           | None => LOG WARNING DifficultyAdjustmentWrong ;; mret (Some 0)
           end
     else mret (Some 0));
  match adjusted : option Z with
  | None => mret None
  | Some adjustment =>
      (* Restrict the adjustment step *)
      let adjustment :=
        if MAX_ADJUST_STEP <? adjustment then MAX_ADJUST_STEP
        else if adjustment <? - MAX_ADJUST_STEP then - MAX_ADJUST_STEP
        else adjustment in
      let newDifficulty :=
        Z.max (uint8 (adjustment + currentDifficulty)) (uint8 (POW_DIFFICULTY K)) in
      match estimatedBlocksOneYear with
      | None => mret None
      | Some estimated =>
          if estimated =? 0 then mret None
          else
            let epoch := m_currentEpochNum (m_mediator d) in
            if (epoch / estimated <=? MAX_INCREASE_DIFFICULTY_YEARS)
               && (epoch mod estimated =? 0) then
              LOG INFO (OneYearEpoch epoch) ;;
              mret (Some (uint8 (newDifficulty + 1)))
            else mret (Some newDifficulty)
      end
  end.

End Node.

Arguments wrap : simpl never.

(** ** The remaining member functions *)

Section Rest.

Context (K : Constants).

(** The constructor, run on the object as its members are
    default-initialized: containers empty, pointers null, [m_mediator]
    bound, scalars holding whatever the memory holds.
    [cv_POWSubmission.notify_all()] has no waiter to wake yet. *)
Definition DirectoryService_new : M unit :=
  (if negb (LOOKUP_NODE_MODE K) then SetState K POW_SUBMISSION else mret tt) ;;
  modify (fun d =>
    {| m_mediator := m_mediator d; m_state := m_state d;
       m_shards := m_shards d;
       m_publicKeyToShardIdMap := m_publicKeyToShardIdMap d;
       m_allPoWConns := m_allPoWConns d; m_allPoWs := m_allPoWs d;
       m_allDSPoWs := m_allDSPoWs d; m_AllPoWCounter := m_AllPoWCounter d;
       m_consensusObject := m_consensusObject d;
       m_consensusBlockHash := m_consensusBlockHash d;
       m_pendingDSBlock := m_pendingDSBlock d;
       m_microBlocks := m_microBlocks d; m_finalBlock := m_finalBlock d;
       m_finalBlockMessage := m_finalBlockMessage d;
       m_sharingAssignment := m_sharingAssignment d;
       m_timespec := m_timespec d;
       m_mode := IDLE;
       m_consensusLeaderID := 0;
       m_consensusID := 1;
       m_viewChangeCounter := 0 |}).

Definition GetDSPoWSoln (Pubk : PubKey) : M Hash32 :=
  d ← get;
  match m_allDSPoWs d !! Pubk with
  | Some soln => mret soln
  | None =>
      LOG WARNING NoSuchElementInAllDSPoWs ;;
      mret (repeat 0 32)
  end.

End Rest.

(** The loop of [ProcessSetPrimary] and of [FinishRejoinAsDS] that finds
    the node's index in the DS committee: [m_consensusMyID] starts at 0 and
    counts the members passed before the one with the node's own key. The
    counter is kept as a natural number. *)
Fixpoint consensusMyID_loop (selfKey : PubKey) (committee : list (PubKey * Peer))
    (m_consensusMyID : nat) : nat :=
  match committee with
  | [] => m_consensusMyID
  | i :: rest =>
      if bool_decide (i.1 = selfKey) then m_consensusMyID
      else consensusMyID_loop selfKey rest (S m_consensusMyID)
  end.

(** [DirStateStrings] and [ActionStrings] as the maps they are, and the
    lookups of [GetStateString] and [GetActionString] with their "Unknown"
    branch. *)
Definition DirStateStrings : list (DirState * string) :=
  [ (POW_SUBMISSION, "POW_SUBMISSION");
    (DSBLOCK_CONSENSUS_PREP, "DSBLOCK_CONSENSUS_PREP");
    (DSBLOCK_CONSENSUS, "DSBLOCK_CONSENSUS");
    (MICROBLOCK_SUBMISSION, "MICROBLOCK_SUBMISSION");
    (FINALBLOCK_CONSENSUS_PREP, "FINALBLOCK_CONSENSUS_PREP");
    (FINALBLOCK_CONSENSUS, "FINALBLOCK_CONSENSUS");
    (VIEWCHANGE_CONSENSUS_PREP, "VIEWCHANGE_CONSENSUS_PREP");
    (VIEWCHANGE_CONSENSUS, "VIEWCHANGE_CONSENSUS");
    (ERROR, "ERROR") ]%string.

Definition ActionStrings : list (Action * string) :=
  [ (PROCESS_POWSUBMISSION, "PROCESS_POWSUBMISSION");
    (VERIFYPOW, "VERIFYPOW");
    (PROCESS_DSBLOCKCONSENSUS, "PROCESS_DSBLOCKCONSENSUS");
    (PROCESS_MICROBLOCKSUBMISSION, "PROCESS_MICROBLOCKSUBMISSION");
    (PROCESS_FINALBLOCKCONSENSUS, "PROCESS_FINALBLOCKCONSENSUS");
    (PROCESS_VIEWCHANGECONSENSUS, "PROCESS_VIEWCHANGECONSENSUS") ]%string.

Definition find_string {A} `{EqDecision A} (table : list (A * string)) (a : A)
  : option string :=
  (list_find (fun e => e.1 = a) table) ≫= (fun hit => Some hit.2.2).

Definition GetStateString_map (s : DirState) : string :=
  match find_string DirStateStrings s with
  | None => "Unknown"
  | Some name => name
  end.

Definition GetActionString_map (a : Action) : string :=
  match find_string ActionStrings a with
  | None => "Unknown"
  | Some name => name
  end.

(** ** Sample instances, to run the model on concrete inputs *)

(** Modelled from the spec: [SafeMath<int64_t>::sub] and [::div] of
    [libUtils/SafeMath.h], which is not among the sources. Section 4.3 has
    "diff = submissions - active_nodes" and "adjustment = diff / threshold
    (integer division, signed)"; the calls test for failure, which is a
    result outside [int64_t] or a zero divisor. *)
Definition SafeMath_int64_sub (a b : Z) : option Z :=
  if in_int64 (a - b) then Some (a - b) else None.

Definition SafeMath_int64_div (a b : Z) : option Z :=
  if b =? 0 then None
  else if in_int64 (Z.quot a b) then Some (Z.quot a b) else None.

(** Big-endian number of [len] bytes at [offset]; 0 when the message is too
    short. *)
Definition sample_GetNumber (message : Message) (offset len : nat) : Z :=
  if (offset + len <=? length message)%nat
  then fold_left (fun acc b => acc * 256 + b) (take len (drop offset message)) 0
  else 0.

Definition sample_PubKey_Deserialize (message : Message) (offset : nat) : option PubKey :=
  if (offset + PUB_KEY_SIZE <=? length message)%nat
  then Some (take PUB_KEY_SIZE (drop offset message))
  else None.

Definition hex_digit (n : Z) : Ascii.ascii :=
  Ascii.ascii_of_N (Z.to_N (if n <? 10 then 48 + n else 87 + n)).

Definition sample_Uint8VecToHexStr (message : Message) (offset len : nat) : string :=
  fold_right (fun b acc => String (hex_digit (b / 16)) (String (hex_digit (b mod 16)) acc))
             EmptyString (take len (drop offset message)).

Definition hex_value (c : Ascii.ascii) : Z :=
  let n := Z.of_N (Ascii.N_of_ascii c) in
  if n <? 58 then n - 48 else n - 87.

Fixpoint sample_HexStrToStdArray (hex : string) : Hash32 :=
  match hex with
  | String hi (String lo rest) =>
      (hex_value hi * 16 + hex_value lo) :: sample_HexStrToStdArray rest
  | _ => []
  end.

(** Collaborators that accept every signature and every proof of work;
    [whitelisted] answers the DS whitelist query. *)
Definition sample_collaborators (whitelisted : bool) : Collaborators :=
  {| GetNumber := sample_GetNumber;
     PubKey_Deserialize := sample_PubKey_Deserialize;
     IsNodeInDSWhiteList := fun _ _ => whitelisted;
     IsValidIP := fun _ => true;
     Uint8VecToHexStr := sample_Uint8VecToHexStr;
     HexStrToStdArray := sample_HexStrToStdArray;
     Signature_at := fun message offset =>
       take (SIGNATURE_CHALLENGE_SIZE + SIGNATURE_RESPONSE_SIZE) (drop offset message);
     Schnorr_Verify := fun _ _ _ _ _ => true;
     PoWVerify := fun _ _ _ _ _ _ _ _ _ _ => true;
     SafeMath_sub := SafeMath_int64_sub;
     SafeMath_div := SafeMath_int64_div |}.

(** The constants of the boundary scenarios of section 8. *)
Definition sample_constants (lookup testnet : bool) (limit : Z) : Constants :=
  {| LOOKUP_NODE_MODE := lookup;
     TEST_NET_MODE := testnet;
     POW_SUBMISSION_LIMIT := limit;
     POW_SUBMISSION_TIMEOUT := 10;
     POW_DIFFICULTY := 3;
     DS_POW_DIFFICULTY := 5;
     NUM_NETWORK_NODE := 100;
     POW_CHANGE_PERCENT_TO_ADJ_DIFF := 50;
     POW_WINDOW_IN_SECONDS := 300;
     NUM_FINAL_BLOCK_PER_POW := 50;
     TX_DISTRIBUTE_TIME_IN_MS := 10000 |}.

Definition sample_mediator (epoch : Z) (sync : SyncType) : Mediator :=
  {| m_currentEpochNum := epoch;
     lastDSBlockNum := 0;
     lastDSBlockDifficulty := 3;
     lastDSBlockDSDifficulty := 5;
     m_dsBlockRand := repeat 0 32;
     m_txBlockRand := repeat 0 32;
     m_syncType := sync |}.

(** A node in state [s] and mode [m] with empty pools. *)
Definition sample_node (s : DirState) (m : Mode) (epoch : Z) (sync : SyncType)
  : DirectoryService :=
  {| m_mediator := sample_mediator epoch sync;
     m_state := s; m_mode := m;
     m_consensusLeaderID := 0; m_consensusID := 1; m_viewChangeCounter := 0;
     m_shards := []; m_publicKeyToShardIdMap := ∅;
     m_allPoWConns := ∅; m_allPoWs := ∅; m_allDSPoWs := ∅;
     m_AllPoWCounter := ∅;
     m_consensusObject := None; m_consensusBlockHash := [];
     m_pendingDSBlock := None; m_microBlocks := []; m_finalBlock := None;
     m_finalBlockMessage := []; m_sharingAssignment := [];
     m_timespec := 0 |}.

(** A PoW submission for DS block 1 at difficulty [difficulty], from the
    all-[fill] public key, [extra] bytes longer than 181 bytes. *)
Definition sample_submission (difficulty fill : Z) (extra : nat) : Message :=
  [0; 0; 0; 0; 0; 0; 0; 1] ++ [difficulty] ++ [0; 0; 31; 144]
  ++ repeat fill 33 ++ repeat 0 (8 + 32 + 32 + 63) ++ repeat 0 extra.

Definition sample_peer : Peer := mkPeer 16777343 0.

Definition sample_handlers : Handlers :=
  let ok : Handler := fun _ _ _ => mret true in
  mkHandlers ok ok ok ok ok.

(** * Vocabulary of the properties *)

(** The four PoW maps of the pool. *)
Definition pool (d : DirectoryService)
  : gmap PubKey Peer * gmap PubKey Hash32 * gmap PubKey Hash32 * gmap PubKey Z :=
  (m_allPoWConns d, m_allPoWs d, m_allDSPoWs d, m_AllPoWCounter d).

(** The permitted pairs, as the table of section 3 lists them. *)
Definition permitted_pair (s : DirState) (a : Action) : Prop :=
  (s = POW_SUBMISSION ∧ a = PROCESS_POWSUBMISSION)
  ∨ (s = POW_SUBMISSION ∧ a = VERIFYPOW)
  ∨ (s = DSBLOCK_CONSENSUS ∧ a = PROCESS_DSBLOCKCONSENSUS)
  ∨ (s = MICROBLOCK_SUBMISSION ∧ a = PROCESS_MICROBLOCKSUBMISSION)
  ∨ (s = FINALBLOCK_CONSENSUS ∧ a = PROCESS_FINALBLOCKCONSENSUS)
  ∨ (s = VIEWCHANGE_CONSENSUS ∧ a = PROCESS_VIEWCHANGECONSENSUS).

(** The loop over the equal range of [m_state], as a function of the state
    and the action. *)
Definition found_in_table (s : DirState) (a : Action) : bool :=
  scan_actions a (upper_bound s ACTIONS_FOR_STATE) (lower_bound s ACTIONS_FOR_STATE).

(** The annual bump, as section 4.3 states its condition. *)
Definition annual_bump (blocks_per_year epoch : Z) : bool :=
  (epoch <=? 10 * blocks_per_year) && (epoch mod blocks_per_year =? 0).

(** The number of active nodes that [CalculateNewDifficulty] counts. *)
Definition currentNodes (d : DirectoryService) : Z :=
  foldl (fun acc (shard : gmap PubKey Peer) => acc + Z.of_nat (size shard))
        0 (m_shards d).

(** The rate-limit test as a function of the counter map. *)
Definition over_limit (K : Constants) (counter : gmap PubKey Z) (key : PubKey) : bool :=
  match counter !! key with
  | None => false
  | Some n => negb (n <? POW_SUBMISSION_LIMIT K)
  end.

(** The counter map after one more submission of [key]. *)
Definition bump (key : PubKey) (counter : gmap PubKey Z) : gmap PubKey Z :=
  match counter !! key with
  | None => <[key := 1]> counter
  | Some n => <[key := uint32 (n + 1)]> counter
  end.

(** [submission_count[k]], an absent key counting as 0. *)
Definition submission_count (d : DirectoryService) (k : PubKey) : Z :=
  default 0 (m_AllPoWCounter d !! k).

(** Where the public key sits in a submission that starts at [offset]. *)
Definition key_offset (offset : nat) : nat :=
  (offset + sizeof_uint64_t + sizeof_uint8_t + sizeof_uint32_t)%nat.

(** A node with [submissions] entries in m_allPoWs and one shard of
    [nodes] members. *)
Definition sample_population (submissions nodes : nat) (epoch : Z) : DirectoryService :=
  let keys n := (fun i => [Z.of_nat i]) <$> seq 0 n in
  let d := sample_node DSBLOCK_CONSENSUS_PREP BACKUP_DS epoch NO_SYNC in
  {| m_mediator := m_mediator d; m_state := m_state d; m_mode := m_mode d;
     m_consensusLeaderID := 0; m_consensusID := 1; m_viewChangeCounter := 0;
     m_shards := [list_to_map ((fun k => (k, sample_peer)) <$> keys nodes)];
     m_publicKeyToShardIdMap := ∅;
     m_allPoWConns := ∅;
     m_allPoWs := list_to_map ((fun k => (k, [])) <$> keys submissions);
     m_allDSPoWs := ∅; m_AllPoWCounter := ∅;
     m_consensusObject := None; m_consensusBlockHash := [];
     m_pendingDSBlock := None; m_microBlocks := []; m_finalBlock := None;
     m_finalBlockMessage := []; m_sharingAssignment := [];
     m_timespec := 0 |}.

(** The difficulty level and the listening port that a submission at
    [offset] carries, and the peer that the handler builds from them. *)
Definition difficulty_of (X : Collaborators) (message : Message) (offset : nat) : Z :=
  uint8 (GetNumber X message (offset + sizeof_uint64_t) sizeof_uint8_t).

Definition port_of (X : Collaborators) (message : Message) (offset : nat) : Z :=
  uint32 (GetNumber X message (offset + sizeof_uint64_t + sizeof_uint8_t)
                    sizeof_uint32_t).

Definition submitter (X : Collaborators) (message : Message) (offset : nat)
    (from : Peer) : Peer :=
  mkPeer (m_ipAddress from) (port_of X message offset).

(** The whitelist warning, which is all that the whitelist test adds to a
    run. *)
Definition whitelist_log (K : Constants) (X : Collaborators) (peer : Peer)
    (key : PubKey) : list LogEntry :=
  if TEST_NET_MODE K && negb (IsNodeInDSWhiteList X peer key)
  then [(WARNING, NotInDSWhitelist)] else [].

(** What a transition of the epoch driver does to a DS node, and what it
    logs. *)
Definition observe (t : option DirState) (d : DirectoryService) : DirectoryService :=
  match t with
  | Some s => set_m_state s d
  | None => d
  end.

Definition transition_log (t : option DirState) : list LogEntry :=
  match t with
  | Some s => [(INFO, DSStateIsNow (GetStateString s))]
  | None => []
  end.

(** What a call of [VerifyPoWSubmission] does to a node: it starts the
    timer, unless it returns before. *)
Definition stamp (started : bool) (t : Timespec) (d : DirectoryService)
  : DirectoryService :=
  if started then set_m_timespec t d else d.

(** The node as the PoW handler finds it at its state gate, at the first
    VERIFYPOW check and at the second one, which it reaches with the timer
    started. *)
Definition at_gate (sch : Schedule) (d : DirectoryService) : DirectoryService :=
  if bool_decide (m_state d = FINALBLOCK_CONSENSUS)
  then observe (set_during_wait sch) d else d.

Definition at_first_check (sch : Schedule) (d : DirectoryService) : DirectoryService :=
  observe (set_before_parse sch) (at_gate sch d).

Definition at_recheck (sch : Schedule) (d : DirectoryService) : DirectoryService :=
  observe (set_during_verify sch)
          (set_m_timespec (r_timer_start sch) (at_first_check sch d)).

(** The node after a series of PoW submissions, each with the schedule of
    the epoch driver during its handling. *)
Definition handle_all (K : Constants) (X : Collaborators)
    (submissions : list (Schedule * Message * nat * Peer))
    (d : DirectoryService) : DirectoryService :=
  foldl (fun d '(sch, message, offset, from) =>
           final (ProcessPoWSubmission K X sch message offset from d))
        d submissions.

(** The handler that the dispatch table of [Execute] holds for an
    instruction byte, as the table of section 4.4 lists them. *)
Definition handler_of (K : Constants) (X : Collaborators) (H : Handlers)
    (sch : Schedule) (ins_byte : Z) : Handler :=
  if ins_byte =? 0 then ProcessSetPrimary H
  else if ins_byte =? 1 then ProcessPoWSubmission K X sch
  else if ins_byte =? 2 then ProcessDSBlockConsensus H
  else if ins_byte =? 3 then ProcessMicroblockSubmission H
  else if ins_byte =? 4 then ProcessFinalBlockConsensus H
  else ProcessViewChangeConsensus H.

(** [n] calls of [UpdatePoWSubmissionCounterforNode] for one key. *)
Definition count_submissions (key : PubKey) (n : nat) (d : DirectoryService)
  : DirectoryService :=
  Nat.iter n (fun d => final (UpdatePoWSubmissionCounterforNode key d)) d.

(** The difficulty levels that a submission may carry: those of the last
    DS block, or the configured ones while the block to mine is block 1. *)
Definition expectedDSDiff (K : Constants) (d : DirectoryService) : Z :=
  if 1 <? uint64 (lastDSBlockNum (m_mediator d) + 1)
  then lastDSBlockDSDifficulty (m_mediator d)
  else uint8 (DS_POW_DIFFICULTY K).

Definition expectedDiff (K : Constants) (d : DirectoryService) : Z :=
  if 1 <? uint64 (lastDSBlockNum (m_mediator d) + 1)
  then lastDSBlockDifficulty (m_mediator d)
  else uint8 (POW_DIFFICULTY K).

(** Where the solution (nonce, hash, mix hash, signature) sits in a
    submission that starts at [offset], and the hash that is recorded. *)
Definition solution_offset (offset : nat) : nat :=
  (key_offset offset + PUB_KEY_SIZE)%nat.

Definition winning_hash_of (X : Collaborators) (message : Message) (offset : nat)
  : Hash32 :=
  HexStrToStdArray X
    (Uint8VecToHexStr X message (solution_offset offset + sizeof_uint64_t)
                      BLOCK_HASH_SIZE).

(** The verdict of [VerifyPoWSubmission] on the solution of a submission. *)
Definition verified (K : Constants) (X : Collaborators) (sch : Schedule)
    (message : Message) (offset : nat) (from : Peer) (key : PubKey)
    (d : DirectoryService) : bool :=
  (value (VerifyPoWSubmission K X sch message from key (solution_offset offset)
            (port_of X message offset) (difficulty_of X message offset) d)).1.

(** The keys of the pool agree: a key has a solution exactly when it has a
    connection, every DS solution is a solution, and every solution was
    counted. *)
Definition pool_consistent (d : DirectoryService) : Prop :=
  ∀ k : PubKey,
    (is_Some (m_allPoWs d !! k) ↔ is_Some (m_allPoWConns d !! k))
    ∧ (is_Some (m_allDSPoWs d !! k) → is_Some (m_allPoWs d !! k))
    ∧ (is_Some (m_allPoWs d !! k) → is_Some (m_AllPoWCounter d !! k)).

(** The node with [m_state], the four PoW maps and the timer blanked: what
    is left are the fields that the PoW handler has no business with. *)
Definition outside_pool (d : DirectoryService) : DirectoryService :=
  set_m_state POW_SUBMISSION
    (set_m_allPoWConns ∅ (set_m_allPoWs ∅ (set_m_allDSPoWs ∅
      (set_m_AllPoWCounter ∅ (set_m_timespec 0 d))))).

(** Collaborators that take every IP address for a private or broadcast
    one, and are as [sample_collaborators] otherwise. *)
Definition sample_collaborators_no_ip : Collaborators :=
  let X := sample_collaborators true in
  {| GetNumber := GetNumber X;
     PubKey_Deserialize := PubKey_Deserialize X;
     IsNodeInDSWhiteList := IsNodeInDSWhiteList X;
     IsValidIP := fun _ => false;
     Uint8VecToHexStr := Uint8VecToHexStr X;
     HexStrToStdArray := HexStrToStdArray X;
     Signature_at := Signature_at X;
     Schnorr_Verify := Schnorr_Verify X;
     PoWVerify := PoWVerify X;
     SafeMath_sub := SafeMath_sub X;
     SafeMath_div := SafeMath_div X |}.

(** [SafeMath] whose results, when it gives any, are the difference and
    the truncated quotient. *)
Definition SafeMath_sound (X : Collaborators) : Prop :=
  (∀ a b r, SafeMath_sub X a b = Some r → r = a - b)
  ∧ (∀ a b r, SafeMath_div X a b = Some r → r = Z.quot a b).

(** Other threads that leave the submission counters as they are while a
    handler verifies a solution: no other handler run records a
    submission in between. The epoch driver is such a thread. *)
Definition keeps_counters (during_verify : M unit) : Prop :=
  ∀ d, m_AllPoWCounter (final (during_verify d)) = m_AllPoWCounter d.

(** * Properties *)

(** ** Running the monad *)

Ltac run :=
  cbv beta iota zeta delta
      [mbind M_bind mret M_ret LOG get modify value final logged];
  cbn [fst snd negb andb app m_ipAddress m_listenPortHost].

(** The body of the handler, with its call of the parser kept folded. *)
Ltac unfold_ProcessPoWSubmission :=
  unfold ProcessPoWSubmission, ProcessPoWSubmission_while;
  try match goal with
      | |- context [ParseMessageAndVerifyPOW_while ?K ?X
                      (interleave ?K (set_during_verify ?s)) ?s ?m ?o ?f] =>
          fold (ParseMessageAndVerifyPOW K X s m o f)
      end.

(** ** The state gate *)

Lemma found_in_table_permitted s a :
  found_in_table s a = true ↔ permitted_pair s a.
Proof.
  unfold permitted_pair.
  destruct s, a; vm_compute; split; intros Hyp;
    try discriminate; try reflexivity; try tauto;
    repeat (destruct Hyp as [[? ?] | Hyp]; try discriminate);
    destruct Hyp; discriminate.
Qed.

Lemma CheckState_run K a d :
  LOOKUP_NODE_MODE K = false → m_mode d ≠ IDLE →
  CheckState K a d =
    if found_in_table (m_state d) a then (true, d, [])
    else (false, d, [(WARNING, ActionNotAllowed (GetActionString a)
                                               (GetStateString (m_state d)))]).
Proof.
  intros Hlook Hmode. unfold CheckState. rewrite Hlook. run.
  rewrite bool_decide_false by done.
  fold (found_in_table (m_state d) a).
  destruct (found_in_table (m_state d) a); reflexivity.
Qed.

Lemma CheckState_idle K a d :
  LOOKUP_NODE_MODE K = false → m_mode d = IDLE →
  CheckState K a d = (false, d, [(WARNING, NonDSNodeNow)]).
Proof.
  intros Hlook Hmode. unfold CheckState. rewrite Hlook. run.
  rewrite bool_decide_true by done. reflexivity.
Qed.

Lemma CheckState_final K a d : final (CheckState K a d) = d.
Proof.
  unfold CheckState.
  destruct (LOOKUP_NODE_MODE K); run; [reflexivity |].
  destruct (bool_decide (m_mode d = IDLE)); run; [reflexivity |].
  destruct (negb _); reflexivity.
Qed.

(** C1: on a non-lookup node whose mode is not IDLE, CheckState(a) in state
    s returns true exactly for the six pairs of the table; for every other
    pair it returns false, logs the "not allowed" warning and leaves the
    node as it was. *)
Theorem CheckState_iff_permitted_pair K a d :
  LOOKUP_NODE_MODE K = false → m_mode d ≠ IDLE →
  (value (CheckState K a d) = true ↔ permitted_pair (m_state d) a)
  ∧ final (CheckState K a d) = d
  ∧ (¬ permitted_pair (m_state d) a →
     value (CheckState K a d) = false
     ∧ logged (CheckState K a d) =
         [(WARNING, ActionNotAllowed (GetActionString a)
                                     (GetStateString (m_state d)))]).
Proof.
  intros Hlook Hmode. rewrite CheckState_run by assumption.
  rewrite <- found_in_table_permitted.
  destruct (found_in_table (m_state d) a); run.
  - split; [split; reflexivity |].
    split; [reflexivity |]. intros Hyp. exfalso. by apply Hyp.
  - split; [split; discriminate |].
    split; [reflexivity |]. intros _. split; reflexivity.
Qed.

Lemma CheckState_iff_permitted_pair_witness :
  value (CheckState (sample_constants false false 2) VERIFYPOW
                    (sample_node POW_SUBMISSION BACKUP_DS 1 NO_SYNC)) = true
  ∧ value (CheckState (sample_constants false false 2) VERIFYPOW
                      (sample_node DSBLOCK_CONSENSUS_PREP BACKUP_DS 1 NO_SYNC)) = false.
Proof.
  split.
  - apply (CheckState_iff_permitted_pair (sample_constants false false 2) VERIFYPOW
             (sample_node POW_SUBMISSION BACKUP_DS 1 NO_SYNC));
      [reflexivity | discriminate | right; left; split; reflexivity].
  - apply (CheckState_iff_permitted_pair (sample_constants false false 2) VERIFYPOW
             (sample_node DSBLOCK_CONSENSUS_PREP BACKUP_DS 1 NO_SYNC));
      [reflexivity | discriminate |].
    unfold permitted_pair. cbn. intros Hyp.
    repeat (destruct Hyp as [[? ?] | Hyp]; try discriminate).
    destruct Hyp; discriminate.
Defined.

(** ** Epoch reset *)

(** C8: on a non-lookup node CleanVariables leaves m_allPoWConns, m_allPoWs,
    m_allDSPoWs and m_AllPoWCounter empty and the view-change counter at 0. *)
Theorem CleanVariables_empties_pool K d :
  LOOKUP_NODE_MODE K = false →
  value (CleanVariables K d) = true
  ∧ m_allPoWConns (final (CleanVariables K d)) = ∅
  ∧ m_allPoWs (final (CleanVariables K d)) = ∅
  ∧ m_allDSPoWs (final (CleanVariables K d)) = ∅
  ∧ m_AllPoWCounter (final (CleanVariables K d)) = ∅
  ∧ m_viewChangeCounter (final (CleanVariables K d)) = 0.
Proof.
  intros Hlook. unfold CleanVariables, clearDSPoWSolns, ResetPoWSubmissionCounter.
  rewrite Hlook. run. cbn. repeat split; reflexivity.
Qed.

Lemma CleanVariables_empties_pool_witness :
  pool (final (CleanVariables (sample_constants false false 2)
                 (set_m_AllPoWCounter {[ repeat 7 33%nat := 2 ]}
                    (sample_node FINALBLOCK_CONSENSUS BACKUP_DS 1 NO_SYNC))))
  = (∅, ∅, ∅, ∅).
Proof.
  pose proof (CleanVariables_empties_pool (sample_constants false false 2)
                (set_m_AllPoWCounter {[ repeat 7 33%nat := 2 ]}
                   (sample_node FINALBLOCK_CONSENSUS BACKUP_DS 1 NO_SYNC))
                eq_refl) as (_ & H1 & H2 & H3 & H4 & _).
  unfold pool. rewrite H1, H2, H3, H4. reflexivity.
Defined.

(** ** Lookup nodes *)

(** C10: with LOOKUP_NODE_MODE set, ProcessPoWSubmission, CheckState,
    VerifyPoWSubmission, ParseMessageAndVerifyPOW,
    CheckWhetherDSBlockIsFresh and CleanVariables return true at once:
    whatever the message and the other arguments, the node is left as it
    was and the only trace is the "not expected to be called from LookUp
    node" warning. *)
Theorem lookup_node_returns_true K X sch message offset from key curr_offset
    portNo difficultyLevel dsblock_num action d :
  LOOKUP_NODE_MODE K = true →
  ProcessPoWSubmission K X sch message offset from d
    = (true, d, [(WARNING, NotExpectedFromLookUp "ProcessPoWSubmission")])
  ∧ CheckState K action d
    = (true, d, [(WARNING, NotExpectedFromLookUp "CheckState")])
  ∧ VerifyPoWSubmission K X sch message from key curr_offset portNo difficultyLevel d
    = ((true, unset), d, [(WARNING, NotExpectedFromLookUp "VerifyPoWSubmission")])
  ∧ ParseMessageAndVerifyPOW K X sch message offset from d
    = (true, d, [(WARNING, NotExpectedFromLookUp "ParseMessageAndVerifyPOW")])
  ∧ CheckWhetherDSBlockIsFresh K dsblock_num d
    = (true, d, [(WARNING, NotExpectedFromLookUp "CheckWhetherDSBlockIsFresh")])
  ∧ CleanVariables K d
    = (true, d, [(WARNING, NotExpectedFromLookUp "CleanVariables")]).
Proof.
  intros Hlook.
  unfold ProcessPoWSubmission, ProcessPoWSubmission_while, CheckState,
    VerifyPoWSubmission, ParseMessageAndVerifyPOW, ParseMessageAndVerifyPOW_while,
    CheckWhetherDSBlockIsFresh, CleanVariables.
  rewrite Hlook. run. repeat split; reflexivity.
Qed.

Lemma lookup_node_returns_true_witness :
  value (ProcessPoWSubmission (sample_constants true false 2)
           (sample_collaborators true) quiet [] 0 sample_peer
           (sample_node DSBLOCK_CONSENSUS IDLE 1 NO_SYNC)) = true.
Proof.
  pose proof (lookup_node_returns_true (sample_constants true false 2)
                (sample_collaborators true) quiet [] 0%nat sample_peer [] 0%nat
                0 0 0 VERIFYPOW (sample_node DSBLOCK_CONSENSUS IDLE 1 NO_SYNC)
                eq_refl) as (Hyp & _).
  rewrite Hyp. reflexivity.
Defined.

(** ** The state gate of the PoW handler *)

(** C6: on a DS node (not a lookup node) in state DSBLOCK_CONSENSUS,
    ProcessPoWSubmission returns false for every message, logs "Not at
    POW_SUBMISSION. Current state is DSBLOCK_CONSENSUS" and leaves the node,
    so the four PoW maps, unchanged. *)
Theorem ProcessPoWSubmission_wrong_state K X sch message offset from d :
  LOOKUP_NODE_MODE K = false → m_state d = DSBLOCK_CONSENSUS →
  value (ProcessPoWSubmission K X sch message offset from d) = false
  ∧ final (ProcessPoWSubmission K X sch message offset from d) = d
  ∧ pool (final (ProcessPoWSubmission K X sch message offset from d)) = pool d
  ∧ (INFO, NotAtPowSubmission DSBLOCK_CONSENSUS)
      ∈ logged (ProcessPoWSubmission K X sch message offset from d).
Proof.
  intros Hlook Hstate. unfold_ProcessPoWSubmission. rewrite Hlook. run.
  rewrite Hstate. rewrite bool_decide_false by discriminate.
  destruct (decide (m_mode d = IDLE)) as [Hidle | Hds].
  - rewrite CheckState_idle by assumption. run. rewrite Hstate.
    repeat split; try reflexivity. set_solver.
  - rewrite CheckState_run by assumption. rewrite Hstate.
    change (found_in_table DSBLOCK_CONSENSUS PROCESS_POWSUBMISSION) with false.
    run. rewrite Hstate.
    repeat split; try reflexivity. set_solver.
Qed.

Lemma ProcessPoWSubmission_wrong_state_witness :
  value (ProcessPoWSubmission (sample_constants false false 2)
           (sample_collaborators true) quiet (sample_submission 3 7 1) 0
           sample_peer (sample_node DSBLOCK_CONSENSUS BACKUP_DS 1 NO_SYNC)) = false.
Proof.
  apply (ProcessPoWSubmission_wrong_state (sample_constants false false 2)
           (sample_collaborators true) quiet (sample_submission 3 7 1) 0%nat
           sample_peer (sample_node DSBLOCK_CONSENSUS BACKUP_DS 1 NO_SYNC));
    reflexivity.
Defined.

(** ** The dispatcher *)

(** C9, as the claim states it, fails on a message that has no byte at
    [offset]: [message.at(offset)] is evaluated before the synchronization
    guard and throws, so Execute does not return false. *)
Lemma Execute_throws_on_missing_opcode :
  m_syncType (m_mediator (sample_node POW_SUBMISSION BACKUP_DS 1 DS_SYNC)) ≠ NO_SYNC
  ∧ value (Execute (sample_constants false false 2) (sample_collaborators true)
             sample_handlers quiet [] 0 sample_peer
             (sample_node POW_SUBMISSION BACKUP_DS 1 DS_SYNC))
    = Thrown "out_of_range"
  ∧ value (Execute (sample_constants false false 2) (sample_collaborators true)
             sample_handlers quiet [] 0 sample_peer
             (sample_node POW_SUBMISSION BACKUP_DS 1 DS_SYNC))
    ≠ Returned false.
Proof.
  split; [discriminate |]. split; [reflexivity | discriminate].
Qed.

(** C9 (amended): for a message that has an instruction byte at [offset],
    Execute returns false, runs no handler and only logs "Ignore DS
    message" whenever the sync type is not NO_SYNC; and when it is NO_SYNC,
    an instruction byte of at least 6 (5 on a lookup node) is logged as
    unknown and Execute returns false with the node unchanged. Both hold
    for every table of handlers. *)
Theorem Execute_guard_and_unknown_opcode K X H sch message offset from d ins_byte :
  message !! offset = Some ins_byte →
  (m_syncType (m_mediator d) ≠ NO_SYNC →
   Execute K X H sch message offset from d
     = (Returned false, d, [(WARNING, IgnoreDSMessage)]))
  ∧ (m_syncType (m_mediator d) = NO_SYNC →
     (if LOOKUP_NODE_MODE K then 5 else 6) ≤ ins_byte →
     Execute K X H sch message offset from d
       = (Returned false, d, [(INFO, UnknownInstructionByte ins_byte)])).
Proof.
  intros Hbyte. unfold Execute, ToBlockMessage. rewrite Hbyte. run. split.
  - intros Hsync. rewrite bool_decide_false by assumption. reflexivity.
  - intros Hsync Hge. rewrite bool_decide_true by assumption. cbn [negb].
    destruct (LOOKUP_NODE_MODE K); cbn [negb length];
      (destruct (ins_byte <? _) eqn:Hlt; [apply Z.ltb_lt in Hlt; lia | reflexivity]).
Qed.

Lemma Execute_guard_and_unknown_opcode_witness :
  Execute (sample_constants false false 2) (sample_collaborators true)
          sample_handlers quiet [6] 0 sample_peer
          (sample_node POW_SUBMISSION BACKUP_DS 1 NO_SYNC)
  = (Returned false, sample_node POW_SUBMISSION BACKUP_DS 1 NO_SYNC,
     [(INFO, UnknownInstructionByte 6)]).
Proof.
  apply (Execute_guard_and_unknown_opcode (sample_constants false false 2)
           (sample_collaborators true) sample_handlers quiet [6] 0%nat sample_peer
           (sample_node POW_SUBMISSION BACKUP_DS 1 NO_SYNC) 6 eq_refl);
    [reflexivity | cbn; lia].
Defined.

(** ** The difficulty controller *)

(** Case analysis on the next branch point of a monadic computation. *)
Ltac branch :=
  match goal with
  | |- context [(if ?c then _ else _) _] => destruct c eqn:?
  | |- context [(match ?o with Some _ => _ | None => _ end) _] => destruct o eqn:?
  end; run.

Lemma uint8_small x : 0 ≤ x < 256 → uint8 x = x.
Proof. intros Hx. unfold uint8, wrap. apply Z.mod_small. lia. Qed.

Lemma clamp_step_bound a :
  -2 ≤ (if 2 <? a then 2 else if a <? - 2 then - 2 else a) ≤ 2.
Proof.
  destruct (2 <? a) eqn:Hhi; [lia |].
  destruct (a <? - 2) eqn:Hlo; [lia |].
  apply Z.ltb_ge in Hhi, Hlo. lia.
Qed.

(** The test of the code, [epoch / b <= 10 && epoch % b == 0], is the
    condition of section 4.3. *)
Lemma bump_test_agrees b epoch :
  0 < b →
  (epoch / b <=? 10) && (epoch mod b =? 0) = annual_bump b epoch.
Proof.
  intros Hb. unfold annual_bump.
  destruct (epoch mod b =? 0) eqn:Hmod; [| by rewrite !andb_false_r].
  rewrite !andb_true_r. apply Z.eqb_eq in Hmod.
  pose proof (Z.div_mod epoch b ltac:(lia)) as Hdm.
  apply eq_iff_eq_true. rewrite !Z.leb_le. nia.
Qed.

Lemma newDifficulty_bounds P cur adjustment :
  -2 ≤ adjustment ≤ 2 → 2 ≤ cur ≤ 252 → 0 ≤ P ≤ cur + 2 →
  let newDifficulty := Z.max (uint8 (adjustment + cur)) (uint8 P) in
  P ≤ newDifficulty ≤ 254 ∧ Z.abs (newDifficulty - cur) ≤ 2.
Proof.
  intros Hadj Hcur HP. rewrite !uint8_small by lia. cbn zeta. lia.
Qed.

Lemma bumped_difficulty_bounds P cur a b epoch :
  2 ≤ cur ≤ 252 → 0 ≤ P ≤ cur + 2 →
  let newDifficulty :=
    Z.max (uint8 ((if 2 <? a then 2 else if a <? - 2 then - 2 else a) + cur))
          (uint8 P) in
  let returned :=
    if annual_bump b epoch then uint8 (newDifficulty + 1) else newDifficulty in
  P ≤ returned
  ∧ Z.abs (returned - cur) ≤ 2 + (if annual_bump b epoch then 1 else 0).
Proof.
  intros Hcur HP.
  pose proof (newDifficulty_bounds P cur _ (clamp_step_bound a) Hcur HP) as Hnew.
  cbn zeta in *. destruct (annual_bump b epoch).
  - rewrite (uint8_small (_ + 1)) by lia. lia.
  - lia.
Qed.

(** C3 (amended): for a current difficulty between 2 and 252 that is at
    most 2 below POW_DIFFICULTY, CalculateNewDifficulty returns a value
    that is at least POW_DIFFICULTY and differs from the current
    difficulty by at most 2, plus 1 when the annual bump applies (epoch at
    most 10 blocks_per_year and a multiple of blocks_per_year). This holds
    for every number of submissions and of nodes, every epoch and every
    [SafeMath], as long as the arithmetic is defined: blocks_per_year
    exists and is positive and the product of the node count and
    POW_CHANGE_PERCENT_TO_ADJ_DIFF fits [int64_t]. *)
Theorem CalculateNewDifficulty_bounds K X currentDifficulty d blocks_per_year :
  2 ≤ currentDifficulty ≤ 252 →
  0 ≤ POW_DIFFICULTY K ≤ currentDifficulty + 2 →
  estimatedBlocksOneYear K = Some blocks_per_year → 0 < blocks_per_year →
  in_int64 (currentNodes d * POW_CHANGE_PERCENT_TO_ADJ_DIFF K) = true →
  ∃ newDifficulty,
    value (CalculateNewDifficulty K X currentDifficulty d) = Some newDifficulty
    ∧ POW_DIFFICULTY K ≤ newDifficulty
    ∧ Z.abs (newDifficulty - currentDifficulty)
      ≤ 2 + (if annual_bump blocks_per_year (m_currentEpochNum (m_mediator d))
             then 1 else 0).
Proof.
  intros Hcur HP Hest Hpos Hprod.
  unfold CalculateNewDifficulty. rewrite Hest. run.
  fold (currentNodes d). rewrite Hprod. cbn [negb].
  replace (blocks_per_year =? 0) with false by (symmetry; apply Z.eqb_neq; lia).
  rewrite bump_test_agrees by assumption.
  pose proof (fun a => bumped_difficulty_bounds (POW_DIFFICULTY K) currentDifficulty
                a blocks_per_year (m_currentEpochNum (m_mediator d)) Hcur HP)
    as Hbounds.
  cbn zeta in Hbounds.
  repeat branch;
    match goal with
    | |- context [uint8 ((if 2 <? ?a then _ else _) + _)] => specialize (Hbounds a)
    end;
    destruct (annual_bump _ _); run; eexists; (split; [reflexivity | exact Hbounds]).
Qed.

Lemma CalculateNewDifficulty_bounds_witness :
  ∃ newDifficulty,
    value (CalculateNewDifficulty (sample_constants false false 2)
             (sample_collaborators true) 5
             (sample_node DSBLOCK_CONSENSUS_PREP BACKUP_DS 1971000 NO_SYNC))
      = Some newDifficulty
    ∧ 3 ≤ newDifficulty
    ∧ Z.abs (newDifficulty - 5) ≤ 2 + 1.
Proof.
  apply (CalculateNewDifficulty_bounds (sample_constants false false 2)
           (sample_collaborators true) 5
           (sample_node DSBLOCK_CONSENSUS_PREP BACKUP_DS 1971000 NO_SYNC) 1971000);
    [lia | cbn; lia | reflexivity | lia | reflexivity].
Defined.

(** C3, as the claim states it, fails for a current difficulty more than 2
    below POW_DIFFICULTY: with POW_DIFFICULTY = 3, no submissions and no
    nodes (adjustment 0) and epoch 1 (no annual bump), current difficulty 0
    is raised to 3 by the [max]. *)
Lemma CalculateNewDifficulty_raises_low_difficulty :
  value (CalculateNewDifficulty (sample_constants false false 2)
           (sample_collaborators true) 0
           (sample_node DSBLOCK_CONSENSUS_PREP BACKUP_DS 1 NO_SYNC)) = Some 3
  ∧ estimatedBlocksOneYear (sample_constants false false 2) = Some 1971000
  ∧ annual_bump 1971000 1 = false
  ∧ ¬ (Z.abs (3 - 0) ≤ 2 + 0).
Proof.
  repeat split; try reflexivity. cbn. lia.
Qed.

(** The boundary scenarios 1 to 3 of section 8. *)
Example difficulty_tiny_network_no_change :
  value (CalculateNewDifficulty (sample_constants false false 2)
           (sample_collaborators true) 5 (sample_population 10 10 1)) = Some 5.
Proof. vm_compute. reflexivity. Qed.

Example difficulty_more_submitters_small_delta :
  value (CalculateNewDifficulty (sample_constants false false 2)
           (sample_collaborators true) 5 (sample_population 110 100 1)) = Some 6.
Proof. vm_compute. reflexivity. Qed.

Example difficulty_annual_bump :
  estimatedBlocksOneYear (sample_constants false false 2) = Some 1971000
  ∧ value (CalculateNewDifficulty (sample_constants false false 2)
             (sample_collaborators true) 5 (sample_population 110 100 1971000))
    = Some 7.
Proof. vm_compute. split; reflexivity. Qed.

(** The 8-bit wrap-around of [(uint8_t)(adjustment + currentDifficulty)]:
    300 submissions for 100 nodes push difficulty 255 to 257, which wraps
    to 1 and is then raised to POW_DIFFICULTY. *)
Example difficulty_wraps_at_255 :
  value (CalculateNewDifficulty (sample_constants false false 2)
           (sample_collaborators true) 255 (sample_population 300 100 1)) = Some 3.
Proof. vm_compute. reflexivity. Qed.

(** ** Frames of the member functions of the PoW pipeline *)

Lemma interleave_run K t d :
  LOOKUP_NODE_MODE K = false →
  interleave K t d = (tt, observe t d, transition_log t).
Proof.
  intros Hlook. unfold interleave, SetState. rewrite Hlook.
  destruct t; reflexivity.
Qed.

Lemma observe_pool t d : pool (observe t d) = pool d.
Proof. destruct t; reflexivity. Qed.

Lemma observe_mode t d : m_mode (observe t d) = m_mode d.
Proof. destruct t; reflexivity. Qed.

Lemma observe_mediator t d : m_mediator (observe t d) = m_mediator d.
Proof. destruct t; reflexivity. Qed.

Lemma observe_counter t d : m_AllPoWCounter (observe t d) = m_AllPoWCounter d.
Proof. destruct t; reflexivity. Qed.

Lemma observe_conns t d : m_allPoWConns (observe t d) = m_allPoWConns d.
Proof. destruct t; reflexivity. Qed.

Lemma observe_pows t d : m_allPoWs (observe t d) = m_allPoWs d.
Proof. destruct t; reflexivity. Qed.

Lemma observe_dspows t d : m_allDSPoWs (observe t d) = m_allDSPoWs d.
Proof. destruct t; reflexivity. Qed.

Create Rewrite HintDb observe.
#[global] Hint Rewrite observe_pool observe_mode observe_mediator observe_counter
  observe_conns observe_pows observe_dspows : observe.

Lemma at_gate_pool sch d : pool (at_gate sch d) = pool d.
Proof. unfold at_gate. case_bool_decide; [apply observe_pool | reflexivity]. Qed.

Lemma at_gate_mode sch d : m_mode (at_gate sch d) = m_mode d.
Proof. unfold at_gate. case_bool_decide; [apply observe_mode | reflexivity]. Qed.

Lemma at_gate_mediator sch d : m_mediator (at_gate sch d) = m_mediator d.
Proof. unfold at_gate. case_bool_decide; [apply observe_mediator | reflexivity]. Qed.

Lemma at_gate_counter sch d : m_AllPoWCounter (at_gate sch d) = m_AllPoWCounter d.
Proof. unfold at_gate. case_bool_decide; [apply observe_counter | reflexivity]. Qed.

#[global] Hint Rewrite at_gate_pool at_gate_mode at_gate_mediator at_gate_counter
  : observe.

Lemma CheckState_frame K a d : ∃ allowed l, CheckState K a d = (allowed, d, l).
Proof.
  pose proof (CheckState_final K a d) as Hfinal.
  destruct (CheckState K a d) as [[allowed d'] l]. cbn in Hfinal. subst d'. eauto.
Qed.

Lemma CheckWhetherDSBlockIsFresh_frame K n d :
  ∃ fresh l, CheckWhetherDSBlockIsFresh K n d = (fresh, d, l).
Proof.
  unfold CheckWhetherDSBlockIsFresh. destruct (LOOKUP_NODE_MODE K); run; eauto.
  destruct (n <? _); run; eauto. destruct (_ <? n); run; eauto.
Qed.

Lemma CheckPoWSubmissionExceedsLimitsForNode_run K key d :
  CheckPoWSubmissionExceedsLimitsForNode K key d
  = (over_limit K (m_AllPoWCounter d) key, d, []).
Proof.
  unfold CheckPoWSubmissionExceedsLimitsForNode, over_limit. run.
  destruct (m_AllPoWCounter d !! key) as [n |]; run; [| reflexivity].
  destruct (n <? POW_SUBMISSION_LIMIT K); reflexivity.
Qed.

Lemma UpdatePoWSubmissionCounterforNode_run key d :
  UpdatePoWSubmissionCounterforNode key d
  = (tt, set_m_AllPoWCounter (bump key (m_AllPoWCounter d)) d, []).
Proof.
  unfold UpdatePoWSubmissionCounterforNode, bump. run.
  destruct (m_AllPoWCounter d !! key); reflexivity.
Qed.

Lemma stamp_pool started t d : pool (stamp started t d) = pool d.
Proof. destruct started; reflexivity. Qed.

Lemma stamp_state started t d : m_state (stamp started t d) = m_state d.
Proof. destruct started; reflexivity. Qed.

Lemma stamp_mode started t d : m_mode (stamp started t d) = m_mode d.
Proof. destruct started; reflexivity. Qed.

Lemma stamp_mediator started t d : m_mediator (stamp started t d) = m_mediator d.
Proof. destruct started; reflexivity. Qed.

Lemma stamp_counter started t d :
  m_AllPoWCounter (stamp started t d) = m_AllPoWCounter d.
Proof. destruct started; reflexivity. Qed.

Lemma stamp_conns started t d : m_allPoWConns (stamp started t d) = m_allPoWConns d.
Proof. destruct started; reflexivity. Qed.

Lemma stamp_pows started t d : m_allPoWs (stamp started t d) = m_allPoWs d.
Proof. destruct started; reflexivity. Qed.

Lemma stamp_dspows started t d : m_allDSPoWs (stamp started t d) = m_allDSPoWs d.
Proof. destruct started; reflexivity. Qed.

#[global] Hint Rewrite stamp_pool stamp_state stamp_mode stamp_mediator stamp_counter
  stamp_conns stamp_pows stamp_dspows : observe.

Lemma started_pool t d : pool (set_m_timespec t d) = pool d.
Proof. reflexivity. Qed.

Lemma started_state t d : m_state (set_m_timespec t d) = m_state d.
Proof. reflexivity. Qed.

Lemma started_mode t d : m_mode (set_m_timespec t d) = m_mode d.
Proof. reflexivity. Qed.

Lemma started_mediator t d : m_mediator (set_m_timespec t d) = m_mediator d.
Proof. reflexivity. Qed.

Lemma started_counter t d :
  m_AllPoWCounter (set_m_timespec t d) = m_AllPoWCounter d.
Proof. reflexivity. Qed.

Lemma observe_started_state t v d :
  m_state (observe t (set_m_timespec v d)) = m_state (observe t d).
Proof. destruct t; reflexivity. Qed.

Lemma started_conns t d : m_allPoWConns (set_m_timespec t d) = m_allPoWConns d.
Proof. reflexivity. Qed.

Lemma started_pows t d : m_allPoWs (set_m_timespec t d) = m_allPoWs d.
Proof. reflexivity. Qed.

Lemma started_dspows t d : m_allDSPoWs (set_m_timespec t d) = m_allDSPoWs d.
Proof. reflexivity. Qed.

#[global] Hint Rewrite started_pool started_state started_mode started_mediator
  started_counter started_conns started_pows started_dspows : observe.

Lemma VerifyPoWSubmission_frame K X sch message from key curr_offset portNo
    difficultyLevel d :
  ∃ result refs started l,
    VerifyPoWSubmission K X sch message from key curr_offset portNo difficultyLevel d
    = ((result, refs), stamp started (r_timer_start sch) d, l).
Proof.
  unfold VerifyPoWSubmission.
  destruct (LOOKUP_NODE_MODE K); run; [by exists true, unset, false; eexists |].
  destruct (Schnorr_Verify X _ _ _ _ _); run; [| by do 2 eexists; exists false; eexists].
  destruct (negb _ && _); run;
    [by do 2 eexists; exists false; eexists | by do 2 eexists; exists true; eexists].
Qed.

(** On a DS node a submission is verified with the timer started. *)
Lemma VerifyPoWSubmission_started K X sch message from key curr_offset portNo
    difficultyLevel d :
  LOOKUP_NODE_MODE K = false →
  (value (VerifyPoWSubmission K X sch message from key curr_offset portNo
            difficultyLevel d)).1 = true →
  ∃ refs l,
    VerifyPoWSubmission K X sch message from key curr_offset portNo difficultyLevel d
    = ((true, refs), set_m_timespec (r_timer_start sch) d, l).
Proof.
  intros Hlook. unfold VerifyPoWSubmission. rewrite Hlook. run.
  destruct (Schnorr_Verify X _ _ _ _ _); run; [| discriminate].
  destruct (negb _ && _); run; [discriminate |].
  cbn. intros ->. eauto.
Qed.

(** One step of symbolic execution of a handler on a DS node. *)
Ltac step Hlook :=
  first
    [ rewrite (interleave_run _ _ _ Hlook)
    | rewrite CheckPoWSubmissionExceedsLimitsForNode_run
    | rewrite UpdatePoWSubmissionCounterforNode_run
    | match goal with
      | |- context [CheckState ?K ?a ?d] =>
          let allowed := fresh "allowed" in
          let l := fresh "l" in
          destruct (CheckState_frame K a d) as (allowed & l & ->)
      | |- context [CheckWhetherDSBlockIsFresh ?K ?n ?d] =>
          let fresh_ := fresh "fresh" in
          let l := fresh "l" in
          destruct (CheckWhetherDSBlockIsFresh_frame K n d) as (fresh_ & l & ->)
      | |- context [VerifyPoWSubmission ?K ?X ?s ?m ?f ?k ?o ?p ?dl ?d] =>
          let result := fresh "result" in
          let refs := fresh "refs" in
          let l := fresh "l" in
          let started := fresh "started" in
          destruct (VerifyPoWSubmission_frame K X s m f k o p dl d)
            as (result & refs & started & l & ->)
      end
    | match goal with
      | |- context [(if ?c then _ else _) _] => destruct c eqn:?
      | |- context [(match ?o with Some _ => _ | None => _ end) _] => destruct o eqn:?
      end ];
  run; cbv beta iota zeta delta [AddDSPoWs];
  cbn [fst snd negb andb app m_ipAddress m_listenPortHost].

(** A run of the parser either leaves the pool as it was, or it records the
    submission of the key of the message, which the rate limit let
    through. *)
Lemma ParseMessageAndVerifyPOW_pool K X sch message offset from d :
  LOOKUP_NODE_MODE K = false →
  pool (final (ParseMessageAndVerifyPOW K X sch message offset from d)) = pool d
  ∨ ∃ key peer hash,
      PubKey_Deserialize X message (key_offset offset) = Some key
      ∧ over_limit K (m_AllPoWCounter d) key = false
      ∧ value (ParseMessageAndVerifyPOW K X sch message offset from d) = true
      ∧ m_allPoWConns (final (ParseMessageAndVerifyPOW K X sch message offset from d))
        = emplace key peer (m_allPoWConns d)
      ∧ m_allPoWs (final (ParseMessageAndVerifyPOW K X sch message offset from d))
        = <[key := hash]> (m_allPoWs d)
      ∧ m_AllPoWCounter (final (ParseMessageAndVerifyPOW K X sch message offset from d))
        = bump key (m_AllPoWCounter d).
Proof.
  intros Hlook. unfold ParseMessageAndVerifyPOW, ParseMessageAndVerifyPOW_while, key_offset. rewrite Hlook. run.
  repeat step Hlook.
  all: try (left; by autorewrite with observe).
  all: right; do 3 eexists; cbn; autorewrite with observe in *;
    repeat split; try eassumption; try reflexivity.
Qed.

Lemma ProcessPoWSubmission_pool K X sch message offset from d :
  pool (final (ProcessPoWSubmission K X sch message offset from d)) = pool d
  ∨ ∃ key peer hash,
      PubKey_Deserialize X message (key_offset offset) = Some key
      ∧ over_limit K (m_AllPoWCounter d) key = false
      ∧ value (ProcessPoWSubmission K X sch message offset from d) = true
      ∧ m_allPoWConns (final (ProcessPoWSubmission K X sch message offset from d))
        = emplace key peer (m_allPoWConns d)
      ∧ m_allPoWs (final (ProcessPoWSubmission K X sch message offset from d))
        = <[key := hash]> (m_allPoWs d)
      ∧ m_AllPoWCounter (final (ProcessPoWSubmission K X sch message offset from d))
        = bump key (m_AllPoWCounter d).
Proof.
  unfold_ProcessPoWSubmission.
  destruct (LOOKUP_NODE_MODE K) eqn:Hlook; run; [left; reflexivity |].
  assert (∀ d1, pool d1 = pool d →
            m_AllPoWCounter d1 = m_AllPoWCounter d
            ∧ m_allPoWConns d1 = m_allPoWConns d
            ∧ m_allPoWs d1 = m_allPoWs d) as Hsame.
  { intros d1 Hp. unfold pool in Hp. by simplify_eq. }
  assert (∀ d1, pool d1 = pool d →
    pool (final (ParseMessageAndVerifyPOW K X sch message offset from d1)) = pool d
    ∨ ∃ key peer hash,
        PubKey_Deserialize X message (key_offset offset) = Some key
        ∧ over_limit K (m_AllPoWCounter d) key = false
        ∧ value (ParseMessageAndVerifyPOW K X sch message offset from d1) = true
        ∧ m_allPoWConns (final (ParseMessageAndVerifyPOW K X sch message offset from d1))
          = emplace key peer (m_allPoWConns d)
        ∧ m_allPoWs (final (ParseMessageAndVerifyPOW K X sch message offset from d1))
          = <[key := hash]> (m_allPoWs d)
        ∧ m_AllPoWCounter (final (ParseMessageAndVerifyPOW K X sch message offset from d1))
          = bump key (m_AllPoWCounter d)) as Hparse.
  { intros d1 Hp. destruct (Hsame d1 Hp) as (Hc & Hconn & Hpows).
    rewrite <- Hp, <- Hc, <- Hconn, <- Hpows.
    by apply ParseMessageAndVerifyPOW_pool. }
  repeat step Hlook.
  all: try (left; by autorewrite with observe).
  all: match goal with
       | |- context [ParseMessageAndVerifyPOW ?K' ?X' ?s' ?m' ?o' ?f' ?d1] =>
           specialize (Hparse d1 ltac:(by autorewrite with observe));
           destruct (ParseMessageAndVerifyPOW K' X' s' m' o' f' d1)
             as [[result d2] l2]
       end; run; cbn in Hparse; exact Hparse.
Qed.

Lemma emplace_is_Some {V} (key : PubKey) (v : V) (m : gmap PubKey V) :
  is_Some (emplace key v m !! key).
Proof.
  unfold emplace. destruct (m !! key) eqn:Hm; [by rewrite Hm |].
  rewrite lookup_insert_eq. eauto.
Qed.

Lemma size_accepted (message : Message) (offset : nat) :
  (offset + 181 ≤ length message)%nat →
  IsMessageSizeInappropriate (length message) offset
    (sizeof_uint64_t + sizeof_uint32_t + PUB_KEY_SIZE + sizeof_uint64_t
     + BLOCK_HASH_SIZE + BLOCK_HASH_SIZE + SIGNATURE_CHALLENGE_SIZE
     + SIGNATURE_RESPONSE_SIZE) = false.
Proof.
  intros Hsize. unfold IsMessageSizeInappropriate. apply Z.ltb_ge.
  change (sizeof_uint64_t + sizeof_uint32_t + PUB_KEY_SIZE + sizeof_uint64_t
          + BLOCK_HASH_SIZE + BLOCK_HASH_SIZE + SIGNATURE_CHALLENGE_SIZE
          + SIGNATURE_RESPONSE_SIZE)%nat with 181%nat.
  lia.
Qed.

Lemma VERIFYPOW_only_in_POW_SUBMISSION s :
  s ≠ POW_SUBMISSION → found_in_table s VERIFYPOW = false.
Proof. destruct s; intros Hs; try reflexivity. by destruct Hs. Qed.

(** ** Submissions that pass the front of the pipeline *)

(** On a DS node whose state is POW_SUBMISSION at the gate, a message that
    is long enough is handed to the parser. *)
Lemma ProcessPoWSubmission_through_gate K X sch message offset from d :
  LOOKUP_NODE_MODE K = false → m_mode d ≠ IDLE →
  m_state (at_gate sch d) = POW_SUBMISSION →
  (offset + 181 ≤ length message)%nat →
  ∃ lgate,
    value (ProcessPoWSubmission K X sch message offset from d)
    = value (ParseMessageAndVerifyPOW K X sch message offset from (at_gate sch d))
    ∧ final (ProcessPoWSubmission K X sch message offset from d)
      = final (ParseMessageAndVerifyPOW K X sch message offset from (at_gate sch d))
    ∧ logged (ProcessPoWSubmission K X sch message offset from d)
      = lgate ++ logged (ParseMessageAndVerifyPOW K X sch message offset from
                           (at_gate sch d)).
Proof.
  intros Hlook Hmode Hgate Hsize. unfold_ProcessPoWSubmission. rewrite Hlook. run.
  pose proof (at_gate_mode sch d) as Hgmode. unfold at_gate in *.
  destruct (bool_decide (m_state d = FINALBLOCK_CONSENSUS)); run.
  - rewrite (interleave_run _ _ _ Hlook). run.
    destruct (wait_timed_out sch); run;
      (rewrite CheckState_run by (assumption || congruence); rewrite Hgate;
       change (found_in_table POW_SUBMISSION PROCESS_POWSUBMISSION) with true; run;
       rewrite size_accepted by assumption; run;
       destruct (ParseMessageAndVerifyPOW K X sch message offset from _)
         as [[result d1] l1]; run;
       eexists; rewrite app_nil_r; repeat split; reflexivity).
  - rewrite CheckState_run by assumption. rewrite Hgate.
    change (found_in_table POW_SUBMISSION PROCESS_POWSUBMISSION) with true. run.
    rewrite size_accepted by assumption. run.
    destruct (ParseMessageAndVerifyPOW K X sch message offset from d)
      as [[result d1] l1]; run.
    exists []. by rewrite app_nil_r.
Qed.

Section FrontOfPipeline.

Context (K : Constants) (X : Collaborators) (sch : Schedule).
Context (message : Message) (offset : nat) (from : Peer).
Context (d : DirectoryService) (key : PubKey).

(** A DS node that the parser finds in state POW_SUBMISSION at its first
    VERIFYPOW check. *)
Hypothesis Hlook : LOOKUP_NODE_MODE K = false.
Hypothesis Hmode : m_mode d ≠ IDLE.
Hypothesis Hfirst : m_state (observe (set_before_parse sch) d) = POW_SUBMISSION.

(** A message that carries the next DS block number and the public key
    [key], and comes from a valid IP address. *)
Hypothesis Hfresh :
  uint64 (GetNumber X message offset sizeof_uint64_t)
  = uint64 (lastDSBlockNum (m_mediator d) + 1).
Hypothesis Hkey : PubKey_Deserialize X message (key_offset offset) = Some key.
Hypothesis Hip : IsValidIP X (m_ipAddress from) = true.

Lemma fresh_block_accepted :
  CheckWhetherDSBlockIsFresh K (uint64 (GetNumber X message offset sizeof_uint64_t)) d
  = (true, d, []).
Proof.
  unfold CheckWhetherDSBlockIsFresh. rewrite Hlook, Hfresh. run.
  rewrite Z.ltb_irrefl. reflexivity.
Qed.

(** Symbolic execution of the parser up to the rate-limit check. *)
Ltac through_front :=
  unfold ParseMessageAndVerifyPOW, ParseMessageAndVerifyPOW_while; rewrite Hlook; run;
  rewrite fresh_block_accepted; run;
  fold (key_offset offset); rewrite Hkey; run;
  unfold whitelist_log, submitter, port_of;
  match goal with
  | |- context [TEST_NET_MODE K && ?listed] => destruct (TEST_NET_MODE K && listed)
  end; run;
  rewrite (interleave_run _ _ _ Hlook); run;
  rewrite CheckState_run by (assumption || by rewrite observe_mode);
  rewrite Hfirst;
  change (found_in_table POW_SUBMISSION VERIFYPOW) with true;
  run; rewrite Hip; run;
  rewrite CheckPoWSubmissionExceedsLimitsForNode_run, observe_counter.

(** The run of the parser on a key that is over the limit. *)
Lemma over_limit_rejected :
  over_limit K (m_AllPoWCounter d) key = true →
  ParseMessageAndVerifyPOW K X sch message offset from d
  = (false, observe (set_before_parse sch) d,
     whitelist_log K X (submitter X message offset from) key
     ++ transition_log (set_before_parse sch)
     ++ [(WARNING, ExceededMaxPowSubmission (submitter X message offset from))]).
Proof.
  intros Hover. through_front; rewrite Hover; reflexivity.
Qed.

(** The run of the parser on a verified submission that finds the state
    moved on at the second VERIFYPOW check. *)
Lemma late_recheck_drops :
  over_limit K (m_AllPoWCounter d) key = false →
  (value (VerifyPoWSubmission K X sch message from key
            (key_offset offset + PUB_KEY_SIZE) (port_of X message offset)
            (difficulty_of X message offset)
            (observe (set_before_parse sch) d))).1 = true →
  m_state (observe (set_during_verify sch)
             (set_m_timespec (r_timer_start sch) (observe (set_before_parse sch) d)))
    ≠ POW_SUBMISSION →
  value (ParseMessageAndVerifyPOW K X sch message offset from d) = true
  ∧ final (ParseMessageAndVerifyPOW K X sch message offset from d)
    = observe (set_during_verify sch)
        (set_m_timespec (r_timer_start sch) (observe (set_before_parse sch) d))
  ∧ (INFO, TooLate (m_state (observe (set_during_verify sch)
                               (set_m_timespec (r_timer_start sch)
                                  (observe (set_before_parse sch) d)))))
      ∈ logged (ParseMessageAndVerifyPOW K X sch message offset from d).
Proof.
  intros Hunder Hverified Hlate.
  unfold port_of, difficulty_of in Hverified.
  destruct (VerifyPoWSubmission_started _ _ _ _ _ _ _ _ _ _ Hlook Hverified)
    as (refs & lv & Hrun).
  through_front; rewrite Hunder; run; rewrite Hrun; run;
    rewrite (interleave_run _ _ _ Hlook); run;
    rewrite CheckState_run by (assumption || by autorewrite with observe);
    rewrite (VERIFYPOW_only_in_POW_SUBMISSION _ Hlate); run;
    (split; [reflexivity |]; split; [reflexivity | set_solver]).
Qed.

(** The run of the parser on a verified submission that still finds the
    state at POW_SUBMISSION at the second VERIFYPOW check: the whitelist
    warning, if any, stays in the log and the submission is recorded. *)
Lemma verified_submission_recorded :
  over_limit K (m_AllPoWCounter d) key = false →
  (value (VerifyPoWSubmission K X sch message from key
            (key_offset offset + PUB_KEY_SIZE) (port_of X message offset)
            (difficulty_of X message offset)
            (observe (set_before_parse sch) d))).1 = true →
  m_state (observe (set_during_verify sch)
             (set_m_timespec (r_timer_start sch) (observe (set_before_parse sch) d)))
    = POW_SUBMISSION →
  value (ParseMessageAndVerifyPOW K X sch message offset from d) = true
  ∧ (∀ e, e ∈ whitelist_log K X (submitter X message offset from) key →
          e ∈ logged (ParseMessageAndVerifyPOW K X sch message offset from d))
  ∧ is_Some (m_allPoWConns
               (final (ParseMessageAndVerifyPOW K X sch message offset from d)) !! key)
  ∧ is_Some (m_allPoWs
               (final (ParseMessageAndVerifyPOW K X sch message offset from d)) !! key)
  ∧ m_AllPoWCounter (final (ParseMessageAndVerifyPOW K X sch message offset from d))
    = bump key (m_AllPoWCounter d).
Proof.
  intros Hunder Hverified Hstill.
  unfold port_of, difficulty_of in Hverified.
  destruct (VerifyPoWSubmission_started _ _ _ _ _ _ _ _ _ _ Hlook Hverified)
    as (refs & lv & Hrun).
  through_front; rewrite Hunder; run; rewrite Hrun; run;
    rewrite (interleave_run _ _ _ Hlook); run;
    rewrite CheckState_run by (assumption || by autorewrite with observe);
    rewrite Hstill;
    change (found_in_table POW_SUBMISSION VERIFYPOW) with true; run;
    cbv beta iota zeta delta [AddDSPoWs];
    match goal with
    | |- context [(if ?c then _ else _) _] => destruct c
    end; run;
    rewrite UpdatePoWSubmissionCounterforNode_run; run; cbn;
    autorewrite with observe;
    (split; [reflexivity |];
     split; [intros e; rewrite ?elem_of_cons, ?elem_of_nil; tauto |];
     split; [apply emplace_is_Some |];
     split; [rewrite lookup_insert_eq; eauto | reflexivity]).
Qed.

End FrontOfPipeline.

(** C5: on a DS node, a submission that passes the state gate and the front
    of the pipeline (size, block number, public key, first VERIFYPOW check,
    IP address, rate limit) and whose PoW verification passes, but which
    finds the state moved away from POW_SUBMISSION at the second VERIFYPOW
    check, is dropped: the handler logs "Too late", leaves the four PoW maps
    as they were, and returns true. *)
Theorem late_recheck_drops_and_returns_true K X sch message offset from d key :
  LOOKUP_NODE_MODE K = false → m_mode d ≠ IDLE →
  m_state (at_gate sch d) = POW_SUBMISSION →
  m_state (at_first_check sch d) = POW_SUBMISSION →
  (offset + 181 ≤ length message)%nat →
  uint64 (GetNumber X message offset sizeof_uint64_t)
    = uint64 (lastDSBlockNum (m_mediator d) + 1) →
  PubKey_Deserialize X message (key_offset offset) = Some key →
  IsValidIP X (m_ipAddress from) = true →
  over_limit K (m_AllPoWCounter d) key = false →
  (value (VerifyPoWSubmission K X sch message from key
            (key_offset offset + PUB_KEY_SIZE) (port_of X message offset)
            (difficulty_of X message offset) (at_first_check sch d))).1 = true →
  m_state (at_recheck sch d) ≠ POW_SUBMISSION →
  value (ProcessPoWSubmission K X sch message offset from d) = true
  ∧ pool (final (ProcessPoWSubmission K X sch message offset from d)) = pool d
  ∧ final (ProcessPoWSubmission K X sch message offset from d) = at_recheck sch d
  ∧ (INFO, TooLate (m_state (at_recheck sch d)))
      ∈ logged (ProcessPoWSubmission K X sch message offset from d).
Proof.
  intros Hlook Hmode Hgate Hfirst Hsize Hfresh Hkey Hip Hunder Hverified Hlate.
  destruct (ProcessPoWSubmission_through_gate K X sch message offset from d
              Hlook Hmode Hgate Hsize) as (lgate & -> & -> & ->).
  unfold at_recheck, at_first_check in *.
  destruct (late_recheck_drops K X sch message offset from (at_gate sch d) key)
    as (Hvalue & Hfinal & Hlog); try assumption.
  - by rewrite at_gate_mode.
  - by rewrite at_gate_mediator.
  - by rewrite at_gate_counter.
  - split; [exact Hvalue |]. rewrite Hfinal.
    split; [by autorewrite with observe |]. split; [reflexivity |].
    apply elem_of_app. by right.
Qed.

Lemma late_recheck_drops_and_returns_true_witness :
  value (ProcessPoWSubmission (sample_constants false false 2)
           (sample_collaborators true)
           (mkSchedule false None None (Some DSBLOCK_CONSENSUS_PREP) 0)
           (sample_submission 3 7 1) 0 sample_peer
           (sample_node POW_SUBMISSION BACKUP_DS 1 NO_SYNC)) = true
  ∧ pool (final (ProcessPoWSubmission (sample_constants false false 2)
                   (sample_collaborators true)
                   (mkSchedule false None None (Some DSBLOCK_CONSENSUS_PREP) 0)
                   (sample_submission 3 7 1) 0 sample_peer
                   (sample_node POW_SUBMISSION BACKUP_DS 1 NO_SYNC)))
    = (∅, ∅, ∅, ∅).
Proof.
  destruct (late_recheck_drops_and_returns_true (sample_constants false false 2)
              (sample_collaborators true)
              (mkSchedule false None None (Some DSBLOCK_CONSENSUS_PREP) 0)
              (sample_submission 3 7 1) 0%nat sample_peer
              (sample_node POW_SUBMISSION BACKUP_DS 1 NO_SYNC) (repeat 7 33%nat))
    as (Hvalue & Hpool & _);
    [ reflexivity | discriminate | reflexivity | reflexivity | cbn; lia
    | reflexivity | reflexivity | reflexivity | reflexivity | reflexivity
    | discriminate | ].
  split; [exact Hvalue | exact Hpool].
Defined.

(** ** The rate limit *)

(** C7, as the claim states it, fails when POW_SUBMISSION_LIMIT is 0: a key
    without a counter counts as 0, which is not below the limit, yet
    CheckPoWSubmissionExceedsLimitsForNode returns false for a key that is
    not in the map; the submission is recorded and the count becomes 1. *)
Lemma zero_limit_records_first_submission :
  POW_SUBMISSION_LIMIT (sample_constants false false 0)
    ≤ submission_count (sample_node POW_SUBMISSION BACKUP_DS 1 NO_SYNC) (repeat 7 33%nat)
  ∧ value (ProcessPoWSubmission (sample_constants false false 0)
             (sample_collaborators true) quiet (sample_submission 3 7 1) 0
             sample_peer (sample_node POW_SUBMISSION BACKUP_DS 1 NO_SYNC)) = true
  ∧ is_Some (m_allPoWs
               (final (ProcessPoWSubmission (sample_constants false false 0)
                         (sample_collaborators true) quiet (sample_submission 3 7 1) 0
                         sample_peer (sample_node POW_SUBMISSION BACKUP_DS 1 NO_SYNC)))
             !! repeat 7 33%nat)
  ∧ submission_count
      (final (ProcessPoWSubmission (sample_constants false false 0)
                (sample_collaborators true) quiet (sample_submission 3 7 1) 0
                sample_peer (sample_node POW_SUBMISSION BACKUP_DS 1 NO_SYNC)))
      (repeat 7 33%nat) = 1
  ∧ ¬ (1 ≤ POW_SUBMISSION_LIMIT (sample_constants false false 0)).
Proof.
  split; [vm_compute; discriminate |].
  split; [vm_compute; reflexivity |].
  split; [vm_compute; eauto |].
  split; [vm_compute; reflexivity | vm_compute; intros Hle; by apply Hle].
Qed.

Lemma over_limit_iff K d k :
  1 ≤ POW_SUBMISSION_LIMIT K →
  over_limit K (m_AllPoWCounter d) k = true
  ↔ POW_SUBMISSION_LIMIT K ≤ submission_count d k.
Proof.
  intros Hlimit. unfold over_limit, submission_count.
  destruct (m_AllPoWCounter d !! k) as [n |]; cbn.
  - rewrite negb_true_iff, Z.ltb_ge. reflexivity.
  - split; [discriminate | lia].
Qed.

Lemma bump_keeps_counts_in_range K counter key :
  1 ≤ POW_SUBMISSION_LIMIT K →
  over_limit K counter key = false →
  (∀ k, 0 ≤ default 0 (counter !! k) ≤ POW_SUBMISSION_LIMIT K) →
  ∀ k, 0 ≤ default 0 (bump key counter !! k) ≤ POW_SUBMISSION_LIMIT K.
Proof.
  intros Hlimit Hunder Hinv k. unfold bump, over_limit in *.
  specialize (Hinv key) as Hkey.
  destruct (counter !! key) as [n |] eqn:Hn; cbn in Hkey.
  - apply negb_false_iff, Z.ltb_lt in Hunder.
    destruct (decide (key = k)) as [-> | Hne].
    + rewrite lookup_insert_eq. cbn. unfold uint32, wrap.
      pose proof (Z.mod_pos_bound (n + 1) (2 ^ 32) ltac:(lia)).
      pose proof (Z.mod_le (n + 1) (2 ^ 32) ltac:(lia) ltac:(lia)). lia.
    + rewrite lookup_insert_ne by done. apply Hinv.
  - destruct (decide (key = k)) as [-> | Hne].
    + rewrite lookup_insert_eq. cbn. lia.
    + rewrite lookup_insert_ne by done. apply Hinv.
Qed.

Lemma ProcessPoWSubmission_keeps_counts K X sch message offset from d :
  1 ≤ POW_SUBMISSION_LIMIT K →
  (∀ k, 0 ≤ submission_count d k ≤ POW_SUBMISSION_LIMIT K) →
  ∀ k, 0 ≤ submission_count
             (final (ProcessPoWSubmission K X sch message offset from d)) k
         ≤ POW_SUBMISSION_LIMIT K.
Proof.
  intros Hlimit Hinv k. unfold submission_count in *.
  destruct (ProcessPoWSubmission_pool K X sch message offset from d)
    as [Hsame | (key & peer & hash & _ & Hunder & _ & _ & _ & Hcounter)].
  - unfold pool in Hsame. injection Hsame as _ _ _ ->. apply Hinv.
  - rewrite Hcounter. by apply (bump_keeps_counts_in_range K).
Qed.

(** From an epoch reset on, whatever submissions arrive and however the
    epoch driver is scheduled, every count stays within the limit. *)
Lemma counts_within_limit_all_epoch K X submissions d :
  LOOKUP_NODE_MODE K = false → 1 ≤ POW_SUBMISSION_LIMIT K →
  ∀ k, 0 ≤ submission_count
             (handle_all K X submissions (final (CleanVariables K d))) k
         ≤ POW_SUBMISSION_LIMIT K.
Proof.
  intros Hlook Hlimit.
  assert (∀ k, 0 ≤ submission_count (final (CleanVariables K d)) k
               ≤ POW_SUBMISSION_LIMIT K) as Hclean.
  { intros k. unfold submission_count, CleanVariables, clearDSPoWSolns,
      ResetPoWSubmissionCounter. rewrite Hlook. run. cbn.
    rewrite lookup_empty. cbn. lia. }
  revert Hclean. generalize (final (CleanVariables K d)). clear d.
  induction submissions as [| [[[sch message] offset] from] rest IH];
    intros d Hinv; cbn; [exact Hinv |].
  apply IH. by apply ProcessPoWSubmission_keeps_counts.
Qed.

(** ** The rate limit among handler threads *)

Lemma interleave_keeps_counters K t : keeps_counters (interleave K t).
Proof.
  intros d. unfold interleave, SetState.
  destruct t; [destruct (LOOKUP_NODE_MODE K) |]; reflexivity.
Qed.

(** One step of symbolic execution, with the other threads taken as they
    come. *)
Ltac step_among Hlook Hquiet :=
  first
    [ step Hlook
    | match goal with
      | |- context [?during_verify ?d1] =>
          match type of Hquiet with
          | keeps_counters during_verify =>
              let Hsame := fresh "Hsame" in
              let dv := fresh "dv" in
              let lv := fresh "lv" in
              pose proof (Hquiet d1) as Hsame;
              destruct (during_verify d1) as [[[] dv] lv];
              cbn [final fst snd] in Hsame; run
          end
      end ].

(** A run of the parser among threads that leave the counters alone keeps
    the counters, or it counts one submission of a key that was below the
    limit. *)
Lemma ParseMessageAndVerifyPOW_while_counter K X during_verify sch message offset
    from d :
  LOOKUP_NODE_MODE K = false → keeps_counters during_verify →
  m_AllPoWCounter
    (final (ParseMessageAndVerifyPOW_while K X during_verify sch message offset from d))
  = m_AllPoWCounter d
  ∨ ∃ key,
      over_limit K (m_AllPoWCounter d) key = false
      ∧ m_AllPoWCounter
          (final (ParseMessageAndVerifyPOW_while K X during_verify sch message offset
                    from d))
        = bump key (m_AllPoWCounter d).
Proof.
  intros Hlook Hquiet. unfold ParseMessageAndVerifyPOW_while. rewrite Hlook. run.
  repeat step_among Hlook Hquiet.
  all: try (left; cbn; by autorewrite with observe in * ).
  all: right; eexists; cbn; autorewrite with observe in *;
    (split; [eassumption | congruence]).
Qed.

Lemma ProcessPoWSubmission_while_counter K X during_verify sch message offset
    from d :
  keeps_counters during_verify →
  m_AllPoWCounter
    (final (ProcessPoWSubmission_while K X during_verify sch message offset from d))
  = m_AllPoWCounter d
  ∨ ∃ key,
      over_limit K (m_AllPoWCounter d) key = false
      ∧ m_AllPoWCounter
          (final (ProcessPoWSubmission_while K X during_verify sch message offset
                    from d))
        = bump key (m_AllPoWCounter d).
Proof.
  intros Hquiet. unfold ProcessPoWSubmission_while.
  destruct (LOOKUP_NODE_MODE K) eqn:Hlook; run; [left; reflexivity |].
  assert (∀ d1, m_AllPoWCounter d1 = m_AllPoWCounter d →
    m_AllPoWCounter
      (final (ParseMessageAndVerifyPOW_while K X during_verify sch message offset
                from d1))
    = m_AllPoWCounter d
    ∨ ∃ key,
        over_limit K (m_AllPoWCounter d) key = false
        ∧ m_AllPoWCounter
            (final (ParseMessageAndVerifyPOW_while K X during_verify sch message
                      offset from d1))
          = bump key (m_AllPoWCounter d)) as Hparse.
  { intros d1 Hsame. rewrite <- Hsame.
    by apply ParseMessageAndVerifyPOW_while_counter. }
  repeat step Hlook.
  all: try (left; by autorewrite with observe).
  all: match goal with
       | |- context [ParseMessageAndVerifyPOW_while ?K' ?X' ?o' ?s' ?m' ?f' ?g' ?d1] =>
           specialize (Hparse d1 ltac:(by autorewrite with observe));
           destruct (ParseMessageAndVerifyPOW_while K' X' o' s' m' f' g' d1)
             as [[result d2] l2]
       end; run; cbn in Hparse; exact Hparse.
Qed.

Lemma ProcessPoWSubmission_while_keeps_counts K X during_verify sch message offset
    from d :
  1 ≤ POW_SUBMISSION_LIMIT K → keeps_counters during_verify →
  (∀ k, 0 ≤ submission_count d k ≤ POW_SUBMISSION_LIMIT K) →
  ∀ k, 0 ≤ submission_count
             (final (ProcessPoWSubmission_while K X during_verify sch message offset
                       from d)) k
         ≤ POW_SUBMISSION_LIMIT K.
Proof.
  intros Hlimit Hquiet Hinv k. unfold submission_count in *.
  destruct (ProcessPoWSubmission_while_counter K X during_verify sch message offset
              from d Hquiet) as [-> | (key & Hunder & ->)].
  - apply Hinv.
  - by apply (bump_keeps_counts_in_range K).
Qed.

(** Two handler threads with submissions of one key, and a limit of 1. The
    second thread's run lands while the first one verifies its solution,
    after the first one's check of the count: both find the count at 0,
    both record, and the count ends at 2. *)
Lemma overlapping_runs_exceed_limit :
  let K := sample_constants false false 1 in
  let X := sample_collaborators true in
  let d := sample_node POW_SUBMISSION BACKUP_DS 1 NO_SYNC in
  let second_thread : M unit :=
    ProcessPoWSubmission K X quiet (sample_submission 3 7 1) 0 sample_peer ;;
    mret tt in
  let first_thread :=
    ProcessPoWSubmission_while K X second_thread quiet (sample_submission 3 7 1) 0
      sample_peer in
  (∀ k, 0 ≤ submission_count d k ≤ POW_SUBMISSION_LIMIT K)
  ∧ value (first_thread d) = true
  ∧ submission_count (final (first_thread d)) (repeat 7 33%nat) = 2
  ∧ POW_SUBMISSION_LIMIT K = 1
  ∧ ¬ keeps_counters second_thread.
Proof.
  split; [intros k; vm_compute; split; discriminate |].
  split; [vm_compute; reflexivity |].
  split; [vm_compute; reflexivity |].
  split; [reflexivity |].
  intros Hquiet.
  specialize (Hquiet (sample_node POW_SUBMISSION BACKUP_DS 1 NO_SYNC)).
  apply (f_equal (λ counter, counter !! repeat 7 33%nat)) in Hquiet.
  vm_compute in Hquiet. discriminate.
Qed.

(** C7 (amended): provided POW_SUBMISSION_LIMIT is at least 1, the
    rate-limit check answers true exactly when submission_count[k] (0 for
    an absent key) has reached the limit; a submission whose key has
    reached it creates no record, and when it arrives at the rate-limit
    check the handler returns false with the "exceeded max pow submission"
    warning and the node unchanged; and a run of the handler keeps every
    count between 0 and POW_SUBMISSION_LIMIT provided that no other
    handler run records a submission between this run's check of the
    count and its own record, that is, while it verifies the solution.
    The proviso holds with the epoch driver as the only other thread, and
    for runs taken one after the other. *)
Theorem rate_limit_enforced K X sch message offset from d :
  1 ≤ POW_SUBMISSION_LIMIT K →
  (∀ k, value (CheckPoWSubmissionExceedsLimitsForNode K k d) = true
        ↔ POW_SUBMISSION_LIMIT K ≤ submission_count d k)
  ∧ (∀ k, PubKey_Deserialize X message (key_offset offset) = Some k →
          POW_SUBMISSION_LIMIT K ≤ submission_count d k →
          pool (final (ProcessPoWSubmission K X sch message offset from d)) = pool d)
  ∧ (∀ k, LOOKUP_NODE_MODE K = false → m_mode d ≠ IDLE →
          m_state (at_gate sch d) = POW_SUBMISSION →
          m_state (at_first_check sch d) = POW_SUBMISSION →
          (offset + 181 ≤ length message)%nat →
          uint64 (GetNumber X message offset sizeof_uint64_t)
            = uint64 (lastDSBlockNum (m_mediator d) + 1) →
          PubKey_Deserialize X message (key_offset offset) = Some k →
          IsValidIP X (m_ipAddress from) = true →
          POW_SUBMISSION_LIMIT K ≤ submission_count d k →
          value (ProcessPoWSubmission K X sch message offset from d) = false
          ∧ final (ProcessPoWSubmission K X sch message offset from d)
            = at_first_check sch d
          ∧ (WARNING, ExceededMaxPowSubmission (submitter X message offset from))
              ∈ logged (ProcessPoWSubmission K X sch message offset from d))
  ∧ ((∀ k, 0 ≤ submission_count d k ≤ POW_SUBMISSION_LIMIT K) →
     ∀ k, 0 ≤ submission_count
                (final (ProcessPoWSubmission K X sch message offset from d)) k
            ≤ POW_SUBMISSION_LIMIT K)
  ∧ (∀ during_verify, keeps_counters during_verify →
     (∀ k, 0 ≤ submission_count d k ≤ POW_SUBMISSION_LIMIT K) →
     ∀ k, 0 ≤ submission_count
                (final (ProcessPoWSubmission_while K X during_verify sch message
                          offset from d)) k
            ≤ POW_SUBMISSION_LIMIT K).
Proof.
  intros Hlimit. split; [| split; [| split; [| split]]].
  - intros k. rewrite CheckPoWSubmissionExceedsLimitsForNode_run. cbn.
    by apply over_limit_iff.
  - intros k Hkey Hover. apply (over_limit_iff K d k Hlimit) in Hover.
    destruct (ProcessPoWSubmission_pool K X sch message offset from d)
      as [Hsame | (key & peer & hash & Hkey' & Hunder & _)]; [exact Hsame |].
    rewrite Hkey in Hkey'. injection Hkey' as <-. congruence.
  - intros k Hlook Hmode Hgate Hfirst Hsize Hfresh Hkey Hip Hover.
    apply (over_limit_iff K d k Hlimit) in Hover.
    destruct (ProcessPoWSubmission_through_gate K X sch message offset from d
                Hlook Hmode Hgate Hsize) as (lgate & -> & -> & ->).
    unfold at_first_check in *.
    rewrite (over_limit_rejected K X sch message offset from (at_gate sch d) k);
      try assumption.
    + split; [reflexivity |]. split; [reflexivity |]. cbn. set_solver.
    + by rewrite at_gate_mode.
    + by rewrite at_gate_mediator.
    + by rewrite at_gate_counter.
  - by apply ProcessPoWSubmission_keeps_counts.
  - intros during_verify Hquiet. by apply ProcessPoWSubmission_while_keeps_counts.
Qed.

Lemma rate_limit_enforced_witness :
  value (ProcessPoWSubmission (sample_constants false false 2)
           (sample_collaborators true) quiet (sample_submission 3 7 1) 0
           sample_peer
           (set_m_AllPoWCounter {[ repeat 7 33%nat := 2 ]}
              (sample_node POW_SUBMISSION BACKUP_DS 1 NO_SYNC))) = false.
Proof.
  pose proof (rate_limit_enforced (sample_constants false false 2)
                (sample_collaborators true) quiet (sample_submission 3 7 1) 0%nat
                sample_peer
                (set_m_AllPoWCounter {[ repeat 7 33%nat := 2 ]}
                   (sample_node POW_SUBMISSION BACKUP_DS 1 NO_SYNC)))
    as Hrate.
  destruct Hrate as (_ & _ & Hreject & _ & _); [cbn; lia |].
  apply (Hreject (repeat 7 33%nat));
    [ reflexivity | discriminate | reflexivity | reflexivity | cbn; lia
    | reflexivity | reflexivity | reflexivity | vm_compute; discriminate ].
Defined.

(** Boundary scenario 6 of section 8: with POW_SUBMISSION_LIMIT = 2, three
    submissions of one public key leave its count at 2 and one record in
    the pool; the third call returns false. *)
Example three_submissions_of_one_key :
  let K := sample_constants false false 2 in
  let X := sample_collaborators true in
  let submit d :=
    ProcessPoWSubmission K X quiet (sample_submission 3 7 1) 0 sample_peer d in
  let r1 := submit (sample_node POW_SUBMISSION BACKUP_DS 1 NO_SYNC) in
  let r2 := submit (final r1) in
  let r3 := submit (final r2) in
  (value r1, value r2, value r3) = (true, true, false)
  ∧ submission_count (final r3) (repeat 7 33%nat) = 2
  ∧ size (m_allPoWs (final r3)) = 1%nat.
Proof. vm_compute. repeat split; reflexivity. Qed.

(** ** The size check *)

(** C4: the length that the size check asks for leaves out the 1-byte
    difficulty level, so a message with exactly 181 bytes after [offset],
    one short of the 182 bytes that the parser reads, is not rejected: on
    a DS node in state POW_SUBMISSION the handler runs the parser on it. *)
Theorem size_check_passes_181_bytes K X sch message offset from d :
  LOOKUP_NODE_MODE K = false → m_mode d ≠ IDLE → m_state d = POW_SUBMISSION →
  length message = (offset + 181)%nat →
  ProcessPoWSubmission K X sch message offset from d
  = ParseMessageAndVerifyPOW K X sch message offset from d.
Proof.
  intros Hlook Hmode Hstate Hlen. unfold_ProcessPoWSubmission.
  rewrite Hlook. run. rewrite Hstate. rewrite bool_decide_false by discriminate. run.
  rewrite CheckState_run by assumption. rewrite Hstate.
  change (found_in_table POW_SUBMISSION PROCESS_POWSUBMISSION) with true. run.
  rewrite size_accepted by lia. run.
  destruct (ParseMessageAndVerifyPOW K X sch message offset from d) as [[result d1] l1].
  by rewrite app_nil_r.
Qed.

Lemma size_check_passes_181_bytes_witness :
  length (sample_submission 3 7 0) = 181%nat
  ∧ ProcessPoWSubmission (sample_constants false false 2) (sample_collaborators true)
      quiet (sample_submission 3 7 0) 0 sample_peer
      (sample_node POW_SUBMISSION BACKUP_DS 1 NO_SYNC)
    = ParseMessageAndVerifyPOW (sample_constants false false 2)
        (sample_collaborators true) quiet (sample_submission 3 7 0) 0 sample_peer
        (sample_node POW_SUBMISSION BACKUP_DS 1 NO_SYNC).
Proof.
  split; [reflexivity |].
  apply (size_check_passes_181_bytes (sample_constants false false 2)
           (sample_collaborators true) quiet (sample_submission 3 7 0) 0%nat
           sample_peer (sample_node POW_SUBMISSION BACKUP_DS 1 NO_SYNC));
    [reflexivity | discriminate | reflexivity | reflexivity].
Defined.

(** With collaborators that accept what they are given, the 181-byte
    message is recorded; a message of 180 bytes is turned away. *)
Example short_submissions :
  let K := sample_constants false false 2 in
  let X := sample_collaborators true in
  let d := sample_node POW_SUBMISSION BACKUP_DS 1 NO_SYNC in
  let r181 := ProcessPoWSubmission K X quiet (sample_submission 3 7 0) 0 sample_peer d in
  let r180 := ProcessPoWSubmission K X quiet (removelast (sample_submission 3 7 0)) 0
                sample_peer d in
  value r181 = true
  ∧ is_Some (m_allPoWs (final r181) !! repeat 7 33%nat)
  ∧ r180 = (false, d, [(WARNING, PowMessageSizeInappropriate)]).
Proof. vm_compute. repeat split; eauto. Qed.

(** ** The whitelist test *)

(** C2: with TEST_NET_MODE set and the submitter not in the DS whitelist,
    the handler logs "Submitted PoW but node is not in DS whitelist. Hence,
    not accepted!" and carries on: a submission that passes the other
    checks on a DS node in state POW_SUBMISSION is recorded in
    m_allPoWConns and m_allPoWs, its count goes up, and the handler returns
    true. *)
Theorem whitelist_miss_is_recorded K X sch message offset from d key :
  TEST_NET_MODE K = true →
  IsNodeInDSWhiteList X (submitter X message offset from) key = false →
  LOOKUP_NODE_MODE K = false → m_mode d ≠ IDLE →
  m_state (at_gate sch d) = POW_SUBMISSION →
  m_state (at_first_check sch d) = POW_SUBMISSION →
  m_state (at_recheck sch d) = POW_SUBMISSION →
  (offset + 181 ≤ length message)%nat →
  uint64 (GetNumber X message offset sizeof_uint64_t)
    = uint64 (lastDSBlockNum (m_mediator d) + 1) →
  PubKey_Deserialize X message (key_offset offset) = Some key →
  IsValidIP X (m_ipAddress from) = true →
  over_limit K (m_AllPoWCounter d) key = false →
  (value (VerifyPoWSubmission K X sch message from key
            (key_offset offset + PUB_KEY_SIZE) (port_of X message offset)
            (difficulty_of X message offset) (at_first_check sch d))).1 = true →
  (WARNING, NotInDSWhitelist)
    ∈ logged (ProcessPoWSubmission K X sch message offset from d)
  ∧ value (ProcessPoWSubmission K X sch message offset from d) = true
  ∧ is_Some (m_allPoWConns
               (final (ProcessPoWSubmission K X sch message offset from d)) !! key)
  ∧ is_Some (m_allPoWs
               (final (ProcessPoWSubmission K X sch message offset from d)) !! key)
  ∧ m_AllPoWCounter (final (ProcessPoWSubmission K X sch message offset from d))
    = bump key (m_AllPoWCounter d).
Proof.
  intros Htest Hmiss Hlook Hmode Hgate Hfirst Hstill Hsize Hfresh Hkey Hip
    Hunder Hverified.
  destruct (ProcessPoWSubmission_through_gate K X sch message offset from d
              Hlook Hmode Hgate Hsize) as (lgate & -> & -> & ->).
  unfold at_recheck, at_first_check in *.
  destruct (verified_submission_recorded K X sch message offset from
              (at_gate sch d) key)
    as (Hvalue & Hlog & Hconns & Hpows & Hcounter); try assumption.
  - by rewrite at_gate_mode.
  - by rewrite at_gate_mediator.
  - by rewrite at_gate_counter.
  - split; [| split; [exact Hvalue | split; [exact Hconns | split; [exact Hpows |]]]].
    + apply elem_of_app. right. apply Hlog.
      unfold whitelist_log. rewrite Htest, Hmiss. cbn. set_solver.
    + by rewrite Hcounter, at_gate_counter.
Qed.

Lemma whitelist_miss_is_recorded_witness :
  value (ProcessPoWSubmission (sample_constants false true 2)
           (sample_collaborators false) quiet (sample_submission 3 7 1) 0
           sample_peer (sample_node POW_SUBMISSION BACKUP_DS 1 NO_SYNC)) = true
  ∧ is_Some (m_allPoWs
               (final (ProcessPoWSubmission (sample_constants false true 2)
                         (sample_collaborators false) quiet (sample_submission 3 7 1)
                         0 sample_peer (sample_node POW_SUBMISSION BACKUP_DS 1 NO_SYNC)))
             !! repeat 7 33%nat).
Proof.
  destruct (whitelist_miss_is_recorded (sample_constants false true 2)
              (sample_collaborators false) quiet (sample_submission 3 7 1) 0%nat
              sample_peer (sample_node POW_SUBMISSION BACKUP_DS 1 NO_SYNC)
              (repeat 7 33%nat))
    as (_ & Hvalue & _ & Hpows & _);
    [ reflexivity | reflexivity | reflexivity | discriminate | reflexivity
    | reflexivity | reflexivity | cbn; lia | reflexivity | reflexivity
    | reflexivity | reflexivity | reflexivity | ].
  split; [exact Hvalue | exact Hpows].
Defined.

(** The run at that input, in full. *)
Example whitelist_miss_run :
  let K := sample_constants false true 2 in
  let X := sample_collaborators false in
  let r := ProcessPoWSubmission K X quiet (sample_submission 3 7 1) 0 sample_peer
             (sample_node POW_SUBMISSION BACKUP_DS 1 NO_SYNC) in
  head (logged r) = Some (WARNING, NotInDSWhitelist)
  ∧ value r = true
  ∧ m_allPoWConns (final r) !! repeat 7 33%nat = Some (mkPeer 16777343 8080)
  ∧ m_allPoWs (final r) !! repeat 7 33%nat = Some (repeat 0 32%nat)
  ∧ m_AllPoWCounter (final r) !! repeat 7 33%nat = Some 1.
Proof. vm_compute. repeat split; reflexivity. Qed.

(** * Further properties of the two files *)

(** ** Block numbers *)

(** X1: on a DS node CheckWhetherDSBlockIsFresh accepts exactly the number
    after the last DS block (modulo 2^64); a smaller number is logged as a
    duplicate, a larger one as a gap, and the node is never changed. *)
Theorem CheckWhetherDSBlockIsFresh_only_next K n d :
  LOOKUP_NODE_MODE K = false →
  (value (CheckWhetherDSBlockIsFresh K n d) = true
   ↔ n = uint64 (lastDSBlockNum (m_mediator d) + 1))
  ∧ final (CheckWhetherDSBlockIsFresh K n d) = d
  ∧ (n < uint64 (lastDSBlockNum (m_mediator d) + 1) →
     logged (CheckWhetherDSBlockIsFresh K n d)
     = [(WARNING, ProcessingDuplicatedBlocks)])
  ∧ (uint64 (lastDSBlockNum (m_mediator d) + 1) < n →
     logged (CheckWhetherDSBlockIsFresh K n d)
     = [(INFO, MissingDSBlocks n (lastDSBlockNum (m_mediator d)))]).
Proof.
  intros Hlook. unfold CheckWhetherDSBlockIsFresh. rewrite Hlook. run.
  destruct (n <? _) eqn:Hlt; run.
  - apply Z.ltb_lt in Hlt. repeat split; try discriminate; try reflexivity; lia.
  - apply Z.ltb_ge in Hlt. destruct (_ <? n) eqn:Hgt; run.
    + apply Z.ltb_lt in Hgt. repeat split; try discriminate; try reflexivity; lia.
    + apply Z.ltb_ge in Hgt. repeat split; try reflexivity; lia.
Qed.

Lemma CheckWhetherDSBlockIsFresh_only_next_witness :
  value (CheckWhetherDSBlockIsFresh (sample_constants false false 2) 1
           (sample_node POW_SUBMISSION BACKUP_DS 1 NO_SYNC)) = true.
Proof.
  apply (CheckWhetherDSBlockIsFresh_only_next (sample_constants false false 2) 1
           (sample_node POW_SUBMISSION BACKUP_DS 1 NO_SYNC) eq_refl).
  reflexivity.
Defined.

(** ** Epoch reset and construction *)

Lemma CleanVariables_run K d :
  LOOKUP_NODE_MODE K = false →
  CleanVariables K d
  = (true,
     {| m_mediator := m_mediator d; m_state := m_state d; m_mode := IDLE;
        m_consensusLeaderID := 0; m_consensusID := 0; m_viewChangeCounter := 0;
        m_shards := []; m_publicKeyToShardIdMap := ∅;
        m_allPoWConns := ∅; m_allPoWs := ∅; m_allDSPoWs := ∅;
        m_AllPoWCounter := ∅;
        m_consensusObject := None; m_consensusBlockHash := [];
        m_pendingDSBlock := None; m_microBlocks := []; m_finalBlock := None;
        m_finalBlockMessage := []; m_sharingAssignment := [];
        m_timespec := m_timespec d |}, []).
Proof.
  intros Hlook. unfold CleanVariables, clearDSPoWSolns, ResetPoWSubmissionCounter.
  rewrite Hlook. reflexivity.
Qed.

Lemma idle_node_rejects K X sch message offset from d :
  LOOKUP_NODE_MODE K = false → m_mode d = IDLE →
  value (ProcessPoWSubmission K X sch message offset from d) = false
  ∧ pool (final (ProcessPoWSubmission K X sch message offset from d)) = pool d.
Proof.
  intros Hlook Hidle. unfold_ProcessPoWSubmission. rewrite Hlook. run.
  destruct (bool_decide (m_state d = FINALBLOCK_CONSENSUS)); run.
  - rewrite (interleave_run _ _ _ Hlook). run.
    destruct (wait_timed_out sch); run;
      (rewrite CheckState_idle by (assumption || by rewrite observe_mode); run;
       split; [reflexivity | apply observe_pool]).
  - rewrite CheckState_idle by assumption. run. split; reflexivity.
Qed.

(** X2: on a DS node CleanVariables keeps m_state and the mediator but
    leaves the mode at IDLE, so that afterwards CheckState refuses every
    action and ProcessPoWSubmission answers false to every message, under
    every schedule, with the pool still empty. *)
Theorem nothing_allowed_after_CleanVariables K X sch message offset from action d :
  LOOKUP_NODE_MODE K = false →
  m_mode (final (CleanVariables K d)) = IDLE
  ∧ m_state (final (CleanVariables K d)) = m_state d
  ∧ m_mediator (final (CleanVariables K d)) = m_mediator d
  ∧ value (CheckState K action (final (CleanVariables K d))) = false
  ∧ value (ProcessPoWSubmission K X sch message offset from
             (final (CleanVariables K d))) = false
  ∧ pool (final (ProcessPoWSubmission K X sch message offset from
                   (final (CleanVariables K d)))) = (∅, ∅, ∅, ∅).
Proof.
  intros Hlook. rewrite (CleanVariables_run K d Hlook). unfold final at 1 2 3 4.
  cbn [fst snd m_mode m_state m_mediator].
  split; [reflexivity |]. split; [reflexivity |]. split; [reflexivity |].
  split; [by rewrite CheckState_idle |].
  match goal with
  | |- context [ProcessPoWSubmission K X sch message offset from ?d'] =>
      destruct (idle_node_rejects K X sch message offset from d' Hlook eq_refl)
        as (Hvalue & Hpool)
  end.
  split; [exact Hvalue | by rewrite Hpool].
Qed.

Lemma nothing_allowed_after_CleanVariables_witness :
  value (ProcessPoWSubmission (sample_constants false false 2)
           (sample_collaborators true) quiet (sample_submission 3 7 1) 0 sample_peer
           (final (CleanVariables (sample_constants false false 2)
                     (sample_node POW_SUBMISSION BACKUP_DS 1 NO_SYNC)))) = false.
Proof.
  apply (nothing_allowed_after_CleanVariables (sample_constants false false 2)
           (sample_collaborators true) quiet (sample_submission 3 7 1) 0%nat
           sample_peer VERIFYPOW (sample_node POW_SUBMISSION BACKUP_DS 1 NO_SYNC)
           eq_refl).
Defined.

(** X3: CleanVariables is idempotent: a second call changes nothing, on
    every node. *)
Theorem CleanVariables_idempotent K d :
  final (CleanVariables K (final (CleanVariables K d))) = final (CleanVariables K d).
Proof.
  destruct (LOOKUP_NODE_MODE K) eqn:Hlook.
  - unfold CleanVariables. rewrite Hlook. reflexivity.
  - rewrite !CleanVariables_run by assumption. reflexivity.
Qed.

(** X4: the constructor leaves a DS node in state POW_SUBMISSION with mode
    IDLE, leader 0, consensus ID 1 and view-change counter 0, and touches
    no container; CheckState refuses every action on the new node; and an
    epoch reset of the new node differs from it in the consensus ID alone,
    which CleanVariables sets to 0. On a lookup node the constructor
    leaves m_state as it found it. *)
Theorem DirectoryService_new_state K action d :
  (LOOKUP_NODE_MODE K = false →
   m_state (final (DirectoryService_new K d)) = POW_SUBMISSION)
  ∧ (LOOKUP_NODE_MODE K = true →
     m_state (final (DirectoryService_new K d)) = m_state d)
  ∧ m_mode (final (DirectoryService_new K d)) = IDLE
  ∧ m_consensusLeaderID (final (DirectoryService_new K d)) = 0
  ∧ m_consensusID (final (DirectoryService_new K d)) = 1
  ∧ m_viewChangeCounter (final (DirectoryService_new K d)) = 0
  ∧ pool (final (DirectoryService_new K d)) = pool d
  ∧ (LOOKUP_NODE_MODE K = false →
     value (CheckState K action (final (DirectoryService_new K d))) = false)
  ∧ (LOOKUP_NODE_MODE K = false →
     m_consensusID (final (CleanVariables K (final (DirectoryService_new K d)))) = 0).
Proof.
  unfold DirectoryService_new, SetState.
  destruct (LOOKUP_NODE_MODE K) eqn:Hlook; run; cbn;
    repeat split; try reflexivity; try discriminate; intros _.
  - by rewrite CheckState_idle.
  - by rewrite CleanVariables_run.
Qed.

Lemma DirectoryService_new_state_witness :
  m_state (final (DirectoryService_new (sample_constants false false 2)
                    (sample_node ERROR BACKUP_DS 1 NO_SYNC))) = POW_SUBMISSION.
Proof.
  apply (DirectoryService_new_state (sample_constants false false 2) VERIFYPOW
           (sample_node ERROR BACKUP_DS 1 NO_SYNC)).
  reflexivity.
Defined.

(** ** The dispatcher *)

Lemma handler_table_DS K X H sch ins_byte :
  0 ≤ ins_byte < 6 →
  [ ProcessSetPrimary H; ProcessPoWSubmission K X sch; ProcessDSBlockConsensus H;
    ProcessMicroblockSubmission H; ProcessFinalBlockConsensus H;
    ProcessViewChangeConsensus H ] !! Z.to_nat ins_byte
  = Some (handler_of K X H sch ins_byte).
Proof.
  intros Hrange.
  assert (ins_byte = 0 ∨ ins_byte = 1 ∨ ins_byte = 2 ∨ ins_byte = 3
          ∨ ins_byte = 4 ∨ ins_byte = 5) as Hcases by lia.
  destruct Hcases as [-> | [-> | [-> | [-> | [-> | ->]]]]]; reflexivity.
Qed.

Lemma handler_table_lookup K X H sch ins_byte :
  0 ≤ ins_byte < 5 →
  [ ProcessSetPrimary H; ProcessPoWSubmission K X sch; ProcessDSBlockConsensus H;
    ProcessMicroblockSubmission H; ProcessFinalBlockConsensus H ]
    !! Z.to_nat ins_byte
  = Some (handler_of K X H sch ins_byte).
Proof.
  intros Hrange.
  assert (ins_byte = 0 ∨ ins_byte = 1 ∨ ins_byte = 2 ∨ ins_byte = 3
          ∨ ins_byte = 4) as Hcases by lia.
  destruct Hcases as [-> | [-> | [-> | [-> | ->]]]]; reflexivity.
Qed.

(** X5: with the sync type at NO_SYNC, Execute hands an instruction byte
    below the size of the table (6 on a DS node, 5 on a lookup node) to the
    handler of that byte, with the offset moved past the byte, and returns
    what the handler returns. *)
Theorem Execute_dispatches K X H sch message offset from d ins_byte :
  message !! offset = Some ins_byte →
  m_syncType (m_mediator d) = NO_SYNC →
  0 ≤ ins_byte < (if LOOKUP_NODE_MODE K then 5 else 6) →
  value (Execute K X H sch message offset from d)
  = Returned (value (handler_of K X H sch ins_byte message (offset + 1)%nat from d))
  ∧ final (Execute K X H sch message offset from d)
    = final (handler_of K X H sch ins_byte message (offset + 1)%nat from d)
  ∧ logged (Execute K X H sch message offset from d)
    = logged (handler_of K X H sch ins_byte message (offset + 1)%nat from d).
Proof.
  intros Hbyte Hsync Hrange. unfold Execute, ToBlockMessage. rewrite Hbyte. run.
  rewrite bool_decide_true by assumption. cbn [negb].
  destruct (LOOKUP_NODE_MODE K); cbn [negb length];
    (destruct (ins_byte <? _) eqn:Hlt; [| apply Z.ltb_ge in Hlt; lia]);
    [rewrite handler_table_lookup by lia | rewrite handler_table_DS by lia];
    destruct (handler_of K X H sch ins_byte message (offset + 1)%nat from d)
      as [[result d1] l1];
    run; rewrite app_nil_r; repeat split; reflexivity.
Qed.

Lemma Execute_dispatches_witness :
  value (Execute (sample_constants false false 2) (sample_collaborators true)
           sample_handlers quiet (1 :: sample_submission 3 7 1) 0 sample_peer
           (sample_node POW_SUBMISSION BACKUP_DS 1 NO_SYNC))
  = Returned (value (ProcessPoWSubmission (sample_constants false false 2)
                       (sample_collaborators true) quiet
                       (1 :: sample_submission 3 7 1) 1 sample_peer
                       (sample_node POW_SUBMISSION BACKUP_DS 1 NO_SYNC))).
Proof.
  apply (Execute_dispatches (sample_constants false false 2)
           (sample_collaborators true) sample_handlers quiet
           (1 :: sample_submission 3 7 1) 0%nat sample_peer
           (sample_node POW_SUBMISSION BACKUP_DS 1 NO_SYNC) 1);
    [reflexivity | reflexivity | cbn; lia].
Defined.

(** X6: on a message that has no byte at [offset], Execute throws
    [std::out_of_range] before anything else: nothing is logged, no
    handler runs and the node is unchanged, whatever the sync type. *)
Theorem Execute_out_of_range K X H sch message offset from d :
  (length message ≤ offset)%nat →
  Execute K X H sch message offset from d = (Thrown "out_of_range", d, []).
Proof.
  intros Hshort. unfold Execute. rewrite (lookup_ge_None_2 _ _ Hshort). reflexivity.
Qed.

Lemma Execute_out_of_range_witness :
  Execute (sample_constants false false 2) (sample_collaborators true)
          sample_handlers quiet [1] 1 sample_peer
          (sample_node POW_SUBMISSION BACKUP_DS 1 NO_SYNC)
  = (Thrown "out_of_range", sample_node POW_SUBMISSION BACKUP_DS 1 NO_SYNC, []).
Proof.
  apply (Execute_out_of_range (sample_constants false false 2)
           (sample_collaborators true) sample_handlers quiet [1] 1%nat sample_peer
           (sample_node POW_SUBMISSION BACKUP_DS 1 NO_SYNC)).
  cbn. lia.
Defined.

(** ** The submission counter *)

Lemma count_submissions_counter key n d :
  Z.of_nat n < 2 ^ 32 →
  m_AllPoWCounter (count_submissions key n (final (ResetPoWSubmissionCounter d)))
  = match n with
    | O => ∅
    | S _ => {[ key := Z.of_nat n ]}
    end.
Proof.
  induction n as [| n IH]; intros Hn; [reflexivity |].
  change (count_submissions key (S n) ?e)
    with (final (UpdatePoWSubmissionCounterforNode key (count_submissions key n e))).
  rewrite UpdatePoWSubmissionCounterforNode_run.
  cbn [final fst snd m_AllPoWCounter set_m_AllPoWCounter].
  rewrite IH by lia. unfold bump. destruct n as [| n].
  - rewrite lookup_empty. by rewrite insert_empty.
  - rewrite lookup_singleton_eq, insert_singleton_eq. f_equal.
    unfold uint32, wrap. rewrite Z.mod_small by lia. lia.
Qed.

(** X7: after ResetPoWSubmissionCounter and n calls of
    UpdatePoWSubmissionCounterforNode for one key (n below 2^32), the
    counter of that key is n and no other key has a counter;
    CheckPoWSubmissionExceedsLimitsForNode then answers true exactly when
    n is at least 1 and at least POW_SUBMISSION_LIMIT. *)
Theorem counter_after_n_submissions K key n d :
  Z.of_nat n < 2 ^ 32 →
  submission_count
    (count_submissions key n (final (ResetPoWSubmissionCounter d))) key = Z.of_nat n
  ∧ (∀ k, k ≠ key →
          m_AllPoWCounter
            (count_submissions key n (final (ResetPoWSubmissionCounter d))) !! k
          = None)
  ∧ (value (CheckPoWSubmissionExceedsLimitsForNode K key
              (count_submissions key n (final (ResetPoWSubmissionCounter d)))) = true
     ↔ (0 < n)%nat ∧ POW_SUBMISSION_LIMIT K ≤ Z.of_nat n).
Proof.
  intros Hn. rewrite CheckPoWSubmissionExceedsLimitsForNode_run.
  unfold submission_count, over_limit. cbn [value fst].
  rewrite (count_submissions_counter key n d Hn). destruct n as [| n].
  - rewrite lookup_empty. cbn. split; [reflexivity |]. split; [by intros; apply lookup_empty |].
    split; [discriminate | lia].
  - rewrite lookup_singleton_eq. cbn [default].
    split; [reflexivity |]. split; [by intros k Hk; apply lookup_singleton_ne |].
    rewrite negb_true_iff, Z.ltb_ge. split; [intros; split; [lia | assumption] | tauto].
Qed.

Lemma counter_after_n_submissions_witness :
  submission_count
    (count_submissions [7] 3
       (final (ResetPoWSubmissionCounter
                 (sample_node POW_SUBMISSION BACKUP_DS 1 NO_SYNC)))) [7] = 3.
Proof.
  apply (counter_after_n_submissions (sample_constants false false 2) [7] 3
           (sample_node POW_SUBMISSION BACKUP_DS 1 NO_SYNC)).
  cbn. lia.
Defined.

(** ** DS PoW solutions *)

(** X8: a solution stored with AddDSPoWs is what GetDSPoWSoln returns for
    that key, without a warning, and IsNodeSubmittedDSPoWSoln answers true;
    the answers for every other key are as before; the number of solutions
    grows by one for a new key and stays for a key that is overwritten; the
    other three PoW maps are not touched. *)
Theorem DSPoWSoln_round_trip key soln other d :
  GetDSPoWSoln key (final (AddDSPoWs key soln d))
  = (soln, final (AddDSPoWs key soln d), [])
  ∧ value (IsNodeSubmittedDSPoWSoln key (final (AddDSPoWs key soln d))) = true
  ∧ (other ≠ key →
     GetDSPoWSoln other (final (AddDSPoWs key soln d))
     = (value (GetDSPoWSoln other d), final (AddDSPoWs key soln d),
        logged (GetDSPoWSoln other d))
     ∧ value (IsNodeSubmittedDSPoWSoln other (final (AddDSPoWs key soln d)))
       = value (IsNodeSubmittedDSPoWSoln other d))
  ∧ value (GetNumberOfDSPoWSolns (final (AddDSPoWs key soln d)))
    = uint32 (Z.of_nat (size (m_allDSPoWs d))
              + (if bool_decide (is_Some (m_allDSPoWs d !! key)) then 0 else 1))
  ∧ m_allPoWConns (final (AddDSPoWs key soln d)) = m_allPoWConns d
  ∧ m_allPoWs (final (AddDSPoWs key soln d)) = m_allPoWs d
  ∧ m_AllPoWCounter (final (AddDSPoWs key soln d)) = m_AllPoWCounter d.
Proof.
  unfold GetDSPoWSoln, IsNodeSubmittedDSPoWSoln, GetNumberOfDSPoWSolns, AddDSPoWs.
  run. cbn [m_allDSPoWs set_m_allDSPoWs m_allPoWConns m_allPoWs m_AllPoWCounter].
  rewrite lookup_insert_eq. run.
  split; [reflexivity |]. split; [by rewrite bool_decide_true by eauto |].
  split.
  - intros Hother. rewrite lookup_insert_ne by done.
    destruct (m_allDSPoWs d !! other); run; split; reflexivity.
  - split; [| repeat split; reflexivity]. f_equal.
    destruct (m_allDSPoWs d !! key) as [old |] eqn:Hold.
    + rewrite bool_decide_true by eauto.
      rewrite <- (insert_delete_id _ _ _ Hold) at 2.
      rewrite <- insert_delete_eq.
      rewrite !map_size_insert_None by apply lookup_delete_eq. lia.
    + rewrite bool_decide_false by (intros [? ?]; congruence).
      rewrite map_size_insert_None by assumption. lia.
Qed.

(** X9: for a key that has no solution GetDSPoWSoln logs a warning and
    returns 32 zero bytes without adding an entry; after clearDSPoWSolns
    this is the answer for every key, no key counts as submitted and the
    number of solutions is 0. *)
Theorem DSPoWSoln_missing key d :
  (m_allDSPoWs d !! key = None →
   GetDSPoWSoln key d = (repeat 0 32, d, [(WARNING, NoSuchElementInAllDSPoWs)])
   ∧ value (IsNodeSubmittedDSPoWSoln key d) = false)
  ∧ GetDSPoWSoln key (final (clearDSPoWSolns d))
    = (repeat 0 32, final (clearDSPoWSolns d), [(WARNING, NoSuchElementInAllDSPoWs)])
  ∧ value (IsNodeSubmittedDSPoWSoln key (final (clearDSPoWSolns d))) = false
  ∧ value (GetNumberOfDSPoWSolns (final (clearDSPoWSolns d))) = 0
  ∧ value (GetAllDSPoWs (final (clearDSPoWSolns d))) = ∅.
Proof.
  unfold GetDSPoWSoln, IsNodeSubmittedDSPoWSoln, GetNumberOfDSPoWSolns,
    GetAllDSPoWs, clearDSPoWSolns.
  run. cbn [m_allDSPoWs set_m_allDSPoWs]. rewrite lookup_empty. run.
  split.
  - intros Hnone. rewrite Hnone. run. split; [reflexivity |].
    apply bool_decide_false. intros [? ?]; congruence.
  - split; [reflexivity |]. split; [| split; reflexivity].
    apply bool_decide_false. intros [? ?]; congruence.
Qed.

Lemma DSPoWSoln_missing_witness :
  GetDSPoWSoln [7] (sample_node POW_SUBMISSION BACKUP_DS 1 NO_SYNC)
  = (repeat 0 32, sample_node POW_SUBMISSION BACKUP_DS 1 NO_SYNC,
     [(WARNING, NoSuchElementInAllDSPoWs)]).
Proof.
  apply (proj1 (DSPoWSoln_missing [7] (sample_node POW_SUBMISSION BACKUP_DS 1 NO_SYNC))).
  reflexivity.
Defined.

(** ** The consensus index *)

Lemma consensusMyID_loop_shift selfKey committee start :
  consensusMyID_loop selfKey committee start
  = (start + consensusMyID_loop selfKey committee 0)%nat.
Proof.
  revert start. induction committee as [| i rest IH]; intros start; cbn; [lia |].
  case_bool_decide; [lia |]. rewrite (IH (S start)), (IH 1%nat). lia.
Qed.

(** X10: the loop that sets m_consensusMyID stops at the first committee
    member that carries the node's own key: no earlier member has that
    key, and when the index is inside the committee the member there has
    it. When no member has the key, the index is the size of the committee,
    one past its last member. The index is counted without wrap-around. *)
Theorem consensusMyID_loop_first_match selfKey committee :
  (consensusMyID_loop selfKey committee 0 ≤ length committee)%nat
  ∧ (∀ j member, (j < consensusMyID_loop selfKey committee 0)%nat →
                 committee !! j = Some member → member.1 ≠ selfKey)
  ∧ ((consensusMyID_loop selfKey committee 0 < length committee)%nat →
     ∃ peer, committee !! consensusMyID_loop selfKey committee 0
             = Some (selfKey, peer))
  ∧ (consensusMyID_loop selfKey committee 0 = length committee
     ↔ selfKey ∉ committee.*1).
Proof.
  induction committee as [| [k p] rest (IHle & IHbefore & IHat & IHnone)]; cbn.
  - split; [lia |]. split; [intros; lia |]. split; [lia |].
    split; [intros _; apply not_elem_of_nil | reflexivity].
  - case_bool_decide as Hk; cbn in Hk.
    + subst k. split; [lia |]. split; [intros; lia |].
      split; [intros _; eauto |].
      split; [discriminate | intros Hnot; exfalso; apply Hnot; left].
    + rewrite consensusMyID_loop_shift. cbn.
      split; [lia |]. split; [| split].
      * intros [| j] member Hj Hmember; cbn in Hmember.
        -- by injection Hmember as <-.
        -- apply (IHbefore j); [lia | assumption].
      * intros Hin. apply IHat. lia.
      * rewrite not_elem_of_cons. split.
        -- intros Hlen. split; [congruence |]. apply IHnone. lia.
        -- intros [_ Hnot]. apply IHnone in Hnot. lia.
Qed.

Lemma consensusMyID_loop_first_match_witness :
  ∃ peer, [([1], sample_peer); ([2], sample_peer); ([2], mkPeer 1 1)]
            !! consensusMyID_loop [2]
                 [([1], sample_peer); ([2], sample_peer); ([2], mkPeer 1 1)] 0
          = Some ([2], peer).
Proof.
  apply (consensusMyID_loop_first_match [2]
           [([1], sample_peer); ([2], sample_peer); ([2], mkPeer 1 1)]).
  vm_compute. lia.
Defined.

(** ** Names of states and actions *)

(** X11: every state and every action has an entry in DirStateStrings and
    ActionStrings, so GetStateString and GetActionString never answer
    "Unknown", and different states, and different actions, have
    different names. *)
Theorem names_are_known_and_distinct :
  (∀ s, GetStateString_map s = GetStateString s ∧ GetStateString s ≠ "Unknown")
  ∧ (∀ a, GetActionString_map a = GetActionString a ∧ GetActionString a ≠ "Unknown")
  ∧ (∀ s1 s2, GetStateString s1 = GetStateString s2 → s1 = s2)
  ∧ (∀ a1 a2, GetActionString a1 = GetActionString a2 → a1 = a2).
Proof.
  split; [intros s; destruct s; split; (reflexivity || discriminate) |].
  split; [intros a; destruct a; split; (reflexivity || discriminate) |].
  split.
  - intros s1 s2; destruct s1, s2; cbn; intros Hname; (reflexivity || discriminate).
  - intros a1 a2; destruct a1, a2; cbn; intros Hname; (reflexivity || discriminate).
Qed.

(** ** Verification of a solution *)

Lemma VerifyPoWSubmission_refs K X sch message from key curr_offset portNo
    difficultyLevel d :
  LOOKUP_NODE_MODE K = false →
  (value (VerifyPoWSubmission K X sch message from key curr_offset portNo
            difficultyLevel d)).1 = true →
  ref_winning_hash
    (value (VerifyPoWSubmission K X sch message from key curr_offset portNo
              difficultyLevel d)).2
  = Some (Uint8VecToHexStr X message (curr_offset + sizeof_uint64_t) BLOCK_HASH_SIZE)
  ∧ ref_block_num
      (value (VerifyPoWSubmission K X sch message from key curr_offset portNo
                difficultyLevel d)).2
    = Some (uint64 (lastDSBlockNum (m_mediator d) + 1)).
Proof.
  intros Hlook. unfold VerifyPoWSubmission. rewrite Hlook. run.
  destruct (Schnorr_Verify X _ _ _ _ _); run; [| discriminate].
  destruct (negb _ && _); run; [discriminate |]. cbn. by intros _.
Qed.

(** X12: on a DS node VerifyPoWSubmission accepts a solution exactly when
    the Schnorr signature that follows the two hashes verifies over the
    message from its first byte up to the signature, the difficulty level
    is one of the two expected ones (those of the last DS block, or
    DS_POW_DIFFICULTY and POW_DIFFICULTY while the block to mine is
    block 1), and PoWVerify accepts the nonce and the hashes for the next
    DS block number and the sender's IP address. The listening port takes
    no part in the verdict. The one member that the call writes is the
    timer: when the signature and the difficulty level pass, m_timespec is
    set to the reading of the clock before PoWVerify runs, whatever
    PoWVerify then answers; otherwise the node is as it was. *)
Theorem VerifyPoWSubmission_true_iff K X sch message from key curr_offset portNo
    difficultyLevel d :
  LOOKUP_NODE_MODE K = false →
  (Schnorr_Verify X message 0
     (curr_offset + sizeof_uint64_t + BLOCK_HASH_SIZE + BLOCK_HASH_SIZE)
     (Signature_at X message
        (curr_offset + sizeof_uint64_t + BLOCK_HASH_SIZE + BLOCK_HASH_SIZE))
     key = true
   ∧ (difficultyLevel = expectedDSDiff K d ∨ difficultyLevel = expectedDiff K d) →
   final (VerifyPoWSubmission K X sch message from key curr_offset portNo
            difficultyLevel d) = set_m_timespec (r_timer_start sch) d)
  ∧ (¬ (Schnorr_Verify X message 0
          (curr_offset + sizeof_uint64_t + BLOCK_HASH_SIZE + BLOCK_HASH_SIZE)
          (Signature_at X message
             (curr_offset + sizeof_uint64_t + BLOCK_HASH_SIZE + BLOCK_HASH_SIZE))
          key = true
        ∧ (difficultyLevel = expectedDSDiff K d
           ∨ difficultyLevel = expectedDiff K d)) →
     final (VerifyPoWSubmission K X sch message from key curr_offset portNo
              difficultyLevel d) = d)
  ∧ ((value (VerifyPoWSubmission K X sch message from key curr_offset portNo
               difficultyLevel d)).1 = true
     ↔ Schnorr_Verify X message 0
         (curr_offset + sizeof_uint64_t + BLOCK_HASH_SIZE + BLOCK_HASH_SIZE)
         (Signature_at X message
            (curr_offset + sizeof_uint64_t + BLOCK_HASH_SIZE + BLOCK_HASH_SIZE))
         key = true
       ∧ (difficultyLevel = expectedDSDiff K d ∨ difficultyLevel = expectedDiff K d)
       ∧ PoWVerify X (uint64 (lastDSBlockNum (m_mediator d) + 1)) difficultyLevel
           (m_dsBlockRand (m_mediator d)) (m_txBlockRand (m_mediator d))
           (m_ipAddress from) key false
           (uint64 (GetNumber X message curr_offset sizeof_uint64_t))
           (Uint8VecToHexStr X message (curr_offset + sizeof_uint64_t) BLOCK_HASH_SIZE)
           (Uint8VecToHexStr X message
              (curr_offset + sizeof_uint64_t + BLOCK_HASH_SIZE) BLOCK_HASH_SIZE)
         = true).
Proof.
  intros Hlook. unfold VerifyPoWSubmission, expectedDSDiff, expectedDiff.
  rewrite Hlook. run.
  destruct (Schnorr_Verify X _ _ _ _ _); run;
    [| split; [intros (? & _); discriminate |];
       split; [reflexivity |]; cbn;
       split; [discriminate | intros (? & _); discriminate]].
  destruct (difficultyLevel =? _) eqn:Hds; run.
  - apply Z.eqb_eq in Hds. split; [reflexivity |].
    split; [intros Hnot; exfalso; apply Hnot; split; [reflexivity | by left] |]. cbn.
    split; [intros Hpow; split; [reflexivity |]; split; [by left | exact Hpow] | tauto].
  - apply Z.eqb_neq in Hds.
    destruct (difficultyLevel =? _) eqn:Hd; run.
    + apply Z.eqb_eq in Hd. split; [reflexivity |].
      split; [intros Hnot; exfalso; apply Hnot; split; [reflexivity | by right] |]. cbn.
      split; [intros Hpow; split; [reflexivity |]; split; [by right | exact Hpow] | tauto].
    + apply Z.eqb_neq in Hd.
      split; [intros (_ & [Heq | Heq]); contradiction |].
      split; [reflexivity |]. cbn.
      split; [discriminate | intros (_ & [Heq | Heq] & _); contradiction].
Qed.

Lemma VerifyPoWSubmission_true_iff_witness :
  m_timespec
    (final (VerifyPoWSubmission (sample_constants false false 2)
              (sample_collaborators true) (mkSchedule false None None None 1700)
              (sample_submission 3 7 1) sample_peer (repeat 7 33%nat) 46 8080 3
              (sample_node POW_SUBMISSION BACKUP_DS 1 NO_SYNC)))
  = 1700.
Proof.
  destruct (VerifyPoWSubmission_true_iff (sample_constants false false 2)
              (sample_collaborators true) (mkSchedule false None None None 1700)
              (sample_submission 3 7 1) sample_peer (repeat 7 33%nat) 46%nat 8080 3
              (sample_node POW_SUBMISSION BACKUP_DS 1 NO_SYNC))
    as (Hstarted & _); [reflexivity |].
  rewrite Hstarted; [reflexivity |]. split; [reflexivity | by right].
Defined.

(** ** The answers of the parser *)

Section Parser.

Context (K : Constants) (X : Collaborators) (sch : Schedule).
Context (message : Message) (offset : nat) (from : Peer).
Context (d : DirectoryService).

Hypothesis Hlook : LOOKUP_NODE_MODE K = false.

Lemma stale_block_rejected :
  uint64 (GetNumber X message offset sizeof_uint64_t)
    ≠ uint64 (lastDSBlockNum (m_mediator d) + 1) →
  value (ParseMessageAndVerifyPOW K X sch message offset from d) = false
  ∧ final (ParseMessageAndVerifyPOW K X sch message offset from d) = d.
Proof.
  intros Hstale. unfold ParseMessageAndVerifyPOW, ParseMessageAndVerifyPOW_while, CheckWhetherDSBlockIsFresh.
  rewrite Hlook. run.
  destruct (_ <? uint64 (_ + 1)) eqn:Hlow; run; [by split |].
  destruct (uint64 (_ + 1) <? _) eqn:Hhigh; run; [by split |].
  apply Z.ltb_ge in Hlow, Hhigh. lia.
Qed.

Hypothesis Hfresh :
  uint64 (GetNumber X message offset sizeof_uint64_t)
  = uint64 (lastDSBlockNum (m_mediator d) + 1).

Lemma fresh_block_passes :
  CheckWhetherDSBlockIsFresh K (uint64 (GetNumber X message offset sizeof_uint64_t)) d
  = (true, d, []).
Proof.
  unfold CheckWhetherDSBlockIsFresh. rewrite Hlook, Hfresh. run.
  rewrite Z.ltb_irrefl. reflexivity.
Qed.

Lemma unparsed_key_rejected :
  PubKey_Deserialize X message (key_offset offset) = None →
  ParseMessageAndVerifyPOW K X sch message offset from d
  = (false, d, [(WARNING, FailedToDeserializePubKey)]).
Proof.
  intros Hkey. unfold ParseMessageAndVerifyPOW, ParseMessageAndVerifyPOW_while. rewrite Hlook. run.
  rewrite fresh_block_passes. run. fold (key_offset offset). rewrite Hkey. reflexivity.
Qed.

Context (key : PubKey).
Hypothesis Hkey : PubKey_Deserialize X message (key_offset offset) = Some key.

(** Symbolic execution of the parser up to the first VERIFYPOW check. *)
Ltac to_first_check :=
  unfold ParseMessageAndVerifyPOW, ParseMessageAndVerifyPOW_while; rewrite Hlook; run;
  rewrite fresh_block_passes; run;
  fold (key_offset offset); rewrite Hkey; run;
  unfold whitelist_log, submitter, port_of;
  match goal with
  | |- context [TEST_NET_MODE K && ?listed] => destruct (TEST_NET_MODE K && listed)
  end; run;
  rewrite (interleave_run _ _ _ Hlook); run.

Lemma first_check_late :
  m_mode d = IDLE ∨ m_state (observe (set_before_parse sch) d) ≠ POW_SUBMISSION →
  value (ParseMessageAndVerifyPOW K X sch message offset from d) = true
  ∧ final (ParseMessageAndVerifyPOW K X sch message offset from d)
    = observe (set_before_parse sch) d
  ∧ (INFO, TooLateAssumeTrue (m_state (observe (set_before_parse sch) d)))
      ∈ logged (ParseMessageAndVerifyPOW K X sch message offset from d).
Proof.
  intros [Hidle | Hlate].
  - to_first_check;
      rewrite CheckState_idle by (assumption || by rewrite observe_mode); run;
      (split; [reflexivity |]; split; [reflexivity |];
       set_solver).
  - destruct (decide (m_mode d = IDLE)) as [Hidle | Hmode].
    + to_first_check;
        rewrite CheckState_idle by (assumption || by rewrite observe_mode); run;
        (split; [reflexivity |]; split; [reflexivity |];
         set_solver).
    + to_first_check;
        rewrite CheckState_run by (assumption || by rewrite observe_mode);
        rewrite (VERIFYPOW_only_in_POW_SUBMISSION _ Hlate); run;
        (split; [reflexivity |]; split; [reflexivity |];
         set_solver).
Qed.

Hypothesis Hmode : m_mode d ≠ IDLE.
Hypothesis Hfirst : m_state (observe (set_before_parse sch) d) = POW_SUBMISSION.

(** Symbolic execution of the parser up to the test of the IP address. *)
Ltac to_ip_check :=
  to_first_check;
  rewrite CheckState_run by (assumption || by rewrite observe_mode);
  rewrite Hfirst;
  change (found_in_table POW_SUBMISSION VERIFYPOW) with true; run.

Lemma invalid_ip_rejected :
  IsValidIP X (m_ipAddress from) = false →
  value (ParseMessageAndVerifyPOW K X sch message offset from d) = false
  ∧ final (ParseMessageAndVerifyPOW K X sch message offset from d)
    = observe (set_before_parse sch) d
  ∧ (WARNING, PrivateOrBroadcastIP)
      ∈ logged (ParseMessageAndVerifyPOW K X sch message offset from d).
Proof.
  intros Hip. to_ip_check; rewrite Hip; run;
    (split; [reflexivity |]; split; [reflexivity |];
     set_solver).
Qed.

Hypothesis Hip : IsValidIP X (m_ipAddress from) = true.
Hypothesis Hunder : over_limit K (m_AllPoWCounter d) key = false.

(** Symbolic execution of the parser up to the second VERIFYPOW check. *)
Ltac to_verdict Hrun :=
  to_ip_check; rewrite Hip; run;
  rewrite CheckPoWSubmissionExceedsLimitsForNode_run, observe_counter;
  rewrite Hunder; run; rewrite Hrun; run;
  rewrite (interleave_run _ _ _ Hlook); run.

Lemma failed_verification_rejected :
  verified K X sch message offset from key (observe (set_before_parse sch) d) = false →
  value (ParseMessageAndVerifyPOW K X sch message offset from d) = false
  ∧ pool (final (ParseMessageAndVerifyPOW K X sch message offset from d)) = pool d
  ∧ ∃ block_num nonce,
      (INFO, InvalidPoWSubmission block_num (difficulty_of X message offset) nonce
               (submitter X message offset from))
        ∈ logged (ParseMessageAndVerifyPOW K X sch message offset from d).
Proof.
  intros Hverdict.
  unfold verified, solution_offset, port_of, difficulty_of in Hverdict.
  match type of Hverdict with
  | (value ?call).1 = false =>
      match call with
      | VerifyPoWSubmission _ _ _ _ _ _ ?o ?p ?dl ?d1 =>
          destruct (VerifyPoWSubmission_frame K X sch message from key o p dl d1)
            as (result & refs & started & lv & Hrun)
      end
  end.
  rewrite Hrun in Hverdict. cbn in Hverdict. subst result.
  unfold difficulty_of.
  to_verdict Hrun;
    (split; [reflexivity |]; split; [by autorewrite with observe |];
     exists (default 0 (ref_block_num refs)), (default 0 (ref_nonce refs));
     set_solver).
Qed.

Hypothesis Hverified :
  verified K X sch message offset from key (observe (set_before_parse sch) d) = true.
Hypothesis Hstill :
  m_state (observe (set_during_verify sch)
             (set_m_timespec (r_timer_start sch) (observe (set_before_parse sch) d)))
  = POW_SUBMISSION.

Lemma verified_submission_record :
  value (ParseMessageAndVerifyPOW K X sch message offset from d) = true
  ∧ m_allPoWConns (final (ParseMessageAndVerifyPOW K X sch message offset from d))
    = emplace key (submitter X message offset from) (m_allPoWConns d)
  ∧ m_allPoWs (final (ParseMessageAndVerifyPOW K X sch message offset from d))
    = <[key := winning_hash_of X message offset]> (m_allPoWs d)
  ∧ m_allDSPoWs (final (ParseMessageAndVerifyPOW K X sch message offset from d))
    = (if difficulty_of X message offset =? expectedDSDiff K d
       then <[key := winning_hash_of X message offset]> (m_allDSPoWs d)
       else m_allDSPoWs d)
  ∧ m_AllPoWCounter (final (ParseMessageAndVerifyPOW K X sch message offset from d))
    = bump key (m_AllPoWCounter d).
Proof.
  pose proof Hverified as Hverdict.
  unfold verified, solution_offset, port_of, difficulty_of in Hverdict.
  match type of Hverdict with
  | (value ?call).1 = true =>
      match call with
      | VerifyPoWSubmission _ _ _ _ _ _ ?o ?p ?dl ?d1 =>
          destruct (VerifyPoWSubmission_refs K X sch message from key o p dl d1
                      Hlook Hverdict) as (Hhash & Hnum);
          destruct (VerifyPoWSubmission_started K X sch message from key o p dl d1
                      Hlook Hverdict) as (refs & lv & Hrun)
      end
  end.
  rewrite Hrun in Hhash, Hnum. cbn in Hhash, Hnum.
  unfold difficulty_of, winning_hash_of, solution_offset, expectedDSDiff.
  to_verdict Hrun;
    rewrite CheckState_run by (assumption || by autorewrite with observe);
    rewrite Hstill;
    change (found_in_table POW_SUBMISSION VERIFYPOW) with true; run;
    cbv beta iota zeta delta [AddDSPoWs];
    rewrite Hhash, Hnum; cbn [default]; unfold id;
    cbn [m_mediator set_m_allPoWs set_m_allPoWConns];
    rewrite !observe_mediator, started_mediator, !observe_mediator;
    match goal with
    | |- context [(if ?c then _ else _) _] => destruct c
    end; run;
    rewrite UpdatePoWSubmissionCounterforNode_run; run; cbn;
    autorewrite with observe;
    repeat split; reflexivity.
Qed.

End Parser.

(** X13: on a DS node the parser answers false, and leaves the node as it
    was, for a submission whose DS block number is not the one after the
    last DS block, and for one whose public key cannot be deserialized. *)
Theorem ParseMessageAndVerifyPOW_rejects_unreadable K X sch message offset from d :
  LOOKUP_NODE_MODE K = false →
  uint64 (GetNumber X message offset sizeof_uint64_t)
    ≠ uint64 (lastDSBlockNum (m_mediator d) + 1)
  ∨ PubKey_Deserialize X message (key_offset offset) = None →
  value (ParseMessageAndVerifyPOW K X sch message offset from d) = false
  ∧ final (ParseMessageAndVerifyPOW K X sch message offset from d) = d.
Proof.
  intros Hlook Hbad.
  destruct (decide (uint64 (GetNumber X message offset sizeof_uint64_t)
                    = uint64 (lastDSBlockNum (m_mediator d) + 1))) as [Hfresh | Hstale].
  - destruct Hbad as [Hstale | Hkey]; [contradiction |].
    by rewrite (unparsed_key_rejected K X sch message offset from d Hlook Hfresh Hkey).
  - by apply stale_block_rejected.
Qed.

Lemma ParseMessageAndVerifyPOW_rejects_unreadable_witness :
  value (ParseMessageAndVerifyPOW (sample_constants false false 2)
           (sample_collaborators true) quiet (repeat 0 190%nat) 0 sample_peer
           (sample_node POW_SUBMISSION BACKUP_DS 1 NO_SYNC)) = false.
Proof.
  apply (ParseMessageAndVerifyPOW_rejects_unreadable (sample_constants false false 2)
           (sample_collaborators true) quiet (repeat 0 190%nat) 0%nat sample_peer
           (sample_node POW_SUBMISSION BACKUP_DS 1 NO_SYNC));
    [reflexivity | left; vm_compute; discriminate].
Defined.

(** X14: a submission for the next DS block with a readable key that finds
    the node idle, or not in state POW_SUBMISSION, at the first VERIFYPOW
    check is answered with true: the parser logs "Too late ... Assume true
    as it has no impact" and records nothing, whatever the IP address, the
    submission count and the solution are. *)
Theorem first_check_late_answers_true K X sch message offset from d key :
  LOOKUP_NODE_MODE K = false →
  uint64 (GetNumber X message offset sizeof_uint64_t)
    = uint64 (lastDSBlockNum (m_mediator d) + 1) →
  PubKey_Deserialize X message (key_offset offset) = Some key →
  m_mode d = IDLE ∨ m_state (observe (set_before_parse sch) d) ≠ POW_SUBMISSION →
  value (ParseMessageAndVerifyPOW K X sch message offset from d) = true
  ∧ pool (final (ParseMessageAndVerifyPOW K X sch message offset from d)) = pool d
  ∧ (INFO, TooLateAssumeTrue (m_state (observe (set_before_parse sch) d)))
      ∈ logged (ParseMessageAndVerifyPOW K X sch message offset from d).
Proof.
  intros Hlook Hfresh Hkey Hlate.
  destruct (first_check_late K X sch message offset from d Hlook Hfresh key Hkey Hlate)
    as (Hvalue & Hfinal & Hlog).
  split; [exact Hvalue |]. split; [| exact Hlog].
  rewrite Hfinal. apply observe_pool.
Qed.

Lemma first_check_late_answers_true_witness :
  value (ParseMessageAndVerifyPOW (sample_constants false false 2)
           sample_collaborators_no_ip quiet (sample_submission 4 7 1) 0 sample_peer
           (sample_node DSBLOCK_CONSENSUS BACKUP_DS 1 NO_SYNC)) = true.
Proof.
  apply (first_check_late_answers_true (sample_constants false false 2)
           sample_collaborators_no_ip quiet (sample_submission 4 7 1) 0%nat sample_peer
           (sample_node DSBLOCK_CONSENSUS BACKUP_DS 1 NO_SYNC) (repeat 7 33%nat));
    [reflexivity | reflexivity | reflexivity | right; discriminate].
Defined.

(** X15: a submission that passes the first VERIFYPOW check but comes from
    an IP address that IsValidIP turns down is answered with false and the
    warning "IP belong to private ip subnet or is a broadcast address";
    nothing is verified or recorded. *)
Theorem invalid_ip_answers_false K X sch message offset from d key :
  LOOKUP_NODE_MODE K = false →
  uint64 (GetNumber X message offset sizeof_uint64_t)
    = uint64 (lastDSBlockNum (m_mediator d) + 1) →
  PubKey_Deserialize X message (key_offset offset) = Some key →
  m_mode d ≠ IDLE →
  m_state (observe (set_before_parse sch) d) = POW_SUBMISSION →
  IsValidIP X (m_ipAddress from) = false →
  value (ParseMessageAndVerifyPOW K X sch message offset from d) = false
  ∧ final (ParseMessageAndVerifyPOW K X sch message offset from d)
    = observe (set_before_parse sch) d
  ∧ (WARNING, PrivateOrBroadcastIP)
      ∈ logged (ParseMessageAndVerifyPOW K X sch message offset from d).
Proof.
  intros Hlook Hfresh Hkey Hmode Hfirst Hip.
  by apply (invalid_ip_rejected K X sch message offset from d Hlook Hfresh key).
Qed.

Lemma invalid_ip_answers_false_witness :
  value (ParseMessageAndVerifyPOW (sample_constants false false 2)
           sample_collaborators_no_ip quiet (sample_submission 3 7 1) 0 sample_peer
           (sample_node POW_SUBMISSION BACKUP_DS 1 NO_SYNC)) = false.
Proof.
  apply (invalid_ip_answers_false (sample_constants false false 2)
           sample_collaborators_no_ip quiet (sample_submission 3 7 1) 0%nat sample_peer
           (sample_node POW_SUBMISSION BACKUP_DS 1 NO_SYNC) (repeat 7 33%nat));
    [reflexivity | reflexivity | reflexivity | discriminate | reflexivity
    | reflexivity].
Defined.

(** X16: a submission that reaches VerifyPoWSubmission and fails it is
    answered with false and the log entry "Invalid PoW submission" with
    its difficulty level and its peer; nothing is recorded and the
    submission is not counted. *)
Theorem failed_verification_answers_false K X sch message offset from d key :
  LOOKUP_NODE_MODE K = false →
  uint64 (GetNumber X message offset sizeof_uint64_t)
    = uint64 (lastDSBlockNum (m_mediator d) + 1) →
  PubKey_Deserialize X message (key_offset offset) = Some key →
  m_mode d ≠ IDLE →
  m_state (observe (set_before_parse sch) d) = POW_SUBMISSION →
  IsValidIP X (m_ipAddress from) = true →
  over_limit K (m_AllPoWCounter d) key = false →
  verified K X sch message offset from key (observe (set_before_parse sch) d) = false →
  value (ParseMessageAndVerifyPOW K X sch message offset from d) = false
  ∧ pool (final (ParseMessageAndVerifyPOW K X sch message offset from d)) = pool d
  ∧ ∃ block_num nonce,
      (INFO, InvalidPoWSubmission block_num (difficulty_of X message offset) nonce
               (submitter X message offset from))
        ∈ logged (ParseMessageAndVerifyPOW K X sch message offset from d).
Proof.
  intros Hlook Hfresh Hkey Hmode Hfirst Hip Hunder Hverdict.
  by apply (failed_verification_rejected K X sch message offset from d Hlook Hfresh
              key).
Qed.

Lemma failed_verification_answers_false_witness :
  value (ParseMessageAndVerifyPOW (sample_constants false false 2)
           (sample_collaborators true) quiet (sample_submission 4 7 1) 0 sample_peer
           (sample_node POW_SUBMISSION BACKUP_DS 1 NO_SYNC)) = false.
Proof.
  apply (failed_verification_answers_false (sample_constants false false 2)
           (sample_collaborators true) quiet (sample_submission 4 7 1) 0%nat sample_peer
           (sample_node POW_SUBMISSION BACKUP_DS 1 NO_SYNC) (repeat 7 33%nat));
    [ reflexivity | reflexivity | reflexivity | discriminate | reflexivity
    | reflexivity | reflexivity | reflexivity ].
Defined.

(** ** What a verified submission leaves in the pool *)

(** X17: a verified submission that still finds the state at
    POW_SUBMISSION is recorded as follows. m_allPoWs[key] becomes the hash
    of the message, replacing an earlier one; m_allPoWConns gets the peer
    (the sender's IP address with the port of the message) only when the
    key has no peer yet, an earlier peer stays; m_allDSPoWs[key] is set to
    the hash exactly when the difficulty level is the expected DS
    difficulty; and the counter of the key goes up by one. *)
Theorem verified_submission_is_recorded K X sch message offset from d key :
  LOOKUP_NODE_MODE K = false →
  uint64 (GetNumber X message offset sizeof_uint64_t)
    = uint64 (lastDSBlockNum (m_mediator d) + 1) →
  PubKey_Deserialize X message (key_offset offset) = Some key →
  m_mode d ≠ IDLE →
  m_state (observe (set_before_parse sch) d) = POW_SUBMISSION →
  IsValidIP X (m_ipAddress from) = true →
  over_limit K (m_AllPoWCounter d) key = false →
  verified K X sch message offset from key (observe (set_before_parse sch) d) = true →
  m_state (observe (set_during_verify sch) (observe (set_before_parse sch) d))
    = POW_SUBMISSION →
  value (ParseMessageAndVerifyPOW K X sch message offset from d) = true
  ∧ m_allPoWs (final (ParseMessageAndVerifyPOW K X sch message offset from d))
    = <[key := winning_hash_of X message offset]> (m_allPoWs d)
  ∧ m_allPoWConns (final (ParseMessageAndVerifyPOW K X sch message offset from d))
    = match m_allPoWConns d !! key with
      | Some first => m_allPoWConns d
      | None => <[key := submitter X message offset from]> (m_allPoWConns d)
      end
  ∧ m_allDSPoWs (final (ParseMessageAndVerifyPOW K X sch message offset from d))
    = (if difficulty_of X message offset =? expectedDSDiff K d
       then <[key := winning_hash_of X message offset]> (m_allDSPoWs d)
       else m_allDSPoWs d)
  ∧ m_AllPoWCounter (final (ParseMessageAndVerifyPOW K X sch message offset from d))
    = bump key (m_AllPoWCounter d).
Proof.
  intros Hlook Hfresh Hkey Hmode Hfirst Hip Hunder Hverified Hstill.
  rewrite <- (observe_started_state _ (r_timer_start sch)) in Hstill.
  destruct (verified_submission_record K X sch message offset from d Hlook Hfresh
              key Hkey Hmode Hfirst Hip Hunder Hverified Hstill)
    as (Hvalue & Hconns & Hpows & Hds & Hcounter).
  split; [exact Hvalue |]. split; [exact Hpows |].
  split; [exact Hconns |]. split; [exact Hds | exact Hcounter].
Qed.

Lemma verified_submission_is_recorded_witness :
  value (ParseMessageAndVerifyPOW (sample_constants false false 2)
           (sample_collaborators true) quiet (sample_submission 5 7 1) 0 sample_peer
           (sample_node POW_SUBMISSION BACKUP_DS 1 NO_SYNC)) = true.
Proof.
  apply (verified_submission_is_recorded (sample_constants false false 2)
           (sample_collaborators true) quiet (sample_submission 5 7 1) 0%nat sample_peer
           (sample_node POW_SUBMISSION BACKUP_DS 1 NO_SYNC) (repeat 7 33%nat));
    [ reflexivity | reflexivity | reflexivity | discriminate | reflexivity
    | reflexivity | reflexivity | reflexivity | reflexivity ].
Defined.

(** A DS-difficulty submission after a shard-difficulty one of the same key
    from another port: the hash is replaced, the first peer stays, and the
    key enters m_allDSPoWs. *)
Example resubmission_keeps_first_peer :
  let K := sample_constants false false 2 in
  let X := sample_collaborators true in
  let first := [0; 0; 0; 0; 0; 0; 0; 1] ++ [3] ++ [0; 0; 31; 144]
               ++ repeat 7 33 ++ repeat 0 8 ++ repeat 1 32 ++ repeat 0 (32 + 64) in
  let second := [0; 0; 0; 0; 0; 0; 0; 1] ++ [5] ++ [0; 0; 31; 145]
                ++ repeat 7 33 ++ repeat 0 8 ++ repeat 2 32 ++ repeat 0 (32 + 64) in
  let r1 := ParseMessageAndVerifyPOW K X quiet first 0 sample_peer
              (sample_node POW_SUBMISSION BACKUP_DS 1 NO_SYNC) in
  let r2 := ParseMessageAndVerifyPOW K X quiet second 0 sample_peer (final r1) in
  m_allPoWs (final r1) !! repeat 7 33%nat = Some (repeat 1 32%nat)
  ∧ m_allDSPoWs (final r1) !! repeat 7 33%nat = None
  ∧ m_allPoWs (final r2) !! repeat 7 33%nat = Some (repeat 2 32%nat)
  ∧ m_allPoWConns (final r2) !! repeat 7 33%nat = Some (mkPeer 16777343 8080)
  ∧ m_allDSPoWs (final r2) !! repeat 7 33%nat = Some (repeat 2 32%nat)
  ∧ m_AllPoWCounter (final r2) !! repeat 7 33%nat = Some 2.
Proof. vm_compute. repeat split; reflexivity. Qed.

(** X18: a call of ProcessPoWSubmission that answers false has recorded
    nothing: the four PoW maps are as before. *)
Theorem false_answer_records_nothing K X sch message offset from d :
  value (ProcessPoWSubmission K X sch message offset from d) = false →
  pool (final (ProcessPoWSubmission K X sch message offset from d)) = pool d.
Proof.
  intros Hfalse.
  destruct (ProcessPoWSubmission_pool K X sch message offset from d)
    as [Hsame | (key & peer & hash & _ & _ & Htrue & _)]; [exact Hsame |].
  congruence.
Qed.

Lemma false_answer_records_nothing_witness :
  pool (final (ProcessPoWSubmission (sample_constants false false 2)
                 (sample_collaborators true) quiet
                 (removelast (sample_submission 3 7 0)) 0 sample_peer
                 (sample_node POW_SUBMISSION BACKUP_DS 1 NO_SYNC)))
  = pool (sample_node POW_SUBMISSION BACKUP_DS 1 NO_SYNC).
Proof.
  apply (false_answer_records_nothing (sample_constants false false 2)
           (sample_collaborators true) quiet
           (removelast (sample_submission 3 7 0)) 0%nat sample_peer
           (sample_node POW_SUBMISSION BACKUP_DS 1 NO_SYNC)).
  reflexivity.
Defined.

(** ** Invariants of the pool *)

Lemma pool_consistent_ext d d' :
  pool d = pool d' → pool_consistent d → pool_consistent d'.
Proof.
  unfold pool, pool_consistent. intros Hpool Hinv k.
  injection Hpool as <- <- <- <-. apply Hinv.
Qed.

Lemma emplace_lookup_ne {V} (key k : PubKey) (v : V) (m : gmap PubKey V) :
  key ≠ k → emplace key v m !! k = m !! k.
Proof.
  intros Hne. unfold emplace. destruct (m !! key); [reflexivity |].
  by rewrite lookup_insert_ne.
Qed.

Lemma bump_is_Some key counter : is_Some (bump key counter !! key).
Proof.
  unfold bump. destruct (counter !! key); rewrite lookup_insert_eq; eauto.
Qed.

Lemma bump_lookup_ne key k counter :
  key ≠ k → bump key counter !! k = counter !! k.
Proof.
  intros Hne. unfold bump. destruct (counter !! key); by rewrite lookup_insert_ne.
Qed.

Lemma record_keeps_consistent d d' key peer hash :
  pool_consistent d →
  m_allPoWConns d' = emplace key peer (m_allPoWConns d) →
  m_allPoWs d' = <[key := hash]> (m_allPoWs d) →
  m_allDSPoWs d' = m_allDSPoWs d ∨ m_allDSPoWs d' = <[key := hash]> (m_allDSPoWs d) →
  m_AllPoWCounter d' = bump key (m_AllPoWCounter d) →
  pool_consistent d'.
Proof.
  intros Hinv Hconns Hpows Hds Hcounter k.
  destruct (Hinv k) as (Hsame & Hsub & Hcounted).
  rewrite Hconns, Hpows, Hcounter.
  destruct (decide (key = k)) as [<- | Hne].
  - rewrite lookup_insert_eq.
    split; [split; intros _; [apply emplace_is_Some | eauto] |].
    split; [eauto | intros _; apply bump_is_Some].
  - rewrite lookup_insert_ne, emplace_lookup_ne, bump_lookup_ne by done.
    split; [exact Hsame |]. split; [| exact Hcounted].
    destruct Hds as [-> | ->]; [exact Hsub |]. by rewrite lookup_insert_ne.
Qed.

(** A run of the parser leaves the four maps as they were, or it records
    one key in them. *)
Lemma ParseMessageAndVerifyPOW_maps K X sch message offset from d :
  LOOKUP_NODE_MODE K = false →
  pool (final (ParseMessageAndVerifyPOW K X sch message offset from d)) = pool d
  ∨ ∃ key peer hash,
      m_allPoWConns (final (ParseMessageAndVerifyPOW K X sch message offset from d))
      = emplace key peer (m_allPoWConns d)
      ∧ m_allPoWs (final (ParseMessageAndVerifyPOW K X sch message offset from d))
        = <[key := hash]> (m_allPoWs d)
      ∧ (m_allDSPoWs (final (ParseMessageAndVerifyPOW K X sch message offset from d))
         = m_allDSPoWs d
         ∨ m_allDSPoWs (final (ParseMessageAndVerifyPOW K X sch message offset from d))
           = <[key := hash]> (m_allDSPoWs d))
      ∧ m_AllPoWCounter (final (ParseMessageAndVerifyPOW K X sch message offset from d))
        = bump key (m_AllPoWCounter d).
Proof.
  intros Hlook. unfold ParseMessageAndVerifyPOW, ParseMessageAndVerifyPOW_while. rewrite Hlook. run.
  repeat step Hlook.
  all: try (left; by autorewrite with observe).
  all: right; do 3 eexists; cbn; autorewrite with observe;
    (split; [reflexivity |]; split; [reflexivity |];
     split; [first [left; reflexivity | right; reflexivity] | reflexivity]).
Qed.

Lemma ParseMessageAndVerifyPOW_consistent K X sch message offset from d :
  LOOKUP_NODE_MODE K = false → pool_consistent d →
  pool_consistent (final (ParseMessageAndVerifyPOW K X sch message offset from d)).
Proof.
  intros Hlook Hinv.
  destruct (ParseMessageAndVerifyPOW_maps K X sch message offset from d Hlook)
    as [Hsame | (key & peer & hash & Hconns & Hpows & Hds & Hcounter)].
  - by apply (pool_consistent_ext d).
  - by apply (record_keeps_consistent d _ key peer hash).
Qed.

Lemma ProcessPoWSubmission_consistent K X sch message offset from d :
  pool_consistent d →
  pool_consistent (final (ProcessPoWSubmission K X sch message offset from d)).
Proof.
  intros Hinv. unfold_ProcessPoWSubmission.
  destruct (LOOKUP_NODE_MODE K) eqn:Hlook; run; [exact Hinv |].
  assert (∀ d1, pool d1 = pool d →
            pool_consistent
              (final (ParseMessageAndVerifyPOW K X sch message offset from d1)))
    as Hparse.
  { intros d1 Hp. apply ParseMessageAndVerifyPOW_consistent; [assumption |].
    by apply (pool_consistent_ext d). }
  repeat step Hlook.
  all: try (apply (pool_consistent_ext d); [| assumption];
            by autorewrite with observe).
  all: match goal with
       | |- context [ParseMessageAndVerifyPOW ?K' ?X' ?s' ?m' ?o' ?f' ?d1] =>
           specialize (Hparse d1 ltac:(by autorewrite with observe));
           destruct (ParseMessageAndVerifyPOW K' X' s' m' o' f' d1)
             as [[result d2] l2]
       end; run; exact Hparse.
Qed.

Lemma empty_pool_consistent d :
  pool d = (∅, ∅, ∅, ∅) → pool_consistent d.
Proof.
  unfold pool. intros Hpool k. injection Hpool as -> -> -> ->.
  rewrite !lookup_empty.
  split; [split; intros [? ?]; discriminate |]. split; intros [? ?]; discriminate.
Qed.

(** X19: the keys of the four PoW maps stay in step. If every key has a
    solution exactly when it has a peer, every DS solution belongs to a
    key with a solution, and every key with a solution has a counter,
    then the same holds after any series of PoW submissions, whatever
    they carry and however the epoch driver is scheduled; and it holds
    from CleanVariables on. *)
Theorem pool_stays_consistent K X submissions d :
  (pool_consistent d → pool_consistent (handle_all K X submissions d))
  ∧ (LOOKUP_NODE_MODE K = false →
     pool_consistent (handle_all K X submissions (final (CleanVariables K d)))).
Proof.
  assert (∀ d0, pool_consistent d0 → pool_consistent (handle_all K X submissions d0))
    as Hall.
  { induction submissions as [| [[[sch message] offset] from] rest IH];
      intros d0 Hinv; cbn; [exact Hinv |].
    apply IH. by apply ProcessPoWSubmission_consistent. }
  split; [apply Hall |].
  intros Hlook. apply Hall, empty_pool_consistent.
  rewrite CleanVariables_run by assumption. reflexivity.
Qed.

Lemma pool_stays_consistent_witness :
  pool_consistent
    (handle_all (sample_constants false false 2) (sample_collaborators true)
       [(quiet, sample_submission 3 7 1, 0%nat, sample_peer);
        (quiet, sample_submission 5 8 1, 0%nat, sample_peer)]
       (sample_node POW_SUBMISSION BACKUP_DS 1 NO_SYNC)).
Proof.
  apply (pool_stays_consistent (sample_constants false false 2)
           (sample_collaborators true)
           [(quiet, sample_submission 3 7 1, 0%nat, sample_peer);
            (quiet, sample_submission 5 8 1, 0%nat, sample_peer)]
           (sample_node POW_SUBMISSION BACKUP_DS 1 NO_SYNC)).
  apply empty_pool_consistent. reflexivity.
Defined.

(** ** What the PoW handler leaves alone *)

Lemma outside_pool_observe t d : outside_pool (observe t d) = outside_pool d.
Proof. destruct t; reflexivity. Qed.

Lemma outside_pool_at_gate sch d : outside_pool (at_gate sch d) = outside_pool d.
Proof.
  unfold at_gate. case_bool_decide; [apply outside_pool_observe | reflexivity].
Qed.

Lemma observe_timespec t d : m_timespec (observe t d) = m_timespec d.
Proof. destruct t; reflexivity. Qed.

Lemma ParseMessageAndVerifyPOW_outside K X sch message offset from d :
  LOOKUP_NODE_MODE K = false →
  outside_pool (final (ParseMessageAndVerifyPOW K X sch message offset from d))
  = outside_pool d
  ∧ m_state (final (ParseMessageAndVerifyPOW K X sch message offset from d))
    ∈ [m_state d;
       m_state (observe (set_before_parse sch) d);
       m_state (observe (set_during_verify sch) (observe (set_before_parse sch) d))]
  ∧ m_timespec (final (ParseMessageAndVerifyPOW K X sch message offset from d))
    ∈ [m_timespec d; r_timer_start sch].
Proof.
  intros Hlook. unfold ParseMessageAndVerifyPOW, ParseMessageAndVerifyPOW_while.
  rewrite Hlook. run.
  repeat step Hlook.
  all: unfold stamp;
    repeat match goal with
      | |- context [if ?started then set_m_timespec _ _ else _] => destruct started
      end;
    destruct (set_before_parse sch), (set_during_verify sch); cbn;
    (split; [reflexivity | split; set_solver]).
Qed.

Lemma observe_state t d :
  m_state (observe t d) = m_state d ∨ Some (m_state (observe t d)) = t.
Proof. destruct t; cbn; eauto. Qed.

(** X20: of the members in the node record, ProcessPoWSubmission writes to
    the four PoW maps and to the timer m_timespec, and to nothing else.
    Every other member is as before; m_state is as before or is the state
    that the epoch driver set during the run, so the handler itself never
    changes the state or the mode; and the timer is as before or holds the
    reading of the clock that the run took. *)
Theorem ProcessPoWSubmission_writes_pool_and_timer_only K X sch message offset
    from d :
  outside_pool (final (ProcessPoWSubmission K X sch message offset from d))
  = outside_pool d
  ∧ (m_state (final (ProcessPoWSubmission K X sch message offset from d)) = m_state d
     ∨ Some (m_state (final (ProcessPoWSubmission K X sch message offset from d)))
       = set_during_wait sch
     ∨ Some (m_state (final (ProcessPoWSubmission K X sch message offset from d)))
       = set_before_parse sch
     ∨ Some (m_state (final (ProcessPoWSubmission K X sch message offset from d)))
       = set_during_verify sch)
  ∧ (m_timespec (final (ProcessPoWSubmission K X sch message offset from d))
     = m_timespec d
     ∨ m_timespec (final (ProcessPoWSubmission K X sch message offset from d))
       = r_timer_start sch).
Proof.
  unfold_ProcessPoWSubmission.
  destruct (LOOKUP_NODE_MODE K) eqn:Hlook; run;
    [split; [reflexivity | split; by left] |].
  assert (∀ d1, outside_pool d1 = outside_pool d →
            m_state d1 = m_state d ∨ Some (m_state d1) = set_during_wait sch →
            m_timespec d1 = m_timespec d →
            outside_pool (final (ParseMessageAndVerifyPOW K X sch message offset from d1))
            = outside_pool d
            ∧ (m_state (final (ParseMessageAndVerifyPOW K X sch message offset from d1))
               = m_state d
               ∨ Some (m_state (final (ParseMessageAndVerifyPOW K X sch message offset
                                         from d1)))
                 = set_during_wait sch
               ∨ Some (m_state (final (ParseMessageAndVerifyPOW K X sch message offset
                                         from d1)))
                 = set_before_parse sch
               ∨ Some (m_state (final (ParseMessageAndVerifyPOW K X sch message offset
                                         from d1)))
                 = set_during_verify sch)
            ∧ (m_timespec (final (ParseMessageAndVerifyPOW K X sch message offset
                                    from d1))
               = m_timespec d
               ∨ m_timespec (final (ParseMessageAndVerifyPOW K X sch message offset
                                      from d1))
                 = r_timer_start sch)) as Hparse.
  { intros d1 Hout Hstate Htimer.
    destruct (ParseMessageAndVerifyPOW_outside K X sch message offset from d1 Hlook)
      as (Hout1 & Hin & Hclock).
    split; [congruence |].
    pose proof (observe_state (set_before_parse sch) d1) as Hbp.
    pose proof (observe_state (set_during_verify sch)
                  (observe (set_before_parse sch) d1)) as Hdv.
    rewrite !elem_of_cons, elem_of_nil in Hin.
    rewrite !elem_of_cons, elem_of_nil in Hclock. split.
    - destruct Hin as [Hin | [Hin | [Hin | []]]]; rewrite Hin; clear Hin;
        intuition congruence.
    - destruct Hclock as [Hclock | [Hclock | []]]; rewrite Hclock;
        [left; exact Htimer | by right]. }
  repeat step Hlook.
  all: try (split; [by rewrite ?outside_pool_observe
                   | split; [apply or_assoc; left; apply observe_state
                            | left; apply observe_timespec] ]).
  all: try (split; [reflexivity | split; by left]).
  all: match goal with
       | |- context [ParseMessageAndVerifyPOW ?K' ?X' ?s' ?m' ?o' ?f' ?d1] =>
           specialize (Hparse d1 ltac:(by rewrite ?outside_pool_observe)
                         ltac:(first [by left | apply observe_state])
                         ltac:(by rewrite ?observe_timespec));
           destruct (ParseMessageAndVerifyPOW K' X' s' m' o' f' d1)
             as [[result d2] l2]
       end; run; exact Hparse.
Qed.

(** ** State transitions *)

(** X21: on a DS node, after SetState has set the state to [s], CheckState
    allows an action exactly when the node is not idle and (s, action) is
    a pair of the table. SetState changes the state only: the mode and
    the pool are as before, and the transition is logged. *)
Theorem SetState_then_CheckState K s action d :
  LOOKUP_NODE_MODE K = false →
  SetState K s d = (tt, set_m_state s d, [(INFO, DSStateIsNow (GetStateString s))])
  ∧ (value (CheckState K action (final (SetState K s d))) = true
     ↔ m_mode d ≠ IDLE ∧ permitted_pair s action).
Proof.
  intros Hlook. unfold SetState. rewrite Hlook. run. split; [reflexivity |].
  destruct (decide (m_mode d = IDLE)) as [Hidle | Hmode].
  - rewrite CheckState_idle by assumption. cbn. split; [discriminate | tauto].
  - rewrite CheckState_run by assumption. cbn [m_state set_m_state].
    rewrite <- found_in_table_permitted.
    destruct (found_in_table s action); cbn; split; (tauto || discriminate).
Qed.

Lemma SetState_then_CheckState_witness :
  value (CheckState (sample_constants false false 2) PROCESS_DSBLOCKCONSENSUS
           (final (SetState (sample_constants false false 2) DSBLOCK_CONSENSUS
                     (sample_node POW_SUBMISSION BACKUP_DS 1 NO_SYNC)))) = true.
Proof.
  apply (SetState_then_CheckState (sample_constants false false 2)
           DSBLOCK_CONSENSUS PROCESS_DSBLOCKCONSENSUS
           (sample_node POW_SUBMISSION BACKUP_DS 1 NO_SYNC));
    [reflexivity |].
  split; [discriminate |]. unfold permitted_pair. tauto.
Defined.

(** ** The difficulty controller, continued *)

(** X22: when no shard has a member, or when the submissions are as many
    as the shard members, CalculateNewDifficulty applies no adjustment:
    it returns the larger of the current difficulty and POW_DIFFICULTY,
    plus 1 at an annual-bump epoch, leaves the node as it is, and calls
    neither SafeMath function. *)
Theorem CalculateNewDifficulty_without_adjustment K X currentDifficulty d
    blocks_per_year :
  currentNodes d = 0 ∨ currentNodes d = Z.of_nat (size (m_allPoWs d)) →
  estimatedBlocksOneYear K = Some blocks_per_year → 0 < blocks_per_year →
  CalculateNewDifficulty K X currentDifficulty d
  = (Some (if annual_bump blocks_per_year (m_currentEpochNum (m_mediator d))
           then uint8 (Z.max (uint8 currentDifficulty) (uint8 (POW_DIFFICULTY K)) + 1)
           else Z.max (uint8 currentDifficulty) (uint8 (POW_DIFFICULTY K))),
     d,
     (INFO, NodesAndSubmissions (currentNodes d) (Z.of_nat (size (m_allPoWs d))))
     :: (if annual_bump blocks_per_year (m_currentEpochNum (m_mediator d))
         then [(INFO, OneYearEpoch (m_currentEpochNum (m_mediator d)))]
         else [])).
Proof.
  intros Hstable Hest Hpos. unfold CalculateNewDifficulty. rewrite Hest. run.
  fold (currentNodes d).
  replace ((0 <? currentNodes d)
           && negb (currentNodes d =? Z.of_nat (size (m_allPoWs d)))) with false.
  - run. replace (blocks_per_year =? 0) with false by (symmetry; apply Z.eqb_neq; lia).
    rewrite bump_test_agrees by assumption.
    destruct (annual_bump _ _); reflexivity.
  - symmetry. destruct Hstable as [-> | <-]; [reflexivity |].
    rewrite Z.eqb_refl. apply andb_false_r.
Qed.

Lemma CalculateNewDifficulty_without_adjustment_witness :
  value (CalculateNewDifficulty (sample_constants false false 2)
           (sample_collaborators true) 7 (sample_population 4 4 5))
  = Some 7.
Proof.
  rewrite (CalculateNewDifficulty_without_adjustment (sample_constants false false 2)
             (sample_collaborators true) 7 (sample_population 4 4 5) 1971000);
    [reflexivity | right; reflexivity | reflexivity | lia].
Defined.

Lemma annual_bump_iff b epoch :
  0 < b → 0 ≤ epoch →
  annual_bump b epoch = true ↔ ∃ k, 0 ≤ k ≤ 10 ∧ epoch = k * b.
Proof.
  intros Hb Hepoch. unfold annual_bump.
  rewrite andb_true_iff, Z.leb_le, Z.eqb_eq. split.
  - intros [Hle Hmod]. exists (epoch / b).
    pose proof (Z.div_mod epoch b ltac:(lia)) as Hdm.
    pose proof (Z.div_pos epoch b Hepoch Hb). split; nia.
  - intros (k & Hk & ->). split; [nia | apply Z.mod_mul; lia].
Qed.

(** X23: the epoch takes part in CalculateNewDifficulty through the annual
    bump alone, and the bump is applied exactly at the epochs
    k * blocks_per_year with k from 0 to 10, eleven times, the first time
    at epoch 0. Take the same shards and submissions at an ordinary epoch:
    the call returns some difficulty with no "At one year epoch" entry in
    its log. At a year epoch the call returns that difficulty
    plus 1 (in 8 bits) and its log is the same log followed by that entry;
    at every other epoch it returns the same difficulty and log. *)
Theorem annual_bump_at_year_epochs K X currentDifficulty d d' blocks_per_year :
  estimatedBlocksOneYear K = Some blocks_per_year → 0 < blocks_per_year →
  in_int64 (currentNodes d * POW_CHANGE_PERCENT_TO_ADJ_DIFF K) = true →
  m_shards d' = m_shards d → m_allPoWs d' = m_allPoWs d →
  0 ≤ m_currentEpochNum (m_mediator d) →
  0 ≤ m_currentEpochNum (m_mediator d') →
  ¬ (∃ k, 0 ≤ k ≤ 10 ∧ m_currentEpochNum (m_mediator d') = k * blocks_per_year) →
  ∃ newDifficulty,
    value (CalculateNewDifficulty K X currentDifficulty d') = Some newDifficulty
    ∧ (∀ epoch, (INFO, OneYearEpoch epoch)
                  ∉ logged (CalculateNewDifficulty K X currentDifficulty d'))
    ∧ ((∃ k, 0 ≤ k ≤ 10 ∧ m_currentEpochNum (m_mediator d) = k * blocks_per_year) →
       value (CalculateNewDifficulty K X currentDifficulty d)
       = Some (uint8 (newDifficulty + 1))
       ∧ logged (CalculateNewDifficulty K X currentDifficulty d)
         = (logged (CalculateNewDifficulty K X currentDifficulty d')
            ++ [(INFO, OneYearEpoch (m_currentEpochNum (m_mediator d)))]))
    ∧ (¬ (∃ k, 0 ≤ k ≤ 10 ∧ m_currentEpochNum (m_mediator d) = k * blocks_per_year) →
       value (CalculateNewDifficulty K X currentDifficulty d) = Some newDifficulty
       ∧ logged (CalculateNewDifficulty K X currentDifficulty d)
         = logged (CalculateNewDifficulty K X currentDifficulty d')).
Proof.
  intros Hest Hpos Hprod Hshards Hpows Hepoch Hepoch' Hordinary.
  pose proof (annual_bump_iff _ _ Hpos Hepoch) as Hyear_iff.
  rewrite <- (annual_bump_iff _ _ Hpos Hepoch') in Hordinary.
  apply not_true_is_false in Hordinary.
  unfold CalculateNewDifficulty. rewrite Hest. run. rewrite Hshards, Hpows.
  fold (currentNodes d). rewrite Hprod. cbn [negb].
  replace (blocks_per_year =? 0) with false by (symmetry; apply Z.eqb_neq; lia).
  rewrite !bump_test_agrees by assumption. rewrite Hordinary.
  destruct (annual_bump blocks_per_year (m_currentEpochNum (m_mediator d)));
    repeat branch; cbn; eexists;
    (split; [reflexivity |];
     split; [intros epoch; rewrite ?not_elem_of_cons; repeat split;
             (discriminate || apply not_elem_of_nil) |];
     split; intros Hyear;
     first [ by split
           | apply Hyear_iff in Hyear; discriminate
           | exfalso; apply Hyear, Hyear_iff; reflexivity ]).
Qed.

Lemma annual_bump_at_year_epochs_witness :
  value (CalculateNewDifficulty (sample_constants false false 2)
           (sample_collaborators true) 7 (sample_population 4 4 0))
  = Some 8.
Proof.
  destruct (annual_bump_at_year_epochs (sample_constants false false 2)
              (sample_collaborators true) 7 (sample_population 4 4 0)
              (sample_population 4 4 5) 1971000)
    as (newDifficulty & Hordinary & _ & Hyear & _);
    [ reflexivity | lia | reflexivity | reflexivity | reflexivity | cbn; lia
    | cbn; lia | cbn; intros (k & Hk & Heq); lia | ].
  destruct Hyear as [-> _]; [exists 0; cbn; lia |].
  vm_compute in Hordinary. injection Hordinary as <-. reflexivity.
Defined.

(** X24: the year estimate is rounded down to a multiple of
    NUM_FINAL_BLOCK_PER_POW: it is a multiple of it, it is not above the
    number of seconds of a year, and it is 0, which makes the epoch test
    divide by zero, exactly when a year holds fewer blocks than
    NUM_FINAL_BLOCK_PER_POW. *)
Theorem estimatedBlocksOneYear_rounded K blocks_per_year :
  0 < NUM_FINAL_BLOCK_PER_POW K →
  estimatedBlocksOneYear K = Some blocks_per_year →
  (NUM_FINAL_BLOCK_PER_POW K | blocks_per_year)
  ∧ 0 ≤ blocks_per_year ≤ 365 * 24 * 3600
  ∧ (blocks_per_year = 0
     ↔ 365 * 24 * 3600
         / uint32 (POW_WINDOW_IN_SECONDS K / NUM_FINAL_BLOCK_PER_POW K
                   + TX_DISTRIBUTE_TIME_IN_MS K / 1000)
       < NUM_FINAL_BLOCK_PER_POW K).
Proof.
  intros Hnum. unfold estimatedBlocksOneYear.
  destruct (NUM_FINAL_BLOCK_PER_POW K =? 0) eqn:Hzero; [discriminate |].
  cbv zeta.
  set (secondsPerBlock := uint32 (POW_WINDOW_IN_SECONDS K / NUM_FINAL_BLOCK_PER_POW K
                                  + TX_DISTRIBUTE_TIME_IN_MS K / 1000)).
  destruct (secondsPerBlock =? 0) eqn:Hsec; [discriminate |].
  apply Z.eqb_neq in Hsec. intros [= <-].
  assert (0 < secondsPerBlock) as Hpos.
  { unfold secondsPerBlock, uint32, wrap in *.
    pose proof (Z.mod_pos_bound (POW_WINDOW_IN_SECONDS K / NUM_FINAL_BLOCK_PER_POW K
                                 + TX_DISTRIBUTE_TIME_IN_MS K / 1000) (2 ^ 32)
                  ltac:(lia)). lia. }
  set (estimate := 365 * 24 * 3600 / secondsPerBlock).
  assert (0 ≤ estimate ≤ 365 * 24 * 3600) as Hestimate.
  { unfold estimate. split; [apply Z.div_pos; lia |].
    apply Z.div_le_upper_bound; [lia | nia]. }
  pose proof (Z.div_mod estimate (NUM_FINAL_BLOCK_PER_POW K) ltac:(lia)) as Hdm.
  pose proof (Z.mod_pos_bound estimate (NUM_FINAL_BLOCK_PER_POW K) Hnum) as Hmod.
  pose proof (Z.div_pos estimate (NUM_FINAL_BLOCK_PER_POW K) ltac:(lia) Hnum) as Hq.
  split; [by exists (estimate / NUM_FINAL_BLOCK_PER_POW K) |].
  split; [nia |]. split; [intros Hb; nia |].
  intros Hsmall. rewrite Z.div_small by lia. reflexivity.
Qed.

Lemma estimatedBlocksOneYear_rounded_witness :
  (NUM_FINAL_BLOCK_PER_POW (sample_constants false false 2) | 1971000).
Proof.
  apply (estimatedBlocksOneYear_rounded (sample_constants false false 2) 1971000);
    [cbn; lia | reflexivity].
Defined.

Lemma quot_sign x t :
  0 ≤ t → (x ≤ 0 → Z.quot x t ≤ 0) ∧ (0 ≤ x → 0 ≤ Z.quot x t).
Proof.
  intros Ht. destruct (decide (t = 0)) as [-> | Hne].
  - replace (Z.quot x 0) with 0 by (by destruct x). lia.
  - split; intros Hx.
    + pose proof (Z.quot_pos (- x) t ltac:(lia) ltac:(lia)) as Hq.
      rewrite Z.quot_opp_l in Hq by assumption. lia.
    + apply Z.quot_pos; lia.
Qed.

Lemma adjustThreshold_nonneg product :
  0 ≤ product →
  0 ≤ (if 99 <? Z.quot product 100 then 99 else Z.quot product 100).
Proof.
  intros Hprod. destruct (99 <? _); [lia | apply Z.quot_pos; lia].
Qed.

Lemma directed_difficulty P cur a b epoch :
  2 ≤ cur ≤ 252 → 0 ≤ P ≤ cur →
  let newDifficulty :=
    Z.max (uint8 ((if 2 <? a then 2 else if a <? - 2 then - 2 else a) + cur))
          (uint8 P) in
  let returned :=
    if annual_bump b epoch then uint8 (newDifficulty + 1) else newDifficulty in
  (a ≤ 0 → returned ≤ cur + (if annual_bump b epoch then 1 else 0))
  ∧ (0 ≤ a → cur ≤ returned).
Proof.
  intros Hcur HP. pose proof (clamp_step_bound a) as Hclamp. cbn zeta.
  assert (a ≤ 0 → (if 2 <? a then 2 else if a <? - 2 then - 2 else a) ≤ 0) as Hneg.
  { destruct (2 <? a) eqn:Hhi; [apply Z.ltb_lt in Hhi; lia |].
    destruct (a <? - 2); lia. }
  assert (0 ≤ a → 0 ≤ (if 2 <? a then 2 else if a <? - 2 then - 2 else a)) as Hnonneg.
  { destruct (2 <? a); [lia |].
    destruct (a <? - 2) eqn:Hlo; [apply Z.ltb_lt in Hlo; lia | lia]. }
  rewrite (uint8_small (_ + cur)) by lia. rewrite (uint8_small P) by lia.
  destruct (annual_bump b epoch); [rewrite uint8_small by lia |]; lia.
Qed.

(** X25: with a [SafeMath] that computes the difference and the quotient,
    and a percentage that is not negative, the adjustment follows the
    submissions: for a current difficulty between 2 and 252 that is at
    least POW_DIFFICULTY, fewer submissions than shard members never
    raise the difficulty (the annual bump apart), and more submissions
    never lower it. *)
Theorem CalculateNewDifficulty_follows_submissions K X currentDifficulty d
    blocks_per_year :
  SafeMath_sound X →
  2 ≤ currentDifficulty ≤ 252 →
  0 ≤ POW_DIFFICULTY K ≤ currentDifficulty →
  estimatedBlocksOneYear K = Some blocks_per_year → 0 < blocks_per_year →
  0 ≤ POW_CHANGE_PERCENT_TO_ADJ_DIFF K →
  in_int64 (currentNodes d * POW_CHANGE_PERCENT_TO_ADJ_DIFF K) = true →
  ∃ newDifficulty,
    value (CalculateNewDifficulty K X currentDifficulty d) = Some newDifficulty
    ∧ (Z.of_nat (size (m_allPoWs d)) ≤ currentNodes d →
       newDifficulty
       ≤ currentDifficulty
         + (if annual_bump blocks_per_year (m_currentEpochNum (m_mediator d))
            then 1 else 0))
    ∧ (currentNodes d ≤ Z.of_nat (size (m_allPoWs d)) →
       currentDifficulty ≤ newDifficulty).
Proof.
  intros [Hsub Hdiv] Hcur HP Hest Hpos Hpct Hprod.
  unfold CalculateNewDifficulty. rewrite Hest. run.
  fold (currentNodes d). rewrite Hprod. cbn [negb].
  replace (blocks_per_year =? 0) with false by (symmetry; apply Z.eqb_neq; lia).
  rewrite bump_test_agrees by assumption.
  assert (0 < currentNodes d →
          0 ≤ (if 99 <? Z.quot (currentNodes d * POW_CHANGE_PERCENT_TO_ADJ_DIFF K) 100
               then 99
               else Z.quot (currentNodes d * POW_CHANGE_PERCENT_TO_ADJ_DIFF K) 100))
    as Hthr.
  { intros Hnodes. apply adjustThreshold_nonneg. nia. }
  repeat branch;
    match goal with
    | |- context [uint8 ((if 2 <? ?a then _ else _) + _)] =>
        pose proof (directed_difficulty (POW_DIFFICULTY K) currentDifficulty a
                      blocks_per_year (m_currentEpochNum (m_mediator d)) Hcur HP)
          as [Hdown Hup]
    end;
    match goal with
    | Hbump : annual_bump _ _ = _ |- _ => rewrite Hbump in Hdown, Hup
    end;
    eexists; (split; [reflexivity |]);
    repeat match goal with
      | Hb : (_ && _) = true |- _ => apply andb_true_iff in Hb; destruct Hb
      | Hb : (_ <? _) = true |- _ => apply Z.ltb_lt in Hb
      | Hb : (_ <? _) = false |- _ => apply Z.ltb_ge in Hb
      | Hb : negb _ = true |- _ => apply negb_true_iff in Hb
      | Hb : (_ =? _) = false |- _ => apply Z.eqb_neq in Hb
      | Hs : SafeMath_sub X _ _ = Some _ |- _ => apply Hsub in Hs
      | Hs : SafeMath_div X ?x ?t = Some _ |- _ =>
          apply Hdiv in Hs; pose proof (quot_sign x t)
      end;
    (split; intros Hcmp; [apply Hdown | apply Hup]; lia).
Qed.

Lemma sample_SafeMath_sound whitelisted : SafeMath_sound (sample_collaborators whitelisted).
Proof.
  split; cbn; intros a b r.
  - unfold SafeMath_int64_sub. destruct (in_int64 _); congruence.
  - unfold SafeMath_int64_div. destruct (b =? 0); [discriminate |].
    destruct (in_int64 _); congruence.
Qed.

Lemma CalculateNewDifficulty_follows_submissions_witness :
  ∃ newDifficulty,
    value (CalculateNewDifficulty (sample_constants false false 2)
             (sample_collaborators true) 7 (sample_population 9 4 5))
    = Some newDifficulty
    ∧ 7 ≤ newDifficulty.
Proof.
  destruct (CalculateNewDifficulty_follows_submissions (sample_constants false false 2)
              (sample_collaborators true) 7 (sample_population 9 4 5) 1971000)
    as (newDifficulty & Hvalue & _ & Hup);
    [ apply sample_SafeMath_sound | lia | cbn; lia | reflexivity | lia | cbn; lia
    | reflexivity | ].
  exists newDifficulty. split; [exact Hvalue |]. apply Hup. vm_compute. discriminate.
Defined.
